(** * NanoPressure: a shallow embedding of [NanoPressure.py]

    The program talks to a Bluetooth Low Energy pressure sensor.  It is
    embedded as a state-and-exception monad over a [world] that scripts
    what the radio, the clock, the operator and the operating system
    answer, and that records every observable action in a trace.

    Layout: numbers and wire formats first ([PyFloat], [struct], [np]),
    then the world and the monad, then the program function by function
    in the order of the source, then the properties. *)

From Stdlib Require Import ZArith List String Ascii Bool Lia.
From Stdlib Require Import Strings.Byte.
From Stdlib Require Import Floats.SpecFloat.
Import ListNotations.
Local Open Scope string_scope.
Local Open Scope Z_scope.
Local Open Scope list_scope.

(** ** Bytes *)

Definition bytes := list byte.

Definition byte_val (b : byte) : Z := Z.of_N (Byte.to_N b).

Definition byte_of_Z (n : Z) : byte :=
  match Byte.of_N (Z.to_N (n mod 256)) with
  | Some b => b
  | None => x00
  end.

(** ** Python floats: IEEE-754 binary64, round to nearest even *)

Module PyFloat.

Definition float := spec_float.

Definition prec : Z := 53.
Definition emax : Z := 1024.

(** [float(n)] for a Python int. *)
Definition of_int (n : Z) : float := binary_normalize prec emax n 0 false.

Definition add : float -> float -> float := SFadd prec emax.
Definition sub : float -> float -> float := SFsub prec emax.
Definition mul : float -> float -> float := SFmul prec emax.
Definition div : float -> float -> float := SFdiv prec emax.

(** A C [float] widened to a C [double]: the value is kept, the
    mantissa is re-aligned to 53 bits. *)
Definition of_binary32 (x : spec_float) : float :=
  match x with
  | S754_finite s m e => binary_round prec emax s m e
  | _ => x
  end.

(** The literal [0.1]. *)
Definition lit_0_1 : float := S754_finite false 7205759403792794 (-56).

(** The literal [1000.] and the int [1000] coerced by [/=]. *)
Definition lit_1000 : float := of_int 1000.

(** The literals [1.0] and [0.5]. *)
Definition lit_1_0 : float := S754_finite false 4503599627370496 (-52).
Definition lit_0_5 : float := S754_finite false 4503599627370496 (-53).

End PyFloat.

(** ** The [struct] module, for the three format strings of the program *)

Module struct.

Inductive byteorder := Little | Big.

Inductive code := code_f | code_I.

Inductive value := VInt (n : Z) | VFloat (x : PyFloat.float).

(** Every code used here is four bytes wide, in native and in standard
    mode alike, and four-byte aligned: no padding. *)
Definition code_size (c : code) : nat := 4%nat.

Fixpoint parse_codes (s : string) : option (list code) :=
  match s with
  | EmptyString => Some []
  | String c rest =>
      match parse_codes rest with
      | None => None
      | Some cs =>
          if Ascii.eqb c "f" then Some (code_f :: cs)
          else if Ascii.eqb c "I" then Some (code_I :: cs)
          else None
      end
  end.

(** The first character may select the byte order; without it the
    host's order is used. *)
Definition parse (host : byteorder) (fmt : string)
  : option (byteorder * list code) :=
  match fmt with
  | String c rest =>
      if Ascii.eqb c "<" then option_map (pair Little) (parse_codes rest)
      else if Ascii.eqb c ">" then option_map (pair Big) (parse_codes rest)
      else option_map (pair host) (parse_codes fmt)
  | EmptyString => Some (host, [])
  end.

(** Big-endian accumulation: [x = (x << 8) | byte]. *)
Fixpoint word_be (acc : Z) (bs : bytes) : Z :=
  match bs with
  | [] => acc
  | b :: rest => word_be (Z.lor (Z.shiftl acc 8) (byte_val b)) rest
  end.

Definition word (o : byteorder) (bs : bytes) : Z :=
  match o with
  | Big => word_be 0 bs
  | Little => word_be 0 (rev bs)
  end.

(** The binary32 value held in a 32-bit word: sign bit 31, biased
    exponent bits 30..23, fraction bits 22..0. *)
Definition float32_of_bits (w : Z) : spec_float :=
  let s := Z.testbit w 31 in
  let e := Z.land (Z.shiftr w 23) 255 in
  let f := Z.land w 8388607 in
  if e =? 255 then
    if f =? 0 then S754_infinity s else S754_nan
  else if e =? 0 then
    match f with
    | Zpos m => S754_finite s m (-149)
    | _ => S754_zero s
    end
  else
    match Z.lor f 8388608 with
    | Zpos m => S754_finite s m (e - 150)
    | _ => S754_nan
    end.

Definition decode (o : byteorder) (c : code) (bs : bytes) : value :=
  match c with
  | code_I => VInt (word o bs)
  | code_f => VFloat (PyFloat.of_binary32 (float32_of_bits (word o bs)))
  end.

(** [None] is [struct.error]: the buffer must have exactly the size the
    format calls for. *)
Fixpoint unpack_codes (o : byteorder) (cs : list code) (data : bytes)
  : option (list value) :=
  match cs with
  | [] => match data with [] => Some [] | _ => None end
  | c :: cs' =>
      let n := code_size c in
      if (List.length data <? n)%nat then None
      else
        match unpack_codes o cs' (skipn n data) with
        | None => None
        | Some vs => Some (decode o c (firstn n data) :: vs)
        end
  end.

Definition unpack (host : byteorder) (fmt : string) (data : bytes)
  : option (list value) :=
  match parse host fmt with
  | None => None
  | Some (o, cs) => unpack_codes o cs data
  end.

Fixpoint word_bytes_le (n : nat) (w : Z) : bytes :=
  match n with
  | O => []
  | S n' => byte_of_Z w :: word_bytes_le n' (Z.shiftr w 8)
  end.

(** [struct.pack('<I', n)]: [None] when [n] is not an unsigned 32-bit
    value. *)
Definition pack_lt_I (n : Z) : option bytes :=
  if (0 <=? n) && (n <? 4294967296) then Some (word_bytes_le 4 n) else None.

End struct.

(** ** The part of NumPy the program uses *)

Module np.

(** [np.array] of a list of [(float, int)] tuples is a float64 array:
    of shape [(0,)] for the empty list, of shape [(n, 2)] otherwise. *)
Inductive ndarray :=
| Array1 (xs : list PyFloat.float)
| Array2 (rows : list (PyFloat.float * PyFloat.float)).

Definition array (l : list (PyFloat.float * Z)) : ndarray :=
  match l with
  | [] => Array1 []
  | _ => Array2 (map (fun s => (fst s, PyFloat.of_int (snd s))) l)
  end.

(** [a[:,1] /= d] and [a[:,1] += d]; [None] is [IndexError] (two
    indices into a one-dimensional array). *)
Definition col1_update (f : PyFloat.float -> PyFloat.float) (a : ndarray)
  : option ndarray :=
  match a with
  | Array1 _ => None
  | Array2 rows => Some (Array2 (map (fun r => (fst r, f (snd r))) rows))
  end.

Definition col1_idiv (a : ndarray) (d : PyFloat.float) : option ndarray :=
  col1_update (fun x => PyFloat.div x d) a.

Definition col1_iadd (a : ndarray) (d : PyFloat.float) : option ndarray :=
  col1_update (fun x => PyFloat.add x d) a.

End np.

(** ** [datetime.timedelta(seconds=...)] *)

Inductive number := NInt (n : Z) | NFloat (x : PyFloat.float).

(** [a * b] for an int [a] and an int or float [b]. *)
Definition int_mul (a : Z) (b : number) : number :=
  match b with
  | NInt n => NInt (a * n)
  | NFloat x => NFloat (PyFloat.mul (PyFloat.of_int a) x)
  end.

Definition float_floor (x : PyFloat.float) : option Z :=
  match x with
  | S754_zero _ => Some 0
  | S754_finite s m e =>
      let v := cond_Zopp s (Zpos m) in
      Some (if 0 <=? e then v * 2 ^ e else v / 2 ^ (- e))
  | _ => None
  end.

(** The constructor refuses a duration of more than 999999999 days. *)
Definition timedelta_ok (seconds : number) : bool :=
  match seconds with
  | NInt n => Z.abs (n / 86400) <=? 999999999
  | NFloat x =>
      match float_floor x with
      | Some n => Z.abs (n / 86400) <=? 999999999
      | None => false
      end
  end.

(** ** bleak objects, signals, and what the program can observe or do *)

Record BLEDevice := { address : string; name : string }.

Record AdvertisementData := { adv_rssi : Z }.

Definition str_device (d : BLEDevice) : string :=
  (address d ++ ": " ++ name d)%string.

(** [SIGWINCH] stands for a signal the program installs no handler for
    and that the system ignores by default. *)
Inductive signal := SIGINT | SIGTERM | SIGWINCH.

Definition signal_eqb (a b : signal) : bool :=
  match a, b with
  | SIGINT, SIGINT | SIGTERM, SIGTERM | SIGWINCH, SIGWINCH => true
  | _, _ => false
  end.

(** What the event loop is handed once the task awaits its stop event. *)
Inductive arrival :=
| Notification (handle : Z) (data : bytes)
| Signal (s : signal)
| Elapsed (seconds : Z).

Inductive level := DEBUG | INFO | WARNING | ERROR.

(** A formatted message, kept as its pieces. *)
Inductive piece :=
| Text (s : string)
| Int (n : Z)
| Flt (x : PyFloat.float)
| Dev (d : BLEDevice)
| Delta (seconds : number)
| Stamp (t : PyFloat.float).

Inductive event :=
| Discover (timeout : Z)
| FindByAddress (addr : string) (timeout : Z)
| MenuShown (entries : list string) (title : string)
| Connect (d : BLEDevice) (timeout : Z)
| Disconnect
| ReadChar (handle : Z)
| WriteChar (handle : Z) (data : bytes) (response : bool)
| StartNotify (handle : Z)
| StopNotify (handle : Z)
| AddSignalHandler (s : signal)
| CallbackFailed
| Log (l : level) (m : list piece)
| Print (m : list piece) (terminator : string)
| SaveTxt (filename : string) (overwrite : bool) (data : np.ndarray)
          (fmt : string).

Inductive exn :=
| StructError | BleakError | KeyError | IndexError | TypeError | NameError
| OverflowError | StopIteration | OSError
| SystemExit (code : Z).

(** Why control did not come back with a value: an exception, an await
    that nothing resumes, or a loop cut short by the fuel of the model. *)
Inductive stop := Raised (e : exn) | Blocked | OutOfFuel.

Inductive outcome (A : Type) :=
| Return (a : A)
| Stop (r : stop).

Arguments Return {A} a.
Arguments Stop {A} r.

(** What the surroundings of the program answer, and what it has done
    so far.  [arrivals] is what the event loop gets to serve, in order,
    from the moment the task awaits its stop event.  The task does not
    run the instant the event is set, and a request to the device is not
    answered the instant it is made: [wake_lag] is the number of
    arrivals the loop serves between the setting of the stop event and
    the task running again, [stop_lag] the number it serves while the
    stop-notify request is under way.  [openable] tells whether
    [open(name, 'w')] or [open(name, 'a')] succeeds. *)
Record world := {
  byteorder : struct.byteorder;
  advertising : list (string * (BLEDevice * AdvertisementData));
  reachable : string -> option BLEDevice;
  menu_answer : option nat;
  services : list (string * list string);
  gatt : Z -> list bytes;
  clock : nat -> PyFloat.float;
  clock_reads : nat;
  arrivals : list arrival;
  wake_lag : nat;
  stop_lag : nat;
  openable : string -> bool;
  eol : option string;
  notifying : list Z;
  signal_handlers : list signal;
  trace : list event
}.

(** ** The monad *)

Definition M (A : Type) : Type := world -> outcome A * world.

Definition ret {A} (a : A) : M A := fun w => (Return a, w).

Definition bind {A B} (m : M A) (k : A -> M B) : M B :=
  fun w =>
    match m w with
    | (Return a, w') => k a w'
    | (Stop r, w') => (Stop r, w')
    end.

Definition halt {A} (r : stop) : M A := fun w => (Stop r, w).

Definition raise {A} (e : exn) : M A := halt (Raised e).

Declare Scope py_scope.
Delimit Scope py_scope with py.
Notation "x <- m ;; k" := (bind m (fun x => k))
  (at level 61, m at next level, right associativity) : py_scope.
Notation "m ;; k" := (bind m (fun _ => k))
  (at level 61, right associativity) : py_scope.
Local Open Scope py_scope.

Definition with_trace (t : list event) (w : world) : world :=
  {| byteorder := byteorder w; advertising := advertising w;
     reachable := reachable w; menu_answer := menu_answer w;
     services := services w; gatt := gatt w; clock := clock w;
     clock_reads := clock_reads w; arrivals := arrivals w;
     wake_lag := wake_lag w; stop_lag := stop_lag w; openable := openable w;
     eol := eol w;
     notifying := notifying w; signal_handlers := signal_handlers w;
     trace := t |}.

Definition with_gatt (g : Z -> list bytes) (w : world) : world :=
  {| byteorder := byteorder w; advertising := advertising w;
     reachable := reachable w; menu_answer := menu_answer w;
     services := services w; gatt := g; clock := clock w;
     clock_reads := clock_reads w; arrivals := arrivals w;
     wake_lag := wake_lag w; stop_lag := stop_lag w; openable := openable w;
     eol := eol w;
     notifying := notifying w; signal_handlers := signal_handlers w;
     trace := trace w |}.

Definition with_clock_reads (n : nat) (w : world) : world :=
  {| byteorder := byteorder w; advertising := advertising w;
     reachable := reachable w; menu_answer := menu_answer w;
     services := services w; gatt := gatt w; clock := clock w;
     clock_reads := n; arrivals := arrivals w;
     wake_lag := wake_lag w; stop_lag := stop_lag w; openable := openable w;
     eol := eol w;
     notifying := notifying w; signal_handlers := signal_handlers w;
     trace := trace w |}.

Definition with_arrivals (q : list arrival) (w : world) : world :=
  {| byteorder := byteorder w; advertising := advertising w;
     reachable := reachable w; menu_answer := menu_answer w;
     services := services w; gatt := gatt w; clock := clock w;
     clock_reads := clock_reads w; arrivals := q;
     wake_lag := wake_lag w; stop_lag := stop_lag w; openable := openable w;
     eol := eol w;
     notifying := notifying w; signal_handlers := signal_handlers w;
     trace := trace w |}.

Definition with_eol (e : option string) (w : world) : world :=
  {| byteorder := byteorder w; advertising := advertising w;
     reachable := reachable w; menu_answer := menu_answer w;
     services := services w; gatt := gatt w; clock := clock w;
     clock_reads := clock_reads w; arrivals := arrivals w;
     wake_lag := wake_lag w; stop_lag := stop_lag w; openable := openable w;
     eol := e;
     notifying := notifying w; signal_handlers := signal_handlers w;
     trace := trace w |}.

Definition with_notifying (l : list Z) (w : world) : world :=
  {| byteorder := byteorder w; advertising := advertising w;
     reachable := reachable w; menu_answer := menu_answer w;
     services := services w; gatt := gatt w; clock := clock w;
     clock_reads := clock_reads w; arrivals := arrivals w;
     wake_lag := wake_lag w; stop_lag := stop_lag w; openable := openable w;
     eol := eol w;
     notifying := l; signal_handlers := signal_handlers w;
     trace := trace w |}.

Definition with_signal_handlers (l : list signal) (w : world) : world :=
  {| byteorder := byteorder w; advertising := advertising w;
     reachable := reachable w; menu_answer := menu_answer w;
     services := services w; gatt := gatt w; clock := clock w;
     clock_reads := clock_reads w; arrivals := arrivals w;
     wake_lag := wake_lag w; stop_lag := stop_lag w; openable := openable w;
     eol := eol w;
     notifying := notifying w; signal_handlers := l;
     trace := trace w |}.

Definition emit (e : event) : M unit :=
  fun w => (Return tt, with_trace (trace w ++ [e]) w).

Definition ask {A} (f : world -> A) : M A := fun w => (Return (f w), w).

Fixpoint for_each {A} (l : list A) (body : A -> M unit) : M unit :=
  match l with
  | [] => ret tt
  | x :: rest => body x ;; for_each rest body
  end.

Definition of_option {A} (e : exn) (o : option A) : M A :=
  match o with
  | Some a => ret a
  | None => raise e
  end.

(** ** Primitive actions *)

(** [sys.exit(code)] raises [SystemExit]; nothing in the program catches
    it. *)
Definition sys_exit {A} (code : Z) : M A := raise (SystemExit code).

(** [time.time()] and [datetime.now()] read the same wall clock. *)
Definition time_time : M PyFloat.float :=
  fun w => (Return (clock w (clock_reads w)),
            with_clock_reads (S (clock_reads w)) w).

Definition datetime_now : M PyFloat.float := time_time.

Definition log (l : level) (m : list piece) : M unit := emit (Log l m).

(** [client.read_gatt_char(handle)]: the device answers with the next
    payload scripted for that characteristic; when none is left the
    request fails. *)
Definition read_gatt_char (handle : Z) : M bytes :=
  emit (ReadChar handle) ;;
  fun w =>
    match gatt w handle with
    | [] => (Stop (Raised BleakError), w)
    | d :: rest =>
        (Return d,
         with_gatt (fun h => if h =? handle then rest else gatt w h) w)
    end.

Definition write_gatt_char (handle : Z) (data : bytes) (response : bool)
  : M unit :=
  emit (WriteChar handle data response).

Definition start_notify (handle : Z) : M unit :=
  emit (StartNotify handle) ;;
  fun w => (Return tt, with_notifying (handle :: notifying w) w).

Definition add_signal_handler (s : signal) : M unit :=
  emit (AddSignalHandler s) ;;
  fun w => (Return tt, with_signal_handlers (s :: signal_handlers w) w).

Definition struct_unpack (fmt : string) (data : bytes)
  : M (list struct.value) :=
  host <- ask byteorder ;;
  of_option StructError (struct.unpack host fmt data).

(** [t[i]] on the tuple [struct.unpack] returns. *)
Definition item (i : nat) (t : list struct.value) : M struct.value :=
  of_option IndexError (nth_error t i).

(** The formats fix which fields are ints; the casts below never fail
    on what [struct_unpack] returns for them. *)
Definition as_int (v : struct.value) : M Z :=
  match v with
  | struct.VInt n => ret n
  | struct.VFloat _ => raise TypeError
  end.

Definition as_sample (t : list struct.value) : M (PyFloat.float * Z) :=
  match t with
  | [struct.VFloat p; struct.VInt ms] => ret (p, ms)
  | _ => raise TypeError
  end.

Definition piece_of_value (v : struct.value) : piece :=
  match v with
  | struct.VInt n => Int n
  | struct.VFloat x => Flt x
  end.

Definition truthy_int (n : Z) : bool := negb (n =? 0).

Definition truthy_str (s : option string) : bool :=
  match s with
  | Some (String _ _) => true
  | _ => false
  end.

(** ** The program *)

Record Namespace := {
  verbose : Z;
  mode : string;
  addr : option string;
  rssi : Z;
  timeout : Z;
  interval : option Z;
  newline : bool;
  filename : string;
  overwrite : bool
}.

(** The dict comprehension of [discoverDevice]: the entries whose
    advertisement has [adv.rssi > minimum_rssi], in their order. *)
Definition keep_strong (minimum_rssi : Z)
  (devices : list (string * (BLEDevice * AdvertisementData)))
  : list (string * (BLEDevice * AdvertisementData)) :=
  filter (fun kv => adv_rssi (snd (snd kv)) >? minimum_rssi) devices.

Definition no_devices_message : string :=
  "Could not find any devices, check minimum RSSI level (option: --rssi)".

Definition discoverDevice (timeout minimum_rssi : Z) : M BLEDevice :=
  log INFO [Text "Scanning for bluetooth devices..."] ;;
  emit (Discover timeout) ;;
  found <- ask advertising ;;
  let devices := keep_strong minimum_rssi found in
  for_each (map snd devices)
    (fun da => log INFO [Text "Found device "; Dev (fst da);
                         Text " (RSSI = "; Int (adv_rssi (snd da));
                         Text " dB)"]) ;;
  match devices with
  | [] => log ERROR [Text no_devices_message] ;; sys_exit 1
  | _ => ret tt
  end ;;
  if (List.length devices =? 1)%nat then
    match map snd devices with
    | da :: _ => ret (fst da)
    | [] => raise StopIteration
    end
  else
    let devlist := map (fun da => fst da) (map snd devices) in
    emit (MenuShown (map str_device devlist) "Please select your device:") ;;
    menu_entry_index <- ask menu_answer ;;
    match menu_entry_index with
    | None => raise TypeError
    | Some i => of_option IndexError (nth_error devlist i)
    end.

Definition getDevice (address : string) (timeout : Z) : M BLEDevice :=
  emit (FindByAddress address timeout) ;;
  lookup <- ask reachable ;;
  match lookup address with
  | None =>
      log ERROR [Text "Could not find device with address "; Text address] ;;
      sys_exit 1
  | Some device => ret device
  end.

Definition scanPressureCallback (sender : Z) (data : bytes) : M unit :=
  t <- struct_unpack "f" data ;;
  pressure <- item 0 t ;;
  now <- datetime_now ;;
  e <- ask eol ;;
  terminator <- of_option NameError e ;;
  emit (Print [Stamp now; Text " : "; piece_of_value pressure; Text " Pa"]
              terminator).

Definition readCounts (handle : Z) : M Z :=
  counts <- read_gatt_char handle ;;
  t <- struct_unpack "<I" counts ;;
  v <- item 0 t ;;
  counts <- as_int v ;;
  log INFO [Text "Found "; Int counts; Text " pressure values on device"] ;;
  ret counts.

Definition handles : list (string * Z) :=
  [ ("pressureValue", 11);
    ("interval", 16);
    ("pressureHistory", 20);
    ("deviceTime", 23);
    ("pressureCounts", 26) ].

Fixpoint dict_get (d : list (string * Z)) (k : string) : option Z :=
  match d with
  | [] => None
  | (k', v) :: rest => if String.eqb k k' then Some v else dict_get rest k
  end.

Definition handle_of (k : string) : M Z := of_option KeyError (dict_get handles k).

(** [16384 - curr_counts], times the interval or [0.1]. *)
Definition remaining_buffer (curr_counts interval : Z) : number :=
  let counts_left := 16384 - curr_counts in
  let intv := if truthy_int interval then NInt interval
              else NFloat PyFloat.lit_0_1 in
  int_mul counts_left intv.

(** Lines 106-117 of [loop], run when [args.interval is not None]. *)
Definition configure_interval (interval : Z) : M unit :=
  h <- handle_of "interval" ;;
  data <- read_gatt_char h ;;
  t <- struct_unpack "<I" data ;;
  current <- item 0 t ;;
  log INFO [Text "Current readout interval is "; piece_of_value current;
            Text " second(s)"] ;;
  log INFO [Text "Setting readout interval to "; Int interval;
            Text " second(s)"] ;;
  h <- handle_of "interval" ;;
  packed <- of_option StructError (struct.pack_lt_I interval) ;;
  write_gatt_char h packed true ;;
  h <- handle_of "pressureCounts" ;;
  curr_counts <- read_gatt_char h ;;
  t <- struct_unpack "<I" curr_counts ;;
  v <- item 0 t ;;
  curr_counts <- as_int v ;;
  let seconds := remaining_buffer curr_counts interval in
  if timedelta_ok seconds then
    log WARNING [Text "Remaining recording buffer will last for ";
                 Delta seconds]
  else raise OverflowError.

(** The event loop runs a notification callback; an exception it raises
    is reported by the loop and does not reach the awaiting task. *)
Definition deliver (callback : M unit) : M unit :=
  fun w =>
    match callback w with
    | (Return _, w') => (Return tt, w')
    | (Stop _, w') => (Return tt, with_trace (trace w' ++ [CallbackFailed]) w')
    end.

(** What the event loop does with one arrival.  A notification on a
    characteristic that is subscribed goes to the callback given to
    [start_notify], which in this program is [scanPressureCallback]; a
    signal with an installed handler runs it, and the handler installed
    is [stopEvent.set].  The answer tells whether the stop event was
    set. *)
Definition serve_one (a : arrival) : M bool :=
  match a with
  | Signal s =>
      installed <- ask signal_handlers ;;
      ret (existsb (signal_eqb s) installed)
  | Notification h data =>
      subscribed <- ask notifying ;;
      (if existsb (Z.eqb h) subscribed
       then deliver (scanPressureCallback h data)
       else ret tt) ;;
      ret false
  | Elapsed _ => ret false
  end.

(** The event loop serves the next [n] arrivals, or all that are left,
    while the task is suspended with the stop event already set. *)
Fixpoint serve (n : nat) (pending : list arrival) : M unit :=
  match n, pending with
  | S n', a :: rest =>
      (fun w => (Return tt, with_arrivals rest w)) ;;
      serve_one a ;;
      serve n' rest
  | _, _ => ret tt
  end.

Definition serve_pending (n : nat) : M unit :=
  fun w => serve n (arrivals w) w.

(** [await stopEvent.wait()]: the task sleeps while the event loop serves
    what arrives; only a signal with an installed handler sets the event,
    and the task runs again [wake_lag] arrivals later, the callback
    still subscribed meanwhile.  When nothing sets the event the task
    stays blocked. *)
Fixpoint await_stop (pending : list arrival) : M unit :=
  match pending with
  | [] => halt Blocked
  | a :: rest =>
      (fun w => (Return tt, with_arrivals rest w)) ;;
      is_set <- serve_one a ;;
      if is_set then lag <- ask wake_lag ;; serve lag rest
      else await_stop rest
  end.

Definition stopEvent_wait : M unit := fun w => await_stop (arrivals w) w.

(** [await client.stop_notify(handle)]: the request goes out, the loop
    serves what arrives until the device has answered, and only then is
    the callback dropped. *)
Definition stop_notify (handle : Z) : M unit :=
  emit (StopNotify handle) ;;
  lag <- ask stop_lag ;;
  serve_pending lag ;;
  fun w =>
    (Return tt,
     with_notifying (filter (fun h => negb (h =? handle)) (notifying w)) w).

Definition LF : string := String "010" EmptyString.
Definition CR : string := String "013" EmptyString.

(** Lines 122-137 of [loop]. *)
Definition scan_mode (args : Namespace) : M unit :=
  log INFO [Text "Starting scanning mode..."] ;;
  (fun w => (Return tt, with_eol (Some (if newline args then LF else CR)) w)) ;;
  h <- handle_of "pressureValue" ;;
  start_notify h ;;
  for_each [SIGINT; SIGTERM] add_signal_handler ;;
  stopEvent_wait ;;
  h <- handle_of "pressureValue" ;;
  stop_notify h.

(** [for i in range(counts)] at lines 154-157: one history read per
    turn, the decoded tuple appended to [dataList]. *)
Fixpoint read_batch (turns : nat) (counts : Z)
  (dataList : list (PyFloat.float * Z)) : M (list (PyFloat.float * Z)) :=
  match turns with
  | O => ret dataList
  | S turns' =>
      h <- handle_of "pressureHistory" ;;
      data <- read_gatt_char h ;;
      t <- struct_unpack "<fI" data ;;
      sample <- as_sample t ;;
      let dataList := dataList ++ [sample] in
      emit (Print [Text "Reading "; Int (Z.of_nat (List.length dataList));
                   Text " of "; Int counts] CR) ;;
      read_batch turns' counts dataList
  end.

(** [while counts > 0] at lines 151-160.  Each turn of the loop spends
    one unit of fuel. *)
Fixpoint drain_loop (fuel : nat) (counts : Z)
  (dataList : list (PyFloat.float * Z)) : M (list (PyFloat.float * Z)) :=
  if counts >? 0 then
    match fuel with
    | O => halt OutOfFuel
    | S fuel' =>
        dataList <- read_batch (Z.to_nat counts) counts dataList ;;
        h <- handle_of "pressureCounts" ;;
        counts <- readCounts h ;;
        drain_loop fuel' counts dataList
    end
  else ret dataList.

(** Lines 144-163 of [loop]: the drain. *)
Definition drain (fuel : nat) : M (list (PyFloat.float * Z)) :=
  let dataList := [] in
  h <- handle_of "pressureCounts" ;;
  counts <- readCounts h ;;
  start <- time_time ;;
  dataList <- drain_loop fuel counts dataList ;;
  stop <- time_time ;;
  log INFO [Text "Read "; Int (Z.of_nat (List.length dataList));
            Text " values in "; Flt (PyFloat.sub stop start);
            Text " seconds"] ;;
  ret dataList.

(** Lines 166-182 of [loop]: clock offset, timestamp rewrite, output.
    The file is opened before anything is written to it; when it cannot
    be opened, [open] raises and [np.savetxt] is not reached. *)
Definition reconcile (args : Namespace)
  (dataList : list (PyFloat.float * Z)) : M unit :=
  localTime <- time_time ;;
  h <- handle_of "deviceTime" ;;
  deviceTime <- read_gatt_char h ;;
  t <- struct_unpack "<I" deviceTime ;;
  v <- item 0 t ;;
  ms <- as_int v ;;
  let deviceTime := PyFloat.div (PyFloat.of_int ms) PyFloat.lit_1000 in
  let deltaTime := PyFloat.sub localTime deviceTime in
  log INFO [Text "Established time Difference of "; Flt deltaTime;
            Text " seconds."] ;;
  log INFO [Text "Device was started at "; Stamp deltaTime; Text "."] ;;
  let data := np.array dataList in
  data <- of_option IndexError (np.col1_idiv data PyFloat.lit_1000) ;;
  data <- of_option IndexError (np.col1_iadd data deltaTime) ;;
  can_open <- ask (fun w => openable w (filename args)) ;;
  if can_open then emit (SaveTxt (filename args) (overwrite args) data "%.2f")
  else raise OSError.

Definition download_mode (args : Namespace) (fuel : nat) : M unit :=
  log INFO [Text "Starting download mode..."] ;;
  dataList <- drain fuel ;;
  reconcile args dataList.

(** [async with BleakClient(device, timeout=...) as client]: the session
    is closed when the block is left, by its end or by an exception. *)
Definition with_client {A} (device : BLEDevice) (timeout : Z) (body : M A)
  : M A :=
  emit (Connect device timeout) ;;
  fun w =>
    match body w with
    | (Return a, w') => (Return a, with_trace (trace w' ++ [Disconnect]) w')
    | (Stop (Raised e), w') =>
        (Stop (Raised e), with_trace (trace w' ++ [Disconnect]) w')
    | (Stop r, w') => (Stop r, w')
    end.

(** [assert device] always passes: both ways of finding the device
    return one or leave through [sys.exit]. *)
Definition loop (args : Namespace) (fuel : nat) : M unit :=
  device <- (if truthy_str (addr args)
             then getDevice (match addr args with Some a => a | None => "" end)
                            (timeout args)
             else discoverDevice (timeout args) (rssi args)) ;;
  log INFO [Text "Using device "; Dev device] ;;
  with_client device (timeout args)
    (log INFO [Text "Connected to device "; Dev device] ;;
     svcs <- ask services ;;
     for_each svcs
       (fun service =>
          log DEBUG [Text "Service "; Text (fst service)] ;;
          for_each (snd service)
            (fun char => log DEBUG [Text "Characteristics "; Text char])) ;;
     match interval args with
     | Some i => configure_interval i
     | None => ret tt
     end ;;
     if String.eqb (mode args) "scan" then scan_mode args
     else if String.eqb (mode args) "download" then download_mode args fuel
     else ret tt) ;;
  log INFO [Text "Disconnected from device "; Dev device].

(** The status the process ends with: [0] after a normal return, the
    code of [sys.exit], [1] after any other uncaught exception. *)
Definition exit_status {A} (o : outcome A) : option Z :=
  match o with
  | Return _ => Some 0
  | Stop (Raised (SystemExit code)) => Some code
  | Stop (Raised _) => Some 1
  | Stop _ => None
  end.

(** ** Vocabulary of the properties *)

(** The payload a device sends for an unsigned 32-bit value. *)
Definition le32 (n : Z) : bytes := struct.word_bytes_le 4 n.

(** The sample held in an 8-byte history record. *)
Definition sample_of (p : bytes) : PyFloat.float * Z :=
  (PyFloat.of_binary32
     (struct.float32_of_bits (struct.word struct.Little (firstn 4 p))),
   struct.word struct.Little (skipn 4 p)).

(** The characteristic reads of a trace, in order. *)
Fixpoint gatt_reads (t : list event) : list Z :=
  match t with
  | [] => []
  | ReadChar h :: rest => h :: gatt_reads rest
  | _ :: rest => gatt_reads rest
  end.

Definition sumZ (l : list Z) : Z := fold_right Z.add 0 l.

(** The reads a drain makes after its first count read, when the counts
    it then observes are [cs] followed by zero: for each count that many
    history reads, then one count read. *)
Definition batches (history counts : Z) (cs : list Z) : list Z :=
  flat_map (fun c => repeat history (Z.to_nat c) ++ [counts]) cs.

Definition is_save (e : event) : bool :=
  match e with
  | SaveTxt _ _ _ _ => true
  | _ => false
  end.

Definition is_menu (e : event) : bool :=
  match e with
  | MenuShown _ _ => true
  | _ => false
  end.

Definition is_search (e : event) : bool :=
  match e with
  | Discover _ | FindByAddress _ _ => true
  | _ => false
  end.

(** What a notification callback may leave in the trace. *)
Definition callback_output (e : event) : Prop :=
  match e with
  | Print _ _ | CallbackFailed => True
  | _ => False
  end.

Definition stop_signal (a : arrival) : bool :=
  match a with
  | Signal SIGINT | Signal SIGTERM => true
  | _ => false
  end.

(** Following the words of the specification: the value of four bytes
    read as a little-endian IEEE-754 binary32 number.  The bytes weigh
    [1], [256], [256^2], [256^3]; of the resulting number the top bit is
    the sign, the next eight the biased exponent, the low 23 the
    fraction. *)
Definition little_endian_value (data : bytes) : Z :=
  fold_right (fun b acc => byte_val b + 256 * acc) 0 data.

Definition ieee754_binary32 (n : Z) : spec_float :=
  let sign := 2147483648 <=? n in
  let biased := (n / 8388608) mod 256 in
  let fraction := n mod 8388608 in
  if biased =? 255 then
    if fraction =? 0 then S754_infinity sign else S754_nan
  else if biased =? 0 then
    match fraction with
    | Zpos m => S754_finite sign m (-149)
    | _ => S754_zero sign
    end
  else
    match 8388608 + fraction with
    | Zpos m => S754_finite sign m (biased - 150)
    | _ => S754_nan
    end.

Definition little_endian_float (data : bytes) : PyFloat.float :=
  PyFloat.of_binary32 (ieee754_binary32 (little_endian_value data)).

(** The line logged for each candidate that passed the filter. *)
Definition found_message (da : BLEDevice * AdvertisementData) : list piece :=
  [Text "Found device "; Dev (fst da); Text " (RSSI = ";
   Int (adv_rssi (snd da)); Text " dB)"].

(** What arrives after the first interrupt or termination signal. *)
Fixpoint after_stop (q : list arrival) : list arrival :=
  match q with
  | [] => []
  | a :: rest => if stop_signal a then rest else after_stop rest
  end.

(** [P] holds of [0], [1], ..., [n - 1]. *)
Fixpoint all_below (n : nat) (P : Z -> bool) : bool :=
  match n with
  | O => true
  | S k => P (Z.of_nat k) && all_below k P
  end.

(** A count the drain loop acts on: a positive unsigned 32-bit value. *)
Definition count_ok (c : Z) : Prop := 0 < c < 4294967296.

(** ** Sample worlds *)

Definition nano : BLEDevice :=
  {| address := "C8:2E:18:5A:01:02"; name := "NanoPressure" |}.

Definition beacon : BLEDevice :=
  {| address := "F0:0D:00:00:00:01"; name := "Beacon" |}.

Definition tag : BLEDevice :=
  {| address := "D4:11:7C:00:3B:9E"; name := "Tag" |}.

(** History records: 101325.0 Pa at 250 ms, 500 ms and 750 ms. *)
Definition record_250 : bytes := [x80; xe6; xc5; x47; xfa; x00; x00; x00].
Definition record_500 : bytes := [x80; xe6; xc5; x47; xf4; x01; x00; x00].
Definition record_750 : bytes := [x80; xe6; xc5; x47; xee; x02; x00; x00].

(** A device that reports two buffered samples, then one more, then
    none; its clock reads 1000 ms. *)
Definition filling_buffer (h : Z) : list bytes :=
  if h =? 26 then map le32 [2; 1] ++ [le32 0]
  else if h =? 20 then [record_250; record_500; record_750]
  else if h =? 23 then [le32 1000]
  else [].

(** A device with nothing buffered. *)
Definition empty_buffer (h : Z) : list bytes :=
  if h =? 26 then [le32 0]
  else if h =? 23 then [le32 1000]
  else [].

(** A device sampling every second with 100 samples buffered. *)
Definition sampling (h : Z) : list bytes :=
  if h =? 16 then [[x01; x00; x00; x00]]
  else if h =? 26 then [le32 100]
  else [].

Definition bench (host : struct.byteorder) (g : Z -> list bytes) : world :=
  {| byteorder := host;
     advertising :=
       [ (address nano, (nano, {| adv_rssi := -60 |}));
         (address beacon, (beacon, {| adv_rssi := -91 |}));
         (address tag, (tag, {| adv_rssi := -72 |})) ];
     reachable := fun a => if String.eqb a (address nano) then Some nano
                           else None;
     menu_answer := Some 1%nat;
     services := [];
     gatt := g;
     clock := fun n => match n with
                       | O => PyFloat.of_int 1700000000
                       | _ => PyFloat.of_int 1700000002
                       end;
     clock_reads := 0;
     arrivals :=
       [ Notification 11 [x00; x00; x80; x3f];
         Elapsed 5;
         Signal SIGWINCH;
         Notification 11 [x00; x00];
         Signal SIGTERM;
         Notification 11 [x00; x00; x00; x40];
         Notification 11 [x00; x00; x40; x40];
         Notification 11 [x00; x00; x80; x40] ];
     wake_lag := 1;
     stop_lag := 1;
     openable := fun name => negb (String.eqb name "");
     eol := None;
     notifying := [];
     signal_handlers := [];
     trace := [] |}.

Definition scan_args : Namespace :=
  {| verbose := 0; mode := "scan"; addr := None; rssi := -80; timeout := 5;
     interval := None; newline := false; filename := "pressure.txt";
     overwrite := false |}.

Definition download_args : Namespace :=
  {| verbose := 0; mode := "download"; addr := Some "00:11:22:33:44:55";
     rssi := -80; timeout := 5; interval := Some 0; newline := false;
     filename := "pressure.txt"; overwrite := true |}.

(** ** The entry point *)

(** The dict of lines 217-220, indexed by the number of [-v] flags. *)
Definition loglvls : list (Z * level) :=
  [ (0, ERROR); (1, WARNING); (2, INFO); (3, DEBUG) ].

Fixpoint level_get (d : list (Z * level)) (k : Z) : option level :=
  match d with
  | [] => None
  | (k', v) :: rest => if k =? k' then Some v else level_get rest k
  end.

(** Lines 214-225: the verbosity is looked up, then the main routine
    runs.  The level only selects which log records reach the console;
    the records themselves are in the trace either way. *)
Definition main (args : Namespace) (fuel : nat) : M unit :=
  _ <- of_option KeyError (level_get loglvls (verbose args)) ;;
  loop args fuel.

(** ** Vocabulary of the further properties *)

(** Every event [m] adds to the trace satisfies [P], whatever the world
    and however [m] ends. *)
Definition only {A} (P : event -> bool) (m : M A) : Prop :=
  forall w, exists evs,
    trace (snd (m w)) = trace w ++ evs /\ forallb P evs = true.

Definition is_write (e : event) : bool :=
  match e with
  | WriteChar _ _ _ => true
  | _ => false
  end.

Definition is_gatt (e : event) : bool :=
  match e with
  | ReadChar _ | WriteChar _ _ _ | StartNotify _ | StopNotify _ => true
  | _ => false
  end.

Definition is_session (e : event) : bool :=
  match e with
  | Connect _ _ | Disconnect => true
  | _ => false
  end.

(** What arrives before the first interrupt or termination signal. *)
Fixpoint before_stop (q : list arrival) : list arrival :=
  match q with
  | [] => []
  | a :: rest => if stop_signal a then [] else a :: before_stop rest
  end.

(** What the event loop serves while the scan callback is subscribed:
    all that arrives before the first interrupt or termination signal,
    and of what arrives after it as much as the two lags let through. *)
Definition heard (w : world) : list arrival :=
  before_stop (arrivals w)
  ++ firstn (wake_lag w + stop_lag w) (after_stop (arrivals w)).

(** The payloads notified on a characteristic, in order of arrival. *)
Fixpoint payloads (handle : Z) (q : list arrival) : list bytes :=
  match q with
  | [] => []
  | Notification h data :: rest =>
      if h =? handle then data :: payloads handle rest
      else payloads handle rest
  | _ :: rest => payloads handle rest
  end.

(** The pressure and terminator of each line printed by the scan
    callback. *)
Definition printed_line (e : event) : list (PyFloat.float * string) :=
  match e with
  | Print [Stamp _; Text _; Flt x; Text _] terminator => [(x, terminator)]
  | _ => []
  end.

Definition printed (t : list event) : list (PyFloat.float * string) :=
  flat_map printed_line t.

(** The value the host reads in four bytes taken as a C [float]. *)
Definition native_float (host : struct.byteorder) (data : bytes)
  : PyFloat.float :=
  PyFloat.of_binary32 (struct.float32_of_bits (struct.word host data)).

Definition four_bytes (data : bytes) : bool :=
  (List.length data =? 4)%nat.

(** [m] leaves the trace as it found it. *)
Definition silent {A} (m : M A) : Prop :=
  forall w, trace (snd (m w)) = trace w.

Definition is_failed (e : event) : bool :=
  match e with
  | CallbackFailed => true
  | _ => false
  end.

Definition no_save (e : event) : bool := negb (is_save e).

Definition no_write (e : event) : bool := negb (is_write e).

(** A write, if it is one, goes to the interval characteristic and asks
    for the device's response. *)
Definition write_is_acknowledged_interval (e : event) : bool :=
  match e with
  | WriteChar h _ response => (h =? 16) && response
  | _ => true
  end.

(** Allowed before a session is open: neither a GATT operation nor the
    opening or closing of a session. *)
Definition outside (e : event) : bool := negb (is_gatt e || is_session e).

(** Allowed inside a session: anything but opening or closing one. *)
Definition inside (e : event) : bool := negb (is_session e).

(** ** [plotPressure.py] *)

Module plotPressure.

(** [s.replace(old, new)] for a non-empty [old]: the occurrences of
    [old] are found from the left, without overlap. *)
Fixpoint replace_from (old new : string) (skip : nat) (s : string) : string :=
  match s with
  | EmptyString => EmptyString
  | String c rest =>
      match skip with
      | S k => replace_from old new k rest
      | O =>
          if String.prefix old s
          then String.append new
                 (replace_from old new (String.length old - 1) rest)
          else String c (replace_from old new 0 rest)
      end
  end.

Definition replace (old new s : string) : string := replace_from old new 0 s.

(** [sep.join(l)]. *)
Definition join (sep : string) (l : list string) : string :=
  String.concat sep l.

(** A float64 array of dimension 0, 1 or 2. *)
Inductive ndarray :=
| Scalar (x : PyFloat.float)
| Vector (xs : list PyFloat.float)
| Matrix (rows : list (list PyFloat.float)).

Inductive error :=
| KeyError | OSError | ValueError | TypeError | OverflowError.

(** What [np.loadtxt] finds under a name: no file it can read, text
    that is not rows of numbers, or the rows. *)
Inductive content :=
| Missing
| Garbled
| Table (rows : list (list PyFloat.float)).

(** The local calendar time of the instant [t] seconds after the
    epoch. *)
Inductive datetime := Datetime (t : PyFloat.float).

(** The machine the script runs on: the files it holds; for a finite
    time, the exception [datetime.fromtimestamp] raises when the
    platform cannot place it ([OverflowError], [OSError], or
    [ValueError] for a year outside 1..9999); for a file name, the
    exception [plt.savefig] raises ([ValueError] for a format the
    backend does not know, [OSError] when the file cannot be
    written). *)
Record machine := {
  files : string -> content;
  out_of_range : PyFloat.float -> option error;
  unsavable : string -> option error
}.

Definition same_width (k : nat) (rows : list (list PyFloat.float)) : bool :=
  forallb (fun r => (List.length r =? k)%nat) rows.

(** [np.loadtxt] on the numeric rows of a file: the rows must have one
    width, and axes of length one are squeezed away.  A file without
    rows gives an empty one-dimensional array. *)
Definition loadtxt (rows : list (list PyFloat.float)) : error + ndarray :=
  match rows with
  | [] => inr (Vector [])
  | first :: others =>
      let k := List.length first in
      if negb (same_width k others) || (k =? 0)%nat then inl ValueError
      else
        match others, first with
        | [], [x] => inr (Scalar x)
        | [], _ => inr (Vector first)
        | _, [_] => inr (Vector (map (hd (S754_zero false)) rows))
        | _, _ => inr (Matrix rows)
        end
  end.

Fixpoint columns (k : nat) (rows : list (list PyFloat.float))
  : list (list PyFloat.float) :=
  match k with
  | O => []
  | S k' => map (hd (S754_zero false)) rows :: columns k' (map (@tl _) rows)
  end.

(** [a.T]. *)
Definition T (a : ndarray) : ndarray :=
  match a with
  | Matrix rows => Matrix (columns (List.length (hd [] rows)) rows)
  | _ => a
  end.

(** [pressures, times = a]: the array is iterated along its first axis
    and must yield exactly two items. *)
Definition unpack2 (a : ndarray) : error + (ndarray * ndarray) :=
  match a with
  | Scalar _ => inl TypeError
  | Vector [p; t] => inr (Scalar p, Scalar t)
  | Vector _ => inl ValueError
  | Matrix [r1; r2] => inr (Vector r1, Vector r2)
  | Matrix _ => inl ValueError
  end.

(** [len(a)] and iteration over [a]: a zero-dimensional array has
    neither. *)
Definition items (a : ndarray) : error + list ndarray :=
  match a with
  | Scalar _ => inl TypeError
  | Vector xs => inr (map Scalar xs)
  | Matrix rows => inr (map Vector rows)
  end.

(** [a /= d]. *)
Definition idiv (a : ndarray) (d : PyFloat.float) : ndarray :=
  match a with
  | Scalar x => Scalar (PyFloat.div x d)
  | Vector xs => Vector (map (fun x => PyFloat.div x d) xs)
  | Matrix rows => Matrix (map (map (fun x => PyFloat.div x d)) rows)
  end.

(** [datetime.fromtimestamp(t)] for a float [t]. *)
Definition fromtimestamp (m : machine) (t : PyFloat.float)
  : error + datetime :=
  match t with
  | S754_nan => inl ValueError
  | S754_infinity _ => inl OverflowError
  | _ =>
      match out_of_range m t with
      | Some e => inl e
      | None => inr (Datetime t)
      end
  end.

(** [[datetime.fromtimestamp(time) for time in times]] over the items
    of an array: the first time refused ends the comprehension. *)
Fixpoint datetimes (m : machine) (ts : list ndarray)
  : error + list datetime :=
  match ts with
  | [] => inr []
  | Scalar t :: rest =>
      match fromtimestamp m t with
      | inl e => inl e
      | inr d =>
          match datetimes m rest with
          | inl e => inl e
          | inr ds => inr (d :: ds)
          end
      end
  | _ :: _ => inl TypeError
  end.

(** The calls that took effect; [SaveFig] stands for a figure that was
    written. *)
Inductive call :=
| Figure (width height : Z)
| LogRecord (l : level) (m : list piece)
| Plot (times : list datetime) (pressures : ndarray) (fmt label : string)
| Legend
| Ylabel (s : string)
| Xlabel (s : string)
| TightLayout
| SaveFig (name : string) (dpi : Z).

Record Namespace := {
  verbose : Z;
  filename : list string;
  outfile : option string;
  pascal : bool
}.

Definition DQUOTE : string := String "034" EmptyString.

Definition lit_100 : PyFloat.float := PyFloat.of_int 100.

(** The body of the loop over the file names (lines 47-63): the calls
    it makes, then the label it leaves in [plabel] or the exception it
    ends with. *)
Definition plot_file (args : Namespace) (m : machine) (fname : string)
  : list call * (error + string) :=
  match files m fname with
  | Missing => ([], inl OSError)
  | Garbled => ([], inl ValueError)
  | Table rows =>
      match loadtxt rows with
      | inl e => ([], inl e)
      | inr a =>
          match unpack2 (T a) with
          | inl e => ([], inl e)
          | inr (pressures, times) =>
              match items times with
              | inl e => ([], inl e)
              | inr ts =>
                  let read :=
                    LogRecord INFO
                      [Text "Read "; Int (Z.of_nat (List.length ts));
                       Text " data values from "; Text DQUOTE; Text fname;
                       Text DQUOTE] in
                  let converting :=
                    LogRecord DEBUG
                      [Text "Converting millisecond times to datetime objects"] in
                  match datetimes m ts with
                  | inl e => ([read; converting], inl e)
                  | inr times =>
                      let pressures :=
                        if negb (pascal args) then idiv pressures lit_100
                        else pressures in
                      let plabel :=
                        if negb (pascal args) then "Pressure [mbar]"
                        else "Pressure [Pa]" in
                      ([read; converting;
                        Plot times pressures "o-" (replace ".txt" "" fname)],
                       inr plabel)
                  end
              end
          end
      end
  end.

(** [for fname in args.filename]: [plabel] holds the label of the last
    file plotted, if any. *)
Fixpoint plot_files (args : Namespace) (m : machine)
  (fnames : list string) (plabel : option string)
  : list call * (error + option string) :=
  match fnames with
  | [] => ([], inr plabel)
  | fname :: rest =>
      match plot_file args m fname with
      | (calls, inl e) => (calls, inl e)
      | (calls, inr label) =>
          let (calls', r) := plot_files args m rest (Some label) in
          (calls ++ calls', r)
      end
  end.

Definition truthy (s : option string) : bool :=
  match s with
  | Some (String _ _) => true
  | _ => false
  end.

(** The file the figure goes to (lines 71-72). *)
Definition output_name (args : Namespace) : string :=
  if truthy (outfile args)
  then match outfile args with Some name => name | None => "" end
  else String.append (replace ".txt" "" (join "-" (filename args))) ".png".

(** Lines 34-74.  [argparse] hands over at least one file name, so
    [plabel] is bound when the loop is left.  The figure is written by
    the last call, which may refuse the file name. *)
Definition main (args : Namespace) (m : machine)
  : list call * option error :=
  match level_get loglvls (verbose args) with
  | None => ([], Some KeyError)
  | Some _ =>
      match plot_files args m (filename args) None with
      | (calls, inl e) => (Figure 10 4 :: calls, Some e)
      | (calls, inr plabel) =>
          let drawn :=
            Figure 10 4 :: calls
            ++ [Legend;
                Ylabel (match plabel with Some s => s | None => "" end);
                Xlabel "Time";
                TightLayout;
                LogRecord INFO [Text "Writing to file "; Text DQUOTE;
                                Text (output_name args); Text DQUOTE]] in
          match unsavable m (output_name args) with
          | Some e => (drawn, Some e)
          | None => (drawn ++ [SaveFig (output_name args) 200], None)
          end
      end
  end.

Definition is_savefig (c : call) : bool :=
  match c with
  | SaveFig _ _ => true
  | _ => false
  end.

Definition is_plot (c : call) : bool :=
  match c with
  | Plot _ _ _ _ => true
  | _ => false
  end.

(** A table the script can plot: at least two rows, two columns each. *)
Definition plottable (rows : list (list PyFloat.float)) : Prop :=
  (2 <= List.length rows)%nat
  /\ Forall (fun r => List.length r = 2%nat) rows.

(** The two columns of a table. *)
Definition first (rows : list (list PyFloat.float)) : list PyFloat.float :=
  map (hd (S754_zero false)) rows.

Definition second (rows : list (list PyFloat.float)) : list PyFloat.float :=
  map (hd (S754_zero false)) (map (@tl _) rows).

(** A time [datetime.fromtimestamp] accepts on the machine. *)
Definition in_range (m : machine) (t : PyFloat.float) : Prop :=
  fromtimestamp m t = inr (Datetime t).

(** The two log records the loop body starts with. *)
Definition announced (fname : string) (rows : list (list PyFloat.float))
  : list call :=
  [LogRecord INFO
     [Text "Read "; Int (Z.of_nat (List.length rows));
      Text " data values from "; Text DQUOTE; Text fname; Text DQUOTE];
   LogRecord DEBUG [Text "Converting millisecond times to datetime objects"]].

(** The calls the loop body makes for a plottable table whose times are
    all in range. *)
Definition plotted (args : Namespace) (fname : string)
  (rows : list (list PyFloat.float)) : list call :=
  announced fname rows
  ++ [Plot (map Datetime (second rows))
        (Vector (if pascal args then first rows
                 else map (fun x => PyFloat.div x lit_100) (first rows)))
        "o-" (replace ".txt" "" fname)].

Definition table (m : machine) (fname : string)
  : list (list PyFloat.float) :=
  match files m fname with
  | Table rows => rows
  | _ => []
  end.

Fixpoint dotless (s : string) : bool :=
  match s with
  | EmptyString => true
  | String c rest => negb (Ascii.eqb c ".") && dotless rest
  end.

End plotPressure.

(** ** Further sample worlds *)

(** A device that reports five buffered samples and delivers three. *)
Definition short_buffer (h : Z) : list bytes :=
  if h =? 26 then [le32 5]
  else if h =? 20 then [record_250; record_500; record_750]
  else [].

(** The operator leaves the menu without choosing. *)
Definition undecided (w : world) : world :=
  {| byteorder := byteorder w; advertising := advertising w;
     reachable := reachable w; menu_answer := None;
     services := services w; gatt := gatt w; clock := clock w;
     clock_reads := clock_reads w; arrivals := arrivals w;
     wake_lag := wake_lag w; stop_lag := stop_lag w; openable := openable w;
     eol := eol w;
     notifying := notifying w; signal_handlers := signal_handlers w;
     trace := trace w |}.

Definition chatty_args : Namespace :=
  {| verbose := 4; mode := "scan"; addr := None; rssi := -80; timeout := 5;
     interval := None; newline := false; filename := "pressure.txt";
     overwrite := false |}.

Definition two_rows : list (list PyFloat.float) :=
  [ [PyFloat.of_int 101325; PyFloat.of_int 1700000000];
    [PyFloat.of_int 101300; PyFloat.of_int 1700000060] ].

(** A table whose times are in milliseconds. *)
Definition two_rows_ms : list (list PyFloat.float) :=
  [ [PyFloat.of_int 101325; PyFloat.of_int 1700000000000];
    [PyFloat.of_int 101300; PyFloat.of_int 1700000060000] ].

Definition plot_files_on_disk (fname : string) : plotPressure.content :=
  if String.eqb fname "pressure.txt" then plotPressure.Table two_rows
  else if String.eqb fname "run2.txt" then plotPressure.Table two_rows
  else if String.eqb fname "single.txt"
       then plotPressure.Table
              [[PyFloat.of_int 101325; PyFloat.of_int 1700000000]]
  else if String.eqb fname "ms.txt" then plotPressure.Table two_rows_ms
  else if String.eqb fname "notes.txt" then plotPressure.Garbled
  else plotPressure.Missing.

(** A machine that places the times of the years 1 to 9999 and writes
    any figure but one in a format it does not know. *)
Definition desk : plotPressure.machine :=
  {| plotPressure.files := plot_files_on_disk;
     plotPressure.out_of_range :=
       fun t =>
         if SFltb t (PyFloat.of_int (-62135596800))
            || SFltb (PyFloat.of_int 253402300799) t
         then Some plotPressure.ValueError
         else None;
     plotPressure.unsavable :=
       fun name =>
         if String.eqb name "out.dat" then Some plotPressure.ValueError
         else None |}.

Definition plot_args (fnames : list string) : plotPressure.Namespace :=
  {| plotPressure.verbose := 0; plotPressure.filename := fnames;
     plotPressure.outfile := None; plotPressure.pascal := false |}.

(** * Properties *)

Example unpack_one :
  struct.unpack struct.Big "<fI"
    [x00; x00; x80; x3f; xfa; x00; x00; x00]
  = Some [struct.VFloat (S754_finite false 4503599627370496 (-52));
          struct.VInt 250].
Proof. reflexivity. Qed.

Example lit_0_1_is_nearest :
  PyFloat.lit_0_1 = PyFloat.div (PyFloat.of_int 1) (PyFloat.of_int 10).
Proof. reflexivity. Qed.

(** ** Bytes and words *)

Lemma byte_val_range (b : byte) : 0 <= byte_val b < 256.
Proof.
  unfold byte_val. pose proof (Byte.to_N_bounded b). lia.
Qed.

Lemma byte_val_of_Z (n : Z) : byte_val (byte_of_Z n) = n mod 256.
Proof.
  unfold byte_val, byte_of_Z.
  assert (Hr : 0 <= n mod 256 < 256) by (apply Z.mod_pos_bound; lia).
  destruct (Byte.of_N (Z.to_N (n mod 256))) as [b|] eqn:E.
  - apply Byte.to_of_N in E. rewrite E. lia.
  - apply Byte.of_N_None_iff in E. lia.
Qed.

Lemma lor_shift (a b n : Z) :
  0 <= n -> 0 <= a -> 0 <= b < 2 ^ n ->
  Z.lor (Z.shiftl a n) b = a * 2 ^ n + b.
Proof.
  intros Hn Ha Hb.
  assert (Hland : Z.land (Z.shiftl a n) b = 0).
  { apply Z.bits_inj'. intros i Hi.
    rewrite Z.land_spec, Z.bits_0.
    destruct (Z.ltb_spec i n) as [Hlt | Hge].
    - rewrite Z.shiftl_spec_low by lia. reflexivity.
    - replace (Z.testbit b i) with false; [apply andb_false_r|].
      symmetry. destruct (Z.eq_dec b 0) as [->|Hnz]; [apply Z.bits_0|].
      apply Z.bits_above_log2; [lia|].
      apply Z.log2_lt_pow2; [lia|].
      apply Z.lt_le_trans with (2 ^ n); [lia|].
      apply Z.pow_le_mono_r; lia. }
  rewrite <- Z.lxor_lor by exact Hland.
  rewrite <- Z.add_nocarry_lxor by exact Hland.
  rewrite Z.shiftl_mul_pow2 by lia. reflexivity.
Qed.

Lemma lor_shift_byte (a b : Z) :
  0 <= a -> 0 <= b < 256 -> Z.lor (Z.shiftl a 8) b = 256 * a + b.
Proof.
  intros Ha Hb. rewrite lor_shift; change (2 ^ 8) with 256; lia.
Qed.

Lemma little_endian_value_cons (b : byte) (bs : bytes) :
  little_endian_value (b :: bs) = byte_val b + 256 * little_endian_value bs.
Proof. reflexivity. Qed.

Lemma little_endian_value_app (l1 l2 : bytes) :
  little_endian_value (l1 ++ l2)
  = little_endian_value l1
    + 256 ^ Z.of_nat (List.length l1) * little_endian_value l2.
Proof.
  induction l1 as [|x l1 IH].
  - change (little_endian_value []) with 0.
    change (256 ^ Z.of_nat (List.length (@nil byte))) with 1.
    cbn [app]. lia.
  - cbn [app List.length]. rewrite !little_endian_value_cons, IH.
    rewrite Nat2Z.inj_succ, Z.pow_succ_r by lia. lia.
Qed.

Lemma word_be_value (bs : bytes) (acc : Z) :
  0 <= acc ->
  struct.word_be acc bs
  = acc * 256 ^ Z.of_nat (List.length bs) + little_endian_value (rev bs).
Proof.
  revert acc. induction bs as [|b bs IH]; intros acc Hacc.
  - change (little_endian_value (rev [])) with 0.
    change (256 ^ Z.of_nat (List.length (@nil byte))) with 1.
    cbn [struct.word_be]. lia.
  - cbn [struct.word_be List.length rev].
    pose proof (byte_val_range b) as Hb.
    rewrite IH by (rewrite lor_shift_byte; lia).
    rewrite lor_shift_byte by lia.
    rewrite little_endian_value_app, length_rev.
    rewrite little_endian_value_cons.
    change (little_endian_value []) with 0.
    rewrite Nat2Z.inj_succ, Z.pow_succ_r by lia. lia.
Qed.

Lemma word_little_value (bs : bytes) :
  struct.word struct.Little bs = little_endian_value bs.
Proof.
  unfold struct.word. rewrite word_be_value by lia.
  rewrite rev_involutive. lia.
Qed.

Lemma little_endian_value_range (bs : bytes) :
  0 <= little_endian_value bs < 256 ^ Z.of_nat (List.length bs).
Proof.
  induction bs as [|b bs IH].
  - change (little_endian_value []) with 0.
    change (256 ^ Z.of_nat (List.length (@nil byte))) with 1. lia.
  - rewrite little_endian_value_cons. cbn [List.length].
    pose proof (byte_val_range b).
    rewrite Nat2Z.inj_succ, Z.pow_succ_r by lia. lia.
Qed.

Lemma word_le32 (n : Z) :
  0 <= n < 4294967296 -> struct.word struct.Little (le32 n) = n.
Proof.
  intros Hn. rewrite word_little_value.
  unfold le32. cbn [struct.word_bytes_le].
  rewrite !little_endian_value_cons.
  change (little_endian_value []) with 0.
  rewrite !byte_val_of_Z, !Z.shiftr_shiftr by lia.
  rewrite !Z.shiftr_div_pow2 by lia.
  change (2 ^ 8) with 256. change (2 ^ (8 + 8)) with 65536.
  change (2 ^ (8 + 8 + 8)) with 16777216.
  Z.div_mod_to_equations. lia.
Qed.

(** ** Decoding the payloads *)

Lemma unpack_lt_I_4 (host : struct.byteorder) (a b c d : byte) :
  struct.unpack host "<I" [a; b; c; d]
  = Some [struct.VInt (struct.word struct.Little [a; b; c; d])].
Proof. reflexivity. Qed.

Lemma unpack_lt_I_le32 (host : struct.byteorder) (n : Z) :
  0 <= n < 4294967296 ->
  struct.unpack host "<I" (le32 n) = Some [struct.VInt n].
Proof.
  intros Hn. rewrite <- (word_le32 n Hn) at 2. reflexivity.
Qed.

Lemma unpack_lt_fI_8 (host : struct.byteorder) (p : bytes) :
  List.length p = 8%nat ->
  struct.unpack host "<fI" p
  = Some [struct.VFloat (fst (sample_of p)); struct.VInt (snd (sample_of p))].
Proof.
  intros Hp.
  do 8 (destruct p as [|? p]; [discriminate Hp|]).
  destruct p; [reflexivity | discriminate Hp].
Qed.

(** A payload of any other length is refused. *)
Lemma unpack_lt_I_length (host : struct.byteorder) (data : bytes) :
  List.length data <> 4%nat -> struct.unpack host "<I" data = None.
Proof.
  intros Hlen.
  do 4 (destruct data as [|? data]; [reflexivity|]).
  destruct data; [contradiction Hlen; reflexivity | reflexivity].
Qed.

(** ** Running the primitive actions *)

Lemma gatt_reads_app (t1 t2 : list event) :
  gatt_reads (t1 ++ t2) = gatt_reads t1 ++ gatt_reads t2.
Proof.
  induction t1 as [|e t1 IH]; [reflexivity|].
  destruct e; cbn [app gatt_reads]; rewrite IH; reflexivity.
Qed.

Lemma readCounts_run (handle c : Z) (rest : list bytes) (w : world) :
  0 <= c < 4294967296 ->
  gatt w handle = le32 c :: rest ->
  readCounts handle w
  = (Return c,
     with_trace
       ((trace w ++ [ReadChar handle])
        ++ [Log INFO [Text "Found "; Int c;
                      Text " pressure values on device"]])
       (with_gatt (fun h => if h =? handle then rest else gatt w h) w)).
Proof.
  intros Hc Hg.
  unfold readCounts, read_gatt_char, struct_unpack, bind, emit, ask, log.
  cbn [with_trace gatt trace byteorder]. rewrite Hg.
  cbn [with_gatt gatt trace byteorder].
  rewrite unpack_lt_I_le32 by exact Hc. reflexivity.
Qed.

Lemma read_batch_run (ps : list bytes) :
  forall (counts : Z) (dataList : list (PyFloat.float * Z)) (w : world)
         (rest : list bytes),
  gatt w 20 = ps ++ rest ->
  Forall (fun p => List.length p = 8%nat) ps ->
  exists w',
    read_batch (List.length ps) counts dataList w
    = (Return (dataList ++ map sample_of ps), w')
    /\ gatt w' 20 = rest
    /\ (forall h, h <> 20 -> gatt w' h = gatt w h)
    /\ gatt_reads (trace w')
       = gatt_reads (trace w) ++ repeat 20 (List.length ps).
Proof.
  induction ps as [|p ps IH]; intros counts dataList w rest Hg Hlen.
  - exists w. cbn [read_batch List.length map repeat ret].
    rewrite !app_nil_r. auto.
  - inversion Hlen as [|? ? Hp Hps]; subst.
    cbn [List.length read_batch].
    unfold bind at 1. cbn [handle_of handles dict_get String.eqb Ascii.eqb Bool.eqb of_option ret].
    unfold bind at 1. unfold read_gatt_char at 1, bind at 1, emit at 1.
    cbn [with_trace gatt trace byteorder]. rewrite Hg. cbn [app].
    unfold bind at 1. unfold struct_unpack at 1, bind at 1, ask at 1.
    cbn [with_gatt byteorder].
    rewrite (unpack_lt_fI_8 _ p Hp). cbn [of_option ret as_sample].
    unfold bind at 1. unfold bind at 1, emit at 1. cbn [ret].
    rewrite <- (surjective_pairing (sample_of p)).
    match goal with
    | |- exists w', read_batch _ _ ?dl ?w1 = _ /\ _ =>
        destruct (IH counts dl w1 rest) as (w' & Hrun & Hh & Hframe & Hreads)
    end.
    + cbn [gatt with_trace with_gatt]. reflexivity.
    + exact Hps.
    + exists w'. rewrite Hrun. split; [|split; [|split]].
      * rewrite <- app_assoc. reflexivity.
      * exact Hh.
      * intros h Hne. rewrite Hframe by exact Hne.
        cbn [gatt with_trace with_gatt].
        destruct (Z.eqb_spec h 20); [contradiction | reflexivity].
      * rewrite Hreads. cbn [gatt trace with_trace with_gatt].
        rewrite !gatt_reads_app. cbn [gatt_reads repeat].
        rewrite app_nil_r, <- app_assoc. reflexivity.
Qed.

(** ** The drain loop *)

Lemma next_count (cs : list Z) :
  Forall count_ok cs ->
  cs ++ [0] = hd 0 (cs ++ [0]) :: tl (cs ++ [0])
  /\ 0 <= hd 0 (cs ++ [0]) < 4294967296.
Proof.
  intros H. destruct cs as [|c cs]; cbn [app hd tl].
  - split; [reflexivity | lia].
  - inversion H as [|? ? Hc Hcs]; subst. unfold count_ok in Hc.
    split; [reflexivity | lia].
Qed.

Lemma sumZ_nonneg (cs : list Z) : Forall count_ok cs -> 0 <= sumZ cs.
Proof.
  induction 1 as [|c cs Hc _ IH]; cbn [sumZ fold_right]; [lia|].
  fold (sumZ cs). unfold count_ok in Hc. lia.
Qed.

Lemma drain_loop_run (cs : list Z) :
  forall (fuel : nat) (dataList : list (PyFloat.float * Z)) (w : world)
         (hist rest_h rest_c : list bytes),
  Forall count_ok cs ->
  (List.length cs <= fuel)%nat ->
  gatt w 26 = map le32 (tl (cs ++ [0])) ++ rest_c ->
  gatt w 20 = hist ++ rest_h ->
  List.length hist = Z.to_nat (sumZ cs) ->
  Forall (fun p => List.length p = 8%nat) hist ->
  exists w',
    drain_loop fuel (hd 0 (cs ++ [0])) dataList w
    = (Return (dataList ++ map sample_of hist), w')
    /\ gatt w' 26 = rest_c
    /\ gatt w' 20 = rest_h
    /\ (forall h, h <> 20 -> h <> 26 -> gatt w' h = gatt w h)
    /\ gatt_reads (trace w') = gatt_reads (trace w) ++ batches 20 26 cs.
Proof.
  induction cs as [|c cs IH];
    intros fuel dataList w hist rest_h rest_c Hcs Hfuel H26 H20 Hlen H8.
  - destruct hist; [|discriminate Hlen].
    exists w. cbn [app hd tl map] in *.
    destruct fuel; cbn [drain_loop Z.gtb Z.compare ret map batches flat_map];
      rewrite !app_nil_r; auto.
  - inversion Hcs as [|? ? Hc Hcs']; subst.
    destruct fuel as [|fuel]; [cbn [List.length] in Hfuel; lia|].
    cbn [app hd tl] in *. cbn [List.length] in Hfuel.
    pose proof (sumZ_nonneg cs Hcs') as Hsum.
    assert (Hc' := Hc). unfold count_ok in Hc'.
    cbn [sumZ fold_right] in Hlen. fold (sumZ cs) in Hlen.
    set (n := Z.to_nat c).
    assert (Hfirst : List.length (firstn n hist) = n).
    { apply firstn_length_le. rewrite Hlen. subst n. lia. }
    assert (Hsplit : hist = firstn n hist ++ skipn n hist)
      by (symmetry; apply firstn_skipn).
    destruct (read_batch_run (firstn n hist) c dataList w
                (skipn n hist ++ rest_h)) as (w1 & Hrun1 & H20' & Hf1 & Hr1).
    { rewrite app_assoc, <- Hsplit. exact H20. }
    { rewrite Forall_forall in *. intros p Hp. apply H8.
      rewrite Hsplit. apply in_or_app. left. exact Hp. }
    rewrite Hfirst in Hrun1, Hr1.
    destruct (next_count cs Hcs') as (Hnext & Hrange).
    assert (Hg1 : gatt w1 26
                  = le32 (hd 0 (cs ++ [0])) :: map le32 (tl (cs ++ [0])) ++ rest_c).
    { rewrite Hf1 by lia. rewrite H26. rewrite Hnext at 1. reflexivity. }
    pose proof (readCounts_run 26 _ _ w1 Hrange Hg1) as Hrun2.
    match type of Hrun2 with
    | _ = (_, ?w2) =>
        destruct (IH fuel (dataList ++ map sample_of (firstn n hist)) w2
                    (skipn n hist) rest_h rest_c)
          as (w' & Hrun3 & H26'' & H20'' & Hf3 & Hr3)
    end.
    + exact Hcs'.
    + lia.
    + cbn [gatt with_trace with_gatt]. reflexivity.
    + cbn [gatt with_trace with_gatt]. exact H20'.
    + rewrite length_skipn, Hlen. subst n. lia.
    + rewrite Forall_forall in *. intros p Hp. apply H8.
      rewrite Hsplit. apply in_or_app. right. exact Hp.
    + exists w'.
      cbn [drain_loop].
      replace (c >? 0) with true by (symmetry; apply Z.gtb_lt; lia).
      fold n. unfold bind at 1. rewrite Hrun1.
      unfold bind at 1.
      cbn [handle_of handles dict_get String.eqb Ascii.eqb Bool.eqb
           of_option ret].
      unfold bind at 1. rewrite Hrun2. rewrite Hrun3.
      split; [|split; [|split; [|split]]].
      * rewrite <- app_assoc, <- map_app, <- Hsplit. reflexivity.
      * exact H26''.
      * exact H20''.
      * intros h Hn20 Hn26. rewrite Hf3 by assumption.
        cbn [gatt with_trace with_gatt].
        destruct (Z.eqb_spec h 26); [contradiction|].
        apply Hf1. exact Hn20.
      * rewrite Hr3. cbn [trace with_trace with_gatt].
        rewrite !gatt_reads_app, Hr1.
        cbn [gatt_reads batches flat_map]. fold (batches 20 26 cs).
        fold n. rewrite app_nil_r, <- !app_assoc. reflexivity.
Qed.

Lemma count_history_reads (cs : list Z) :
  Forall count_ok cs ->
  count_occ Z.eq_dec (batches 20 26 cs) 20 = Z.to_nat (sumZ cs).
Proof.
  induction 1 as [|c cs Hc Hcs IH]; [reflexivity|].
  cbn [batches flat_map]. fold (batches 20 26 cs).
  rewrite !count_occ_app, IH, count_occ_repeat_eq by reflexivity.
  cbn [count_occ]. destruct (Z.eq_dec 26 20) as [E|_]; [discriminate E|].
  cbn [sumZ fold_right]. fold (sumZ cs).
  pose proof (sumZ_nonneg cs Hcs). unfold count_ok in Hc. lia.
Qed.

Lemma count_count_reads (cs : list Z) :
  count_occ Z.eq_dec (batches 20 26 cs) 26 = List.length cs.
Proof.
  induction cs as [|c cs IH]; [reflexivity|].
  cbn [batches flat_map List.length]. fold (batches 20 26 cs).
  rewrite !count_occ_app, IH.
  rewrite count_occ_repeat_neq by discriminate.
  cbn [count_occ]. destruct (Z.eq_dec 26 26) as [_|N]; [lia | contradiction].
Qed.

(** C1.  In download mode the drain reads the buffered count and, while
    it is positive, makes exactly that many history reads, one decoded
    sample appended per read, then reads the count again.  When the
    counts observed are [c1, ..., ck, 0], the reads are: the count, then
    for each [ci] that many history reads followed by one count read; the
    samples number [c1 + ... + ck]; the count is read [k + 1] times, the
    last of them after the final batch, and nothing is read after the
    zero. *)
Theorem drain_reads_every_count :
  forall (cs : list Z) (fuel : nat) (w : world)
         (hist rest_h rest_c : list bytes),
  Forall count_ok cs ->
  (List.length cs <= fuel)%nat ->
  gatt w 26 = map le32 cs ++ le32 0 :: rest_c ->
  gatt w 20 = hist ++ rest_h ->
  List.length hist = Z.to_nat (sumZ cs) ->
  Forall (fun p => List.length p = 8%nat) hist ->
  exists w',
    drain fuel w = (Return (map sample_of hist), w')
    /\ Z.of_nat (List.length (map sample_of hist)) = sumZ cs
    /\ gatt_reads (trace w') = gatt_reads (trace w) ++ 26 :: batches 20 26 cs
    /\ count_occ Z.eq_dec (26 :: batches 20 26 cs) 20 = Z.to_nat (sumZ cs)
    /\ count_occ Z.eq_dec (26 :: batches 20 26 cs) 26 = S (List.length cs)
    /\ gatt w' 26 = rest_c
    /\ gatt w' 20 = rest_h.
Proof.
  intros cs fuel w hist rest_h rest_c Hcs Hfuel H26 H20 Hlen H8.
  destruct (next_count cs Hcs) as (Hnext & Hrange).
  assert (Hg : gatt w 26
               = le32 (hd 0 (cs ++ [0])) :: map le32 (tl (cs ++ [0])) ++ rest_c).
  { rewrite H26.
    change (le32 0 :: rest_c) with (map le32 [0] ++ rest_c).
    rewrite app_assoc, <- map_app. rewrite Hnext at 1. reflexivity. }
  pose proof (readCounts_run 26 _ _ w Hrange Hg) as Hrun1.
  match type of Hrun1 with
  | _ = (_, ?w1) =>
      destruct (drain_loop_run cs fuel [] (with_clock_reads (S (clock_reads w1)) w1)
                  hist rest_h rest_c)
        as (w2 & Hrun2 & H26' & H20' & _ & Hreads)
  end;
    [ assumption | assumption
    | cbn [gatt with_trace with_gatt with_clock_reads]; reflexivity
    | cbn [gatt with_trace with_gatt with_clock_reads]; exact H20
    | assumption | assumption | ].
  eexists. split; [|split; [|split; [|split; [|split; [|split]]]]].
  - unfold drain. unfold bind at 1.
    cbn [handle_of handles dict_get String.eqb Ascii.eqb Bool.eqb
         of_option ret].
    unfold bind at 1. rewrite Hrun1.
    unfold bind at 1. unfold time_time at 1.
    unfold bind at 1. rewrite Hrun2.
    unfold bind at 1. unfold time_time at 1.
    unfold bind at 1. unfold log, emit. cbn [app ret]. reflexivity.
  - rewrite length_map, Hlen. pose proof (sumZ_nonneg cs Hcs). lia.
  - cbn [trace with_trace with_clock_reads].
    rewrite gatt_reads_app, Hreads. cbn [trace with_trace with_gatt with_clock_reads].
    rewrite !gatt_reads_app. cbn [gatt_reads].
    rewrite !app_nil_r, <- app_assoc. reflexivity.
  - cbn [count_occ]. destruct (Z.eq_dec 26 20) as [E|_]; [discriminate E|].
    apply count_history_reads. exact Hcs.
  - cbn [count_occ]. destruct (Z.eq_dec 26 26) as [_|N]; [|contradiction].
    rewrite count_count_reads. reflexivity.
  - cbn [gatt with_trace with_clock_reads]. exact H26'.
  - cbn [gatt with_trace with_clock_reads]. exact H20'.
Qed.

(** ** Nothing buffered *)

Lemma drain_loop_zero (fuel : nat) (dataList : list (PyFloat.float * Z))
  (w : world) :
  drain_loop fuel 0 dataList w = (Return dataList, w).
Proof. destruct fuel; reflexivity. Qed.

Lemma drain_zero_run (fuel : nat) (w : world) (rest : list bytes) :
  gatt w 26 = le32 0 :: rest ->
  drain fuel w
  = (Return [],
     with_trace
       (((trace w ++ [ReadChar 26])
         ++ [Log INFO [Text "Found "; Int 0;
                       Text " pressure values on device"]])
        ++ [Log INFO [Text "Read "; Int 0; Text " values in ";
                      Flt (PyFloat.sub (clock w (S (clock_reads w)))
                                       (clock w (clock_reads w)));
                      Text " seconds"]])
       (with_clock_reads (S (S (clock_reads w)))
          (with_gatt (fun h => if h =? 26 then rest else gatt w h) w))).
Proof.
  intros Hg.
  assert (Hrange : 0 <= 0 < 4294967296) by lia.
  pose proof (readCounts_run 26 0 rest w Hrange Hg) as Hrun.
  unfold drain. unfold bind at 1.
  cbn [handle_of handles dict_get String.eqb Ascii.eqb Bool.eqb of_option ret].
  unfold bind at 1. rewrite Hrun.
  unfold bind at 1. unfold time_time at 1.
  unfold bind at 1. rewrite drain_loop_zero.
  reflexivity.
Qed.

(** C6.  A drain that starts from a freshly read count of zero never
    enters the loop body: it returns no sample, its only characteristic
    read is that one count read, and the history characteristic is left
    untouched. *)
Theorem drain_after_zero_reads_nothing :
  forall (fuel : nat) (w : world) (rest : list bytes),
  gatt w 26 = le32 0 :: rest ->
  (forall dataList w0, drain_loop fuel 0 dataList w0 = (Return dataList, w0))
  /\ exists w',
       drain fuel w = (Return [], w')
       /\ gatt_reads (trace w') = gatt_reads (trace w) ++ [26]
       /\ count_occ Z.eq_dec (gatt_reads (trace w')) 20
          = count_occ Z.eq_dec (gatt_reads (trace w)) 20
       /\ gatt w' 20 = gatt w 20.
Proof.
  intros fuel w rest Hg. split; [intros; apply drain_loop_zero|].
  eexists. split; [apply (drain_zero_run fuel w rest Hg)|].
  cbn [trace gatt with_trace with_clock_reads with_gatt].
  rewrite !gatt_reads_app. cbn [gatt_reads]. rewrite !app_nil_r.
  split; [reflexivity|]. split; [|reflexivity].
  rewrite count_occ_app. cbn [count_occ].
  destruct (Z.eq_dec 26 20) as [E|_]; [discriminate E | lia].
Qed.

(** C10.  When the first count read of download mode returns zero, the
    sample list handed to post-processing is empty; [np.array] of it is
    one-dimensional, so the column rewrite is refused, the run ends with
    an exception (the [IndexError] of that rewrite whenever the device
    clock was read as four bytes), and no output is written. *)
Theorem download_of_empty_buffer_fails :
  forall (args : Namespace) (fuel : nat) (w : world) (rest : list bytes),
  gatt w 26 = le32 0 :: rest ->
  (exists w1, drain fuel w = (Return [], w1))
  /\ np.col1_idiv (np.array []) PyFloat.lit_1000 = None
  /\ exists e w' evs,
       download_mode args fuel w = (Stop (Raised e), w')
       /\ trace w' = trace w ++ evs
       /\ forallb (fun ev => negb (is_save ev)) evs = true
       /\ (forall a b c d rest',
             gatt w 23 = [a; b; c; d] :: rest' -> e = IndexError).
Proof.
  intros args fuel w rest Hg.
  pose proof (drain_zero_run fuel w rest Hg) as Hdrain.
  split; [eexists; exact Hdrain|]. split; [reflexivity|].
  unfold download_mode. unfold bind at 1. unfold log at 1, emit at 1.
  unfold bind at 1.
  match type of Hdrain with
  | drain _ ?w0 = _ =>
      pose proof (drain_zero_run fuel
                    (with_trace (trace w0 ++ [Log INFO [Text "Starting download mode..."]]) w0)
                    rest Hg) as Hdrain'
  end.
  rewrite Hdrain'. clear Hdrain Hdrain'.
  unfold reconcile. unfold bind at 1. unfold time_time at 1.
  unfold bind at 1.
  cbn [handle_of handles dict_get String.eqb Ascii.eqb Bool.eqb of_option ret].
  unfold bind at 1. unfold read_gatt_char at 1, bind at 1, emit at 1.
  cbn [trace gatt clock clock_reads byteorder with_trace with_clock_reads
       with_gatt].
  change (23 =? 26) with false. cbn iota.
  destruct (gatt w 23) as [|payload rest23] eqn:H23.
  - do 3 eexists. split; [reflexivity|].
    cbn [trace with_trace with_clock_reads with_gatt].
    split; [rewrite <- !app_assoc; reflexivity|].
    split; [reflexivity|]. intros; discriminate.
  - unfold bind at 1. unfold struct_unpack at 1, bind at 1, ask at 1.
    cbn [byteorder with_trace with_clock_reads with_gatt].
    destruct (Nat.eq_dec (List.length payload) 4) as [Hlen | Hlen].
    + do 4 (destruct payload as [|? payload]; [discriminate Hlen|]).
      destruct payload; [|discriminate Hlen].
      rewrite unpack_lt_I_4.
      do 3 eexists. split; [reflexivity|].
      cbn [trace with_trace with_clock_reads with_gatt].
      split; [rewrite <- !app_assoc; reflexivity|].
      split; [reflexivity|]. intros; reflexivity.
    + rewrite unpack_lt_I_length by exact Hlen.
      do 3 eexists. split; [reflexivity|].
      cbn [trace with_trace with_clock_reads with_gatt].
      split; [rewrite <- !app_assoc; reflexivity|].
      split; [reflexivity|].
      intros a b c d rest' E. injection E as E _. subst payload.
      contradiction Hlen. reflexivity.
Qed.

(** ** The clock offset *)

Lemma PyFloat_add_comm (x y : PyFloat.float) :
  PyFloat.add x y = PyFloat.add y x.
Proof.
  unfold PyFloat.add.
  destruct x as [sx | sx | | sx mx ex], y as [sy | sy | | sy my ey];
    try reflexivity;
    try (destruct sx, sy; reflexivity).
  cbn [SFadd]. rewrite (Z.min_comm ey ex). f_equal. apply Z.add_comm.
Qed.

Lemma reconcile_run (args : Namespace)
  (s : PyFloat.float * Z) (dataList : list (PyFloat.float * Z))
  (w : world) (ms : Z) (rest : list bytes) :
  0 <= ms < 4294967296 ->
  gatt w 23 = le32 ms :: rest ->
  let T := clock w (clock_reads w) in
  let offset := PyFloat.sub T (PyFloat.div (PyFloat.of_int ms)
                                           (PyFloat.of_int 1000)) in
  exists w',
    reconcile args (s :: dataList) w
    = (if openable w (filename args) then Return tt
       else Stop (Raised OSError), w')
    /\ trace w'
       = trace w
         ++ [ReadChar 23;
             Log INFO [Text "Established time Difference of "; Flt offset;
                       Text " seconds."];
             Log INFO [Text "Device was started at "; Stamp offset; Text "."]]
         ++ if openable w (filename args)
            then [SaveTxt (filename args) (overwrite args)
                    (np.Array2
                       (map (fun r =>
                               (fst r,
                                PyFloat.add
                                  (PyFloat.div (PyFloat.of_int (snd r))
                                               (PyFloat.of_int 1000))
                                  offset))
                            (s :: dataList)))
                    "%.2f"]
            else [].
Proof.
  intros Hms Hg T offset.
  unfold reconcile. unfold bind at 1. unfold time_time at 1.
  unfold bind at 1.
  cbn [handle_of handles dict_get String.eqb Ascii.eqb Bool.eqb of_option ret].
  unfold bind at 1. unfold read_gatt_char at 1, bind at 1, emit at 1.
  cbn [trace gatt with_trace with_clock_reads]. rewrite Hg.
  unfold bind at 1. unfold struct_unpack at 1, bind at 1, ask at 1.
  cbn [byteorder with_trace with_clock_reads with_gatt].
  rewrite unpack_lt_I_le32 by exact Hms.
  cbn [of_option ret]. unfold bind at 1. cbn [item nth_error of_option ret].
  unfold bind at 1. cbn [as_int ret].
  unfold bind at 1. unfold log at 1, emit at 1.
  unfold bind at 1. unfold log at 1, emit at 1.
  cbn [np.array np.col1_idiv np.col1_iadd np.col1_update].
  unfold bind at 1. cbn [of_option ret].
  unfold bind at 1.
  cbn [of_option ret np.col1_idiv np.col1_iadd np.col1_update].
  unfold bind at 1. unfold ask at 1.
  cbn [openable with_trace with_clock_reads with_gatt].
  destruct (openable w (filename args)).
  - unfold emit. eexists. split; [reflexivity|].
    cbn [trace with_trace with_clock_reads with_gatt].
    rewrite <- !app_assoc. cbn [app].
    rewrite !map_map. cbn [fst snd]. reflexivity.
  - unfold raise, halt. eexists. split; [reflexivity|].
    cbn [trace with_trace with_clock_reads with_gatt].
    rewrite <- !app_assoc. reflexivity.
Qed.

(** C2.  After the drain, the device clock is read once, as four
    little-endian bytes of milliseconds; divided by [1000.] it is
    subtracted from the local time just read, and every sample's
    timestamp, divided by [1000], has that offset added.  With a device
    clock of 1000 ms read at local time [T], a sample stamped 500 ms
    comes out at [T - 1.0 + 0.5].  The reconciled samples are what is
    written when the output file can be opened; when it cannot, the
    same read and log records are followed by the [OSError] of [open],
    and nothing is written. *)
Theorem reconcile_adds_clock_offset :
  forall (args : Namespace) (dataList : list (PyFloat.float * Z))
         (w : world) (ms : Z) (rest : list bytes),
  dataList <> [] ->
  0 <= ms < 4294967296 ->
  gatt w 23 = le32 ms :: rest ->
  let T := clock w (clock_reads w) in
  let offset := PyFloat.sub T (PyFloat.div (PyFloat.of_int ms)
                                           (PyFloat.of_int 1000)) in
  (exists w' logs,
     gatt_reads (trace w') = gatt_reads (trace w) ++ [23]
     /\ if openable w (filename args)
        then reconcile args dataList w = (Return tt, w')
             /\ trace w'
                = trace w ++ ReadChar 23 :: logs
                  ++ [SaveTxt (filename args) (overwrite args)
                        (np.Array2
                           (map (fun r =>
                                   (fst r,
                                    PyFloat.add
                                      (PyFloat.div (PyFloat.of_int (snd r))
                                                   (PyFloat.of_int 1000))
                                      offset))
                                dataList))
                        "%.2f"]
        else reconcile args dataList w = (Stop (Raised OSError), w')
             /\ trace w' = trace w ++ ReadChar 23 :: logs
             /\ existsb is_save logs = false)
  /\ (ms = 1000 ->
      openable w (filename args) = true ->
      forall p : PyFloat.float,
      exists w' logs,
        reconcile args [(p, 500)] w = (Return tt, w')
        /\ trace w'
           = trace w ++ ReadChar 23 :: logs
             ++ [SaveTxt (filename args) (overwrite args)
                   (np.Array2
                      [(p, PyFloat.add (PyFloat.sub T PyFloat.lit_1_0)
                                       PyFloat.lit_0_5)])
                   "%.2f"]).
Proof.
  intros args dataList w ms rest Hne Hms Hg T offset. split.
  - destruct dataList as [|s dataList]; [contradiction Hne; reflexivity|].
    destruct (reconcile_run args s dataList w ms rest Hms Hg)
      as (w' & Hrun & Htrace).
    exists w'.
    exists [Log INFO [Text "Established time Difference of "; Flt offset;
                       Text " seconds."];
             Log INFO [Text "Device was started at "; Stamp offset; Text "."]].
    split.
    + rewrite Htrace, !gatt_reads_app.
      destruct (openable w (filename args)); reflexivity.
    + destruct (openable w (filename args)).
      * split; [exact Hrun|]. rewrite Htrace. reflexivity.
      * split; [exact Hrun|]. rewrite Htrace, app_nil_r.
        split; reflexivity.
  - intros -> Hopen p.
    destruct (reconcile_run args (p, 500) [] w 1000 rest Hms Hg)
      as (w' & Hrun & Htrace).
    rewrite Hopen in Hrun, Htrace.
    exists w'.
    exists [Log INFO [Text "Established time Difference of "; Flt offset;
                       Text " seconds."];
             Log INFO [Text "Device was started at "; Stamp offset; Text "."]].
    split; [exact Hrun|].
    rewrite Htrace. cbn [map fst snd].
    change (PyFloat.div (PyFloat.of_int 500) (PyFloat.of_int 1000))
      with PyFloat.lit_0_5.
    change (PyFloat.div (PyFloat.of_int 1000) (PyFloat.of_int 1000))
      with PyFloat.lit_1_0.
    rewrite (PyFloat_add_comm PyFloat.lit_0_5). reflexivity.
Qed.

(** ** The interval override *)

Lemma pack_lt_I_le32 (n : Z) :
  0 <= n < 4294967296 -> struct.pack_lt_I n = Some (le32 n).
Proof.
  intros Hn. unfold struct.pack_lt_I.
  replace (0 <=? n) with true by (symmetry; apply Z.leb_le; lia).
  replace (n <? 4294967296) with true by (symmetry; apply Z.ltb_lt; lia).
  reflexivity.
Qed.

Lemma all_below_spec (P : Z -> bool) (n : nat) :
  all_below n P = true -> forall c, 0 <= c < Z.of_nat n -> P c = true.
Proof.
  induction n as [|n IH]; intros Hall c Hc; [lia|].
  cbn [all_below] in Hall. apply andb_prop in Hall as (Hn & Hrest).
  destruct (Z.eq_dec c (Z.of_nat n)) as [-> | Hne]; [exact Hn|].
  apply IH; [exact Hrest | lia].
Qed.

Lemma timedelta_ok_fastest (c : Z) :
  0 <= c <= 16384 -> timedelta_ok (remaining_buffer c 0) = true.
Proof.
  intros Hc.
  apply (all_below_spec (fun c => timedelta_ok (remaining_buffer c 0))
           (Z.to_nat 16385)); [vm_compute; reflexivity | lia].
Qed.

Lemma timedelta_ok_seconds (c interval : Z) :
  0 <= c <= 16384 -> 0 < interval < 4294967296 ->
  timedelta_ok (remaining_buffer c interval) = true.
Proof.
  intros Hc Hi. unfold remaining_buffer, truthy_int.
  replace (interval =? 0) with false by (symmetry; apply Z.eqb_neq; lia).
  cbn [negb int_mul timedelta_ok]. apply Z.leb_le.
  assert (Hx : 0 <= (16384 - c) * interval <= 16384 * 4294967295) by nia.
  assert (0 <= (16384 - c) * interval / 86400) by (apply Z.div_pos; lia).
  assert ((16384 - c) * interval / 86400 <= 999999999)
    by (apply Z.div_le_upper_bound; lia).
  lia.
Qed.

(** C4.  With an interval override, the warning reports
    [(16384 - count) * effective], where [effective] is the requested
    interval when it is nonzero and [0.1] when it is zero; for interval 0
    and a count of 100 that is [(16384 - 100) * 0.1]. *)
Theorem interval_override_reports_remaining_buffer :
  forall (interval c : Z) (w : world) (b0 b1 b2 b3 : byte)
         (rest16 rest26 : list bytes),
  0 <= interval < 4294967296 ->
  0 <= c <= 16384 ->
  gatt w 16 = [b0; b1; b2; b3] :: rest16 ->
  gatt w 26 = le32 c :: rest26 ->
  let effective := if interval =? 0 then NFloat PyFloat.lit_0_1
                   else NInt interval in
  (exists w',
     configure_interval interval w = (Return tt, w')
     /\ trace w'
        = trace w
          ++ [ReadChar 16;
              Log INFO [Text "Current readout interval is ";
                        Int (struct.word struct.Little [b0; b1; b2; b3]);
                        Text " second(s)"];
              Log INFO [Text "Setting readout interval to "; Int interval;
                        Text " second(s)"];
              WriteChar 16 (le32 interval) true;
              ReadChar 26;
              Log WARNING [Text "Remaining recording buffer will last for ";
                           Delta (int_mul (16384 - c) effective)]])
  /\ (interval = 0 -> c = 100 ->
      int_mul (16384 - c) effective
      = NFloat (PyFloat.mul (PyFloat.of_int (16384 - 100)) PyFloat.lit_0_1)).
Proof.
  intros interval c w b0 b1 b2 b3 rest16 rest26 Hi Hc H16 H26 effective.
  assert (Hc32 : 0 <= c < 4294967296) by lia.
  assert (Heff : remaining_buffer c interval = int_mul (16384 - c) effective).
  { unfold remaining_buffer, truthy_int, effective.
    destruct (interval =? 0); reflexivity. }
  assert (Hok : timedelta_ok (remaining_buffer c interval) = true).
  { destruct (Z.eq_dec interval 0) as [-> | Hnz].
    - apply timedelta_ok_fastest. exact Hc.
    - apply timedelta_ok_seconds; lia. }
  split.
  - unfold configure_interval. unfold bind at 1.
    cbn [handle_of handles dict_get String.eqb Ascii.eqb Bool.eqb
         of_option ret].
    unfold bind at 1. unfold read_gatt_char at 1, bind at 1, emit at 1.
    cbn [trace gatt with_trace]. rewrite H16.
    unfold bind at 1. unfold struct_unpack at 1, bind at 1, ask at 1.
    cbn [byteorder with_trace with_gatt]. rewrite unpack_lt_I_4.
    cbn [of_option ret]. unfold bind at 1. cbn [item nth_error of_option ret].
    unfold bind at 1. unfold log at 1, emit at 1.
    unfold bind at 1. unfold log at 1, emit at 1.
    unfold bind at 1. unfold bind at 1.
    rewrite pack_lt_I_le32 by exact Hi. cbn [of_option ret].
    unfold bind at 1. unfold write_gatt_char at 1, emit at 1.
    unfold bind at 1. cbn [ret]. unfold bind at 1.
    unfold read_gatt_char at 1, bind at 1, emit at 1.
    cbn [trace gatt with_trace with_gatt].
    change (26 =? 16) with false. cbn iota. rewrite H26.
    unfold bind at 1. unfold struct_unpack at 1, bind at 1, ask at 1.
    cbn [byteorder with_trace with_gatt].
    rewrite unpack_lt_I_le32 by exact Hc32.
    cbn [of_option ret]. unfold bind at 1. cbn [item nth_error of_option ret].
    unfold bind at 1. cbn [as_int ret].
    rewrite Hok, Heff. unfold log, emit.
    eexists. split; [reflexivity|].
    cbn [trace with_trace with_gatt piece_of_value].
    rewrite <- !app_assoc. reflexivity.
  - intros -> ->. reflexivity.
Qed.

(** ** Finding the device *)

Lemma for_each_log_run {A} (l : list A) (msg : A -> list piece) (w : world) :
  for_each l (fun x => log INFO (msg x)) w
  = (Return tt, with_trace (trace w ++ map (fun x => Log INFO (msg x)) l) w).
Proof.
  revert w. induction l as [|x l IH]; intros w.
  - cbn [for_each map ret]. rewrite app_nil_r. destruct w; reflexivity.
  - cbn [for_each map]. unfold bind at 1. unfold log at 1, emit at 1.
    rewrite IH. cbn [trace with_trace]. rewrite <- app_assoc. reflexivity.
Qed.

Lemma discoverDevice_run (timeout minimum_rssi : Z) (w : world) :
  let devices := keep_strong minimum_rssi (advertising w) in
  let devlist := map (fun da => fst da) (map snd devices) in
  let searched :=
    trace w ++ [Log INFO [Text "Scanning for bluetooth devices..."];
                Discover timeout]
            ++ map (fun da => Log INFO (found_message da)) (map snd devices) in
  discoverDevice timeout minimum_rssi w
  = match devices with
    | [] => (Stop (Raised (SystemExit 1)),
             with_trace (searched ++ [Log ERROR [Text no_devices_message]]) w)
    | [kv] => (Return (fst (snd kv)), with_trace searched w)
    | _ =>
        let shown :=
          searched ++ [MenuShown (map str_device devlist)
                         "Please select your device:"] in
        match menu_answer w with
        | None => (Stop (Raised TypeError), with_trace shown w)
        | Some i =>
            match nth_error devlist i with
            | Some d => (Return d, with_trace shown w)
            | None => (Stop (Raised IndexError), with_trace shown w)
            end
        end
    end.
Proof.
  intros devices devlist searched.
  unfold discoverDevice. unfold bind at 1. unfold log at 1, emit at 1.
  unfold bind at 1. unfold emit at 1.
  unfold bind at 1. unfold ask at 1. cbn [advertising with_trace].
  fold devices. unfold bind at 1.
  change (fun da : BLEDevice * AdvertisementData =>
            log INFO [Text "Found device "; Dev (fst da); Text " (RSSI = ";
                      Int (adv_rssi (snd da)); Text " dB)"])
    with (fun da => log INFO (found_message da)).
  rewrite for_each_log_run. cbn [trace with_trace].
  assert (Hs : ((trace w ++ [Log INFO [Text "Scanning for bluetooth devices..."]])
                ++ [Discover timeout])
               ++ map (fun da => Log INFO (found_message da)) (map snd devices)
               = searched).
  { unfold searched. rewrite <- !app_assoc. reflexivity. }
  rewrite Hs. clearbody searched. subst devlist. clear Hs.
  destruct devices as [|kv [|kv' devices]].
  - reflexivity.
  - reflexivity.
  - unfold bind at 1. cbn [ret]. cbn [List.length Nat.eqb].
    unfold bind at 1. unfold emit at 1. unfold bind at 1. unfold ask at 1.
    cbn [menu_answer trace with_trace].
    destruct (menu_answer w) as [i|]; [|reflexivity].
    unfold of_option.
    destruct (nth_error _ i); reflexivity.
Qed.

(** C5.  The candidates that remain after the RSSI filter are exactly
    the advertised devices whose signal strength is strictly greater
    than the minimum; none at or below it remains, and the device
    [discoverDevice] returns is one of them. *)
Theorem rssi_filter_keeps_strictly_stronger :
  forall (minimum_rssi : Z) (w : world),
  let devices := advertising w in
  (forall kv,
     In kv (keep_strong minimum_rssi devices)
     <-> In kv devices /\ adv_rssi (snd (snd kv)) > minimum_rssi)
  /\ (forall kv,
        In kv (keep_strong minimum_rssi devices) ->
        ~ adv_rssi (snd (snd kv)) <= minimum_rssi)
  /\ (forall timeout d w',
        discoverDevice timeout minimum_rssi w = (Return d, w') ->
        exists addr adv,
          In (addr, (d, adv)) devices /\ adv_rssi adv > minimum_rssi).
Proof.
  intros minimum_rssi w devices.
  assert (Hiff : forall kv,
            In kv (keep_strong minimum_rssi devices)
            <-> In kv devices /\ adv_rssi (snd (snd kv)) > minimum_rssi).
  { intros kv. unfold keep_strong. rewrite filter_In.
    rewrite Z.gtb_gt. reflexivity. }
  split; [exact Hiff|]. split.
  - intros kv Hin. apply Hiff in Hin. lia.
  - intros timeout d w' Hrun. rewrite discoverDevice_run in Hrun.
    fold devices in Hrun.
    assert (Hmem : forall kv,
              In kv (keep_strong minimum_rssi devices) ->
              exists addr adv,
                In (addr, (fst (snd kv), adv)) devices
                /\ adv_rssi adv > minimum_rssi).
    { intros [addr [dev adv]] Hin. apply Hiff in Hin.
      exists addr, adv. exact Hin. }
    destruct (keep_strong minimum_rssi devices) as [|kv [|kv' rest]] eqn:Hk.
    + discriminate Hrun.
    + injection Hrun as Hd _. subst d. apply Hmem. left. reflexivity.
    + destruct (menu_answer w) as [i|]; [|discriminate Hrun].
      destruct (nth_error _ i) as [dev|] eqn:Hnth; [|discriminate Hrun].
      injection Hrun as Hd _. subst dev.
      apply nth_error_In in Hnth. rewrite map_map in Hnth.
      apply in_map_iff in Hnth as (kv0 & Hfst & Hin0).
      subst d. apply Hmem. exact Hin0.
Qed.

(** C7.  When the device cannot be resolved the run ends at once with
    exit status 1: after one lookup by address that found nothing, or
    after one discovery scan none of whose results passed the RSSI
    filter, the error being logged with a hint at the [--rssi] option.
    The search is not attempted again and no connection is opened. *)
Theorem unresolved_device_exits_with_status_1 :
  forall (args : Namespace) (fuel : nat) (w : world),
  (forall a,
     addr args = Some a -> a <> "" -> reachable w a = None ->
     exists w',
       loop args fuel w = (Stop (Raised (SystemExit 1)), w')
       /\ exit_status (fst (loop args fuel w)) = Some 1
       /\ trace w'
          = trace w
            ++ [FindByAddress a (timeout args);
                Log ERROR [Text "Could not find device with address ";
                           Text a]])
  /\ (truthy_str (addr args) = false ->
      keep_strong (rssi args) (advertising w) = [] ->
      exists w',
        loop args fuel w = (Stop (Raised (SystemExit 1)), w')
        /\ exit_status (fst (loop args fuel w)) = Some 1
        /\ trace w'
           = trace w
             ++ [Log INFO [Text "Scanning for bluetooth devices..."];
                 Discover (timeout args);
                 Log ERROR
                   [Text "Could not find any devices, check minimum RSSI level (option: --rssi)"]]).
Proof.
  intros args fuel w. split.
  - intros a Ha Hne Hnone.
    assert (Htruthy : truthy_str (addr args) = true).
    { rewrite Ha. destruct a; [contradiction Hne; reflexivity | reflexivity]. }
    assert (Hrun : getDevice a (timeout args) w
                   = (Stop (Raised (SystemExit 1)),
                      with_trace
                        ((trace w ++ [FindByAddress a (timeout args)])
                         ++ [Log ERROR [Text "Could not find device with address ";
                                        Text a]]) w)).
    { unfold getDevice. unfold bind at 1. unfold emit at 1.
      unfold bind at 1. unfold ask at 1. cbn [reachable with_trace].
      rewrite Hnone. reflexivity. }
    assert (Hloop : loop args fuel w
                    = (Stop (Raised (SystemExit 1)),
                       with_trace
                         ((trace w ++ [FindByAddress a (timeout args)])
                          ++ [Log ERROR [Text "Could not find device with address ";
                                         Text a]]) w)).
    { unfold loop. unfold bind at 1. rewrite Htruthy, Ha, Hrun. reflexivity. }
    rewrite Hloop.
    eexists. split; [reflexivity|]. split; [reflexivity|].
    cbn [trace with_trace]. rewrite <- app_assoc. reflexivity.
  - intros Hfalsy Hnone.
    assert (Hloop : loop args fuel w
                    = (Stop (Raised (SystemExit 1)),
                       with_trace
                         ((trace w
                           ++ [Log INFO [Text "Scanning for bluetooth devices..."];
                               Discover (timeout args)] ++ [])
                          ++ [Log ERROR [Text no_devices_message]]) w)).
    { unfold loop. unfold bind at 1. rewrite Hfalsy.
      rewrite discoverDevice_run, Hnone. reflexivity. }
    rewrite Hloop.
    eexists. split; [reflexivity|]. split; [reflexivity|].
    cbn [trace with_trace map app]. rewrite <- !app_assoc. reflexivity.
Qed.

(** C8.  In interactive discovery a single remaining candidate is
    returned without any menu being shown; with several, one menu listing
    all of them is shown and the device at the chosen index is
    returned. *)
Theorem discovery_selects_device :
  forall (timeout minimum_rssi : Z) (w : world),
  let devices := keep_strong minimum_rssi (advertising w) in
  let devlist := map (fun da => fst da) (map snd devices) in
  (forall kv,
     devices = [kv] ->
     exists w' evs,
       discoverDevice timeout minimum_rssi w = (Return (fst (snd kv)), w')
       /\ trace w' = trace w ++ evs
       /\ existsb is_menu evs = false
       /\ menu_answer w' = menu_answer w)
  /\ (forall i d,
        (2 <= List.length devices)%nat ->
        menu_answer w = Some i ->
        nth_error devlist i = Some d ->
        exists w' evs,
          discoverDevice timeout minimum_rssi w = (Return d, w')
          /\ trace w'
             = trace w ++ evs
               ++ [MenuShown (map str_device devlist)
                     "Please select your device:"]
          /\ existsb is_menu evs = false).
Proof.
  intros timeout minimum_rssi w devices devlist. split.
  - intros kv Hone. rewrite discoverDevice_run. fold devices. rewrite Hone.
    eexists.
    exists [Log INFO [Text "Scanning for bluetooth devices..."];
            Discover timeout; Log INFO (found_message (snd kv))].
    split; [reflexivity|].
    cbn [trace with_trace menu_answer map app].
    split; [reflexivity|]. split; reflexivity.
  - intros i d Hmany Hi Hd. rewrite discoverDevice_run.
    fold devices. fold devlist.
    destruct devices as [|kv [|kv' rest]] eqn:Hk;
      [cbn [List.length] in Hmany; lia | cbn [List.length] in Hmany; lia|].
    rewrite Hi, Hd.
    eexists.
    exists ([Log INFO [Text "Scanning for bluetooth devices..."];
             Discover timeout]
            ++ map (fun da => Log INFO (found_message da))
                 (map snd (kv :: kv' :: rest))).
    split; [reflexivity|]. split.
    + cbn [trace with_trace]. rewrite <- !app_assoc. reflexivity.
    + rewrite existsb_app. cbn [existsb is_menu orb].
      clear. induction (map snd (kv :: kv' :: rest)) as [|x l IH];
        [reflexivity | cbn [map existsb is_menu orb]; exact IH].
Qed.

(** ** Scan mode *)

Lemma callback_run (h : Z) (data : bytes) (w : world) :
  exists w' e,
    deliver (scanPressureCallback h data) w = (Return tt, w')
    /\ trace w' = trace w ++ [e]
    /\ callback_output e
    /\ signal_handlers w' = signal_handlers w
    /\ notifying w' = notifying w
    /\ arrivals w' = arrivals w
    /\ wake_lag w' = wake_lag w
    /\ stop_lag w' = stop_lag w.
Proof.
  unfold deliver, scanPressureCallback.
  unfold bind at 1. unfold struct_unpack at 1, bind at 1, ask at 1.
  destruct (struct.unpack (byteorder w) "f" data) as [t|]; cbn [of_option].
  - unfold ret at 1. unfold bind at 1. unfold item at 1.
    destruct (nth_error t 0) as [pressure|]; cbn [of_option].
    + unfold ret at 1. unfold bind at 1. unfold datetime_now, time_time.
      unfold bind at 1. unfold ask at 1. cbn [eol with_clock_reads].
      unfold bind at 1.
      destruct (eol w) as [terminator|]; cbn [of_option].
      * unfold ret at 1. unfold emit.
        do 2 eexists. split; [reflexivity|].
        cbn [trace with_trace with_clock_reads signal_handlers notifying
             arrivals wake_lag stop_lag].
        repeat split; exact I.
      * unfold raise, halt.
        do 2 eexists. split; [reflexivity|].
        cbn [trace with_trace with_clock_reads signal_handlers notifying
             arrivals wake_lag stop_lag].
        repeat split; exact I.
    + unfold raise, halt.
      do 2 eexists. split; [reflexivity|].
      cbn [trace with_trace signal_handlers notifying arrivals wake_lag
           stop_lag].
      repeat split; exact I.
  - unfold raise, halt.
    do 2 eexists. split; [reflexivity|].
    cbn [trace with_trace signal_handlers notifying arrivals wake_lag
         stop_lag].
    repeat split; exact I.
Qed.

Lemma serve_one_run (a : arrival) (w : world) :
  exists b w' evs,
    serve_one a w = (Return b, w')
    /\ (signal_handlers w = [SIGTERM; SIGINT] -> b = stop_signal a)
    /\ Forall callback_output evs
    /\ trace w' = trace w ++ evs
    /\ signal_handlers w' = signal_handlers w
    /\ notifying w' = notifying w
    /\ arrivals w' = arrivals w
    /\ wake_lag w' = wake_lag w
    /\ stop_lag w' = stop_lag w.
Proof.
  destruct a as [h data | s | seconds]; cbn [serve_one].
  - unfold bind at 1. unfold ask at 1. unfold bind at 1.
    destruct (existsb (Z.eqb h) (notifying w)).
    + destruct (callback_run h data w)
        as (w' & e & Hrun & Ht & He & Hs & Hn & Ha & Hwl & Hsl).
      rewrite Hrun. exists false, w', [e].
      repeat split; try assumption. constructor; [exact He | constructor].
    + exists false, w, []. rewrite app_nil_r.
      repeat split. constructor.
  - unfold bind at 1. unfold ask at 1. unfold ret.
    exists (existsb (signal_eqb s) (signal_handlers w)), w, [].
    rewrite app_nil_r. repeat split; [|constructor].
    intros ->. destruct s; reflexivity.
  - exists false, w, []. rewrite app_nil_r. repeat split. constructor.
Qed.

Lemma serve_cons (n : nat) (a : arrival) (q : list arrival) (w : world) :
  serve (S n) (a :: q) w
  = match serve_one a (with_arrivals q w) with
    | (Return _, w1) => serve n q w1
    | (Stop r, w1) => (Stop r, w1)
    end.
Proof. reflexivity. Qed.

Lemma serve_run (n : nat) :
  forall (q : list arrival) (w : world),
  arrivals w = q ->
  exists w' evs,
    serve n q w = (Return tt, w')
    /\ Forall callback_output evs
    /\ trace w' = trace w ++ evs
    /\ signal_handlers w' = signal_handlers w
    /\ notifying w' = notifying w
    /\ arrivals w' = skipn n q
    /\ wake_lag w' = wake_lag w
    /\ stop_lag w' = stop_lag w.
Proof.
  induction n as [|n IH]; intros q w Hq.
  - exists w, []. rewrite app_nil_r. cbn [skipn].
    destruct q; repeat split; try assumption; constructor.
  - destruct q as [|a q].
    + exists w, []. rewrite app_nil_r. repeat split; try assumption.
      constructor.
    + rewrite serve_cons.
      destruct (serve_one_run a (with_arrivals q w))
        as (b & w1 & e1 & Hrun & _ & He1 & Ht1 & Hs1 & Hn1 & Ha1 & Hwl1 & Hsl1).
      rewrite Hrun.
      destruct (IH q w1 Ha1)
        as (w' & e2 & Hrun' & He2 & Ht2 & Hs2 & Hn2 & Ha2 & Hwl2 & Hsl2).
      exists w', (e1 ++ e2). split; [exact Hrun'|].
      split; [apply Forall_app; split; assumption|].
      split; [rewrite Ht2, Ht1, <- app_assoc; reflexivity|].
      split; [rewrite Hs2, Hs1; reflexivity|].
      split; [rewrite Hn2, Hn1; reflexivity|].
      split; [exact Ha2|].
      split; [rewrite Hwl2, Hwl1; reflexivity | rewrite Hsl2, Hsl1; reflexivity].
Qed.

Lemma await_stop_cons (a : arrival) (q : list arrival) (w : world) :
  await_stop (a :: q) w
  = match serve_one a (with_arrivals q w) with
    | (Return true, w1) => serve (wake_lag w1) q w1
    | (Return false, w1) => await_stop q w1
    | (Stop r, w1) => (Stop r, w1)
    end.
Proof.
  cbn [await_stop]. unfold bind at 1. unfold bind at 1.
  destruct (serve_one a (with_arrivals q w)) as [[[] | r] w1]; reflexivity.
Qed.

Lemma await_stop_run (q : list arrival) :
  forall w : world,
  signal_handlers w = [SIGTERM; SIGINT] ->
  exists w' served,
    Forall callback_output served
    /\ trace w' = trace w ++ served
    /\ notifying w' = notifying w
    /\ wake_lag w' = wake_lag w
    /\ stop_lag w' = stop_lag w
    /\ if existsb stop_signal q
       then await_stop q w = (Return tt, w')
            /\ arrivals w' = skipn (wake_lag w) (after_stop q)
       else await_stop q w = (Stop Blocked, w').
Proof.
  induction q as [|a q IH]; intros w Hh.
  - exists w, []. rewrite app_nil_r. repeat split; constructor.
  - rewrite await_stop_cons. cbn [existsb after_stop].
    destruct (serve_one_run a (with_arrivals q w))
      as (b & w1 & e1 & Hrun & Hb & He1 & Ht1 & Hs1 & Hn1 & Ha1 & Hwl1 & Hsl1).
    rewrite Hrun. rewrite (Hb Hh).
    cbn [trace signal_handlers notifying arrivals wake_lag stop_lag
         with_arrivals] in Ht1, Hs1, Hn1, Ha1, Hwl1, Hsl1.
    destruct (stop_signal a); cbn [orb].
    + destruct (serve_run (wake_lag w1) q w1 Ha1)
        as (w' & e2 & Hrun' & He2 & Ht2 & Hs2 & Hn2 & Ha2 & Hwl2 & Hsl2).
      exists w', (e1 ++ e2).
      split; [apply Forall_app; split; assumption|].
      split; [rewrite Ht2, Ht1, <- app_assoc; reflexivity|].
      split; [rewrite Hn2, Hn1; reflexivity|].
      split; [rewrite Hwl2, Hwl1; reflexivity|].
      split; [rewrite Hsl2, Hsl1; reflexivity|].
      split; [exact Hrun'|]. rewrite Ha2, Hwl1. reflexivity.
    + destruct (IH w1) as (w' & e2 & He2 & Ht2 & Hn2 & Hwl2 & Hsl2 & Hres).
      { rewrite Hs1. exact Hh. }
      exists w', (e1 ++ e2).
      split; [apply Forall_app; split; assumption|].
      split; [rewrite Ht2, Ht1, <- app_assoc; reflexivity|].
      split; [rewrite Hn2, Hn1; reflexivity|].
      split; [rewrite Hwl2, Hwl1; reflexivity|].
      split; [rewrite Hsl2, Hsl1; reflexivity|].
      rewrite <- Hwl1. exact Hres.
Qed.

Lemma stop_notify_run (handle : Z) (w : world) :
  exists w' late,
    stop_notify handle w = (Return tt, w')
    /\ Forall callback_output late
    /\ trace w' = trace w ++ StopNotify handle :: late
    /\ notifying w' = filter (fun h => negb (h =? handle)) (notifying w)
    /\ arrivals w' = skipn (stop_lag w) (arrivals w).
Proof.
  unfold stop_notify. unfold bind at 1. unfold emit at 1.
  unfold bind at 1. unfold ask at 1. cbn [stop_lag with_trace].
  unfold bind at 1. unfold serve_pending at 1. cbn [arrivals with_trace].
  destruct (serve_run (stop_lag w) (arrivals w)
              (with_trace (trace w ++ [StopNotify handle]) w) eq_refl)
    as (w1 & late & Hrun & Hlate & Ht & Hs & Hn & Ha & Hwl & Hsl).
  rewrite Hrun. eexists. exists late. split; [reflexivity|].
  cbn [trace notifying arrivals with_trace with_notifying] in *.
  split; [exact Hlate|].
  split; [rewrite Ht, <- app_assoc; reflexivity|].
  split; [rewrite Hn; reflexivity | exact Ha].
Qed.

(** ** The scan session *)

Lemma scan_session_run (args : Namespace) (device : BLEDevice) (timeout : Z)
  (w : world) :
  let w0 :=
    with_signal_handlers (SIGTERM :: SIGINT :: signal_handlers w)
      (with_notifying (11 :: notifying w)
         (with_eol (Some (if newline args then LF else CR))
            (with_trace
               (((((trace w ++ [Connect device timeout])
                   ++ [Log INFO [Text "Starting scanning mode..."]])
                  ++ [StartNotify 11])
                 ++ [AddSignalHandler SIGINT])
                ++ [AddSignalHandler SIGTERM]) w))) in
  with_client device timeout (scan_mode args) w
  = match await_stop (arrivals w) w0 with
    | (Return _, w1) =>
        match stop_notify 11 w1 with
        | (Return _, w2) =>
            (Return tt, with_trace (trace w2 ++ [Disconnect]) w2)
        | (Stop (Raised e), w2) =>
            (Stop (Raised e), with_trace (trace w2 ++ [Disconnect]) w2)
        | (Stop r, w2) => (Stop r, w2)
        end
    | (Stop (Raised e), w1) =>
        (Stop (Raised e), with_trace (trace w1 ++ [Disconnect]) w1)
    | (Stop r, w1) => (Stop r, w1)
    end.
Proof.
  intros w0. unfold with_client, scan_mode.
  unfold bind at 1. unfold emit at 1.
  unfold bind at 1. unfold log at 1, emit at 1.
  unfold bind at 1. unfold bind at 1.
  cbn [handle_of handles dict_get String.eqb Ascii.eqb Bool.eqb of_option ret].
  unfold bind at 1. unfold start_notify at 1, bind at 1, emit at 1.
  unfold bind at 1. cbn [for_each].
  unfold bind at 1. unfold add_signal_handler at 1, bind at 1, emit at 1.
  unfold bind at 1. unfold add_signal_handler at 1, bind at 1, emit at 1.
  cbn [ret]. unfold bind at 1. unfold stopEvent_wait at 1.
  cbn [trace arrivals notifying signal_handlers with_trace with_eol
       with_notifying with_signal_handlers].
  change (await_stop (arrivals w) _) with (await_stop (arrivals w) w0).
  destruct (await_stop (arrivals w) w0) as [[[] | [e | |]] w1];
    try reflexivity.
  unfold bind at 1. cbn [ret].
  destruct (stop_notify 11 w1) as [[[] | [e | |]] w2]; reflexivity.
Qed.

(** C9.  Scan mode is left only through an interrupt or termination
    signal: whatever else arrives in whatever number (notifications,
    time passing, other signals) leaves the task waiting, still
    subscribed and connected.  When such a signal arrives, the task
    asks the device to stop notifying, the callback is dropped, and
    then the session is closed: in the world in which the session is
    closed the pressure characteristic is no longer subscribed, and the
    trace ends with the stop-notify, what the callback still put out
    while the request was under way, and the disconnect.  What arrives
    once the callback is dropped is not served. *)
Theorem scan_ends_on_signal_then_unsubscribes :
  forall (args : Namespace) (device : BLEDevice) (timeout : Z) (w : world),
  signal_handlers w = [] ->
  let started :=
    [Connect device timeout;
     Log INFO [Text "Starting scanning mode..."];
     StartNotify 11;
     AddSignalHandler SIGINT;
     AddSignalHandler SIGTERM] in
  exists w' served,
    Forall callback_output served
    /\ if existsb stop_signal (arrivals w)
       then with_client device timeout (scan_mode args) w = (Return tt, w')
            /\ exists w1 late,
                 Forall callback_output late
                 /\ trace w1
                    = trace w ++ started ++ served ++ StopNotify 11 :: late
                 /\ ~ In 11 (notifying w1)
                 /\ arrivals w1
                    = skipn (wake_lag w + stop_lag w)
                        (after_stop (arrivals w))
                 /\ w' = with_trace (trace w1 ++ [Disconnect]) w1
                 /\ trace w'
                    = trace w ++ started ++ served
                      ++ StopNotify 11 :: late ++ [Disconnect]
       else with_client device timeout (scan_mode args) w = (Stop Blocked, w')
            /\ trace w' = trace w ++ started ++ served
            /\ In 11 (notifying w').
Proof.
  intros args device timeout w Hh started.
  rewrite scan_session_run. rewrite Hh.
  match goal with
  | |- context [await_stop ?q ?w0] =>
      destruct (await_stop_run q w0)
        as (w1 & served & Hserved & Ht & Hn & Hwl & Hsl & Hres);
        [reflexivity|]
  end.
  cbn [trace notifying wake_lag stop_lag with_trace with_eol with_notifying
       with_signal_handlers] in Ht, Hn, Hwl, Hsl, Hres.
  destruct (existsb stop_signal (arrivals w)).
  - destruct Hres as (Hrun & Ha). rewrite Hrun.
    destruct (stop_notify_run 11 w1)
      as (w2 & late & Hrun2 & Hlate & Ht2 & Hn2 & Ha2).
    rewrite Hrun2.
    eexists. exists served. split; [exact Hserved|].
    split; [reflexivity|].
    exists w2, late. split; [exact Hlate|].
    split.
    { rewrite Ht2, Ht. unfold started.
      repeat rewrite <- app_assoc. reflexivity. }
    split.
    { rewrite Hn2. intros Hin. apply filter_In in Hin as (_ & Hneq).
      discriminate Hneq. }
    split.
    { rewrite Ha2, Ha, Hsl, skipn_skipn, (Nat.add_comm (stop_lag w)).
      reflexivity. }
    split; [reflexivity|].
    cbn [trace with_trace]. rewrite Ht2, Ht. unfold started.
    repeat rewrite <- app_assoc. reflexivity.
  - rewrite Hres.
    eexists. exists served. split; [exact Hserved|].
    split; [reflexivity|].
    split.
    { rewrite Ht. unfold started. repeat rewrite <- app_assoc. reflexivity. }
    rewrite Hn. left. reflexivity.
Qed.

(** ** The pressure notification *)

Lemma float32_of_bits_spec (w : Z) :
  0 <= w < 4294967296 ->
  struct.float32_of_bits w = ieee754_binary32 w.
Proof.
  intros Hw. unfold struct.float32_of_bits, ieee754_binary32.
  assert (Hsign : Z.testbit w 31 = (2147483648 <=? w)).
  { destruct (Z.leb_spec 2147483648 w) as [Hle | Hlt].
    - apply Z.testbit_true; [lia|]. change (2 ^ 31) with 2147483648.
      Z.div_mod_to_equations. lia.
    - apply Z.testbit_false; [lia|]. change (2 ^ 31) with 2147483648.
      Z.div_mod_to_equations. lia. }
  assert (Hexp : Z.land (Z.shiftr w 23) 255 = (w / 8388608) mod 256).
  { change 255 with (Z.ones 8). rewrite Z.land_ones by lia.
    rewrite Z.shiftr_div_pow2 by lia. reflexivity. }
  assert (Hfrac : Z.land w 8388607 = w mod 8388608).
  { change 8388607 with (Z.ones 23). rewrite Z.land_ones by lia.
    reflexivity. }
  assert (Hlead : Z.lor (w mod 8388608) 8388608 = 8388608 + w mod 8388608).
  { rewrite Z.lor_comm. change 8388608 with (Z.shiftl 1 23) at 1.
    rewrite lor_shift; [change (2 ^ 23) with 8388608; lia | lia | lia |].
    change (2 ^ 23) with 8388608. apply Z.mod_pos_bound. lia. }
  cbv zeta. rewrite Hsign, Hexp, Hfrac, Hlead. reflexivity.
Qed.

Lemma unpack_f_little (a b c d : byte) :
  struct.unpack struct.Little "f" [a; b; c; d]
  = Some [struct.VFloat (little_endian_float [a; b; c; d])].
Proof.
  unfold little_endian_float.
  rewrite <- float32_of_bits_spec, <- word_little_value.
  - reflexivity.
  - pose proof (little_endian_value_range [a; b; c; d]) as H.
    change (256 ^ Z.of_nat (List.length [a; b; c; d])) with 4294967296 in H.
    exact H.
Qed.

(** C3.  The notification handler decodes its payload in the byte order
    of the host.  On a little-endian host what it prints for any four
    bytes is their little-endian IEEE-754 value.  On a big-endian host
    it is not: the bytes [00 00 80 3f], little-endian for [1.0], are
    printed as [32831 * 2^-149]. *)
Theorem scan_callback_decodes_in_host_byte_order :
  forall (w : world) (sender : Z) (terminator : string),
  eol w = Some terminator ->
  let printed x :=
    (Return tt,
     with_trace
       (trace w ++ [Print [Stamp (clock w (clock_reads w)); Text " : ";
                           Flt x; Text " Pa"] terminator])
       (with_clock_reads (S (clock_reads w)) w)) in
  (byteorder w = struct.Little ->
   forall a b c d : byte,
   scanPressureCallback sender [a; b; c; d] w
   = printed (little_endian_float [a; b; c; d]))
  /\ (byteorder w = struct.Big ->
      scanPressureCallback sender [x00; x00; x80; x3f] w
      = printed (S754_finite false 4512258281439232 (-186))
      /\ little_endian_float [x00; x00; x80; x3f] = PyFloat.lit_1_0
      /\ S754_finite false 4512258281439232 (-186) <> PyFloat.lit_1_0).
Proof.
  intros w sender terminator Heol printed. split.
  - intros Hhost a b c d.
    unfold scanPressureCallback.
    unfold bind at 1. unfold struct_unpack at 1, bind at 1, ask at 1.
    rewrite Hhost, unpack_f_little. cbn [of_option ret].
    unfold bind at 1. cbn [item nth_error of_option ret].
    unfold bind at 1. unfold datetime_now, time_time.
    unfold bind at 1. unfold ask at 1. cbn [eol with_clock_reads].
    rewrite Heol. reflexivity.
  - intros Hhost. split; [|split].
    + unfold scanPressureCallback.
      unfold bind at 1. unfold struct_unpack at 1, bind at 1, ask at 1.
      rewrite Hhost.
      change (struct.unpack struct.Big "f" [x00; x00; x80; x3f])
        with (Some [struct.VFloat (S754_finite false 4512258281439232 (-186))]).
      cbn [of_option ret].
      unfold bind at 1. cbn [item nth_error of_option ret].
      unfold bind at 1. unfold datetime_now, time_time.
      unfold bind at 1. unfold ask at 1. cbn [eol with_clock_reads].
      rewrite Heol. reflexivity.
    + reflexivity.
    + discriminate.
Qed.

(** ** The properties at the sample worlds *)

Example record_250_sample :
  sample_of record_250 = (PyFloat.of_int 101325, 250).
Proof. reflexivity. Qed.

Lemma drain_reads_every_count_witness :
  exists w',
    drain 2 (bench struct.Little filling_buffer)
    = (Return (map sample_of [record_250; record_500; record_750]), w')
    /\ gatt_reads (trace w') = [26; 20; 20; 26; 20; 26].
Proof.
  destruct (drain_reads_every_count [2; 1] 2 (bench struct.Little filling_buffer)
              [record_250; record_500; record_750] [] [])
    as (w' & Hrun & _ & Hreads & _).
  - repeat constructor.
  - simpl. lia.
  - reflexivity.
  - reflexivity.
  - reflexivity.
  - repeat constructor.
  - exists w'. split; [exact Hrun | exact Hreads].
Defined.

Lemma reconcile_adds_clock_offset_witness :
  exists w' logs,
    reconcile download_args [(PyFloat.of_int 101325, 500)]
      (bench struct.Little filling_buffer)
    = (Return tt, w')
    /\ trace w'
       = ReadChar 23 :: logs
         ++ [SaveTxt "pressure.txt" true
               (np.Array2
                  [(PyFloat.of_int 101325,
                    PyFloat.add
                      (PyFloat.sub (PyFloat.of_int 1700000000) PyFloat.lit_1_0)
                      PyFloat.lit_0_5)])
               "%.2f"].
Proof.
  refine (proj2 (reconcile_adds_clock_offset download_args
                   [(PyFloat.of_int 101325, 500)]
                   (bench struct.Little filling_buffer) 1000 [] _ _ _)
            eq_refl eq_refl (PyFloat.of_int 101325)).
  - discriminate.
  - lia.
  - reflexivity.
Defined.

Lemma scan_callback_decodes_in_host_byte_order_witness :
  scanPressureCallback 11 [x00; x00; x80; x3f]
    (with_eol (Some LF) (bench struct.Big sampling))
  = (Return tt,
     with_trace
       [Print [Stamp (PyFloat.of_int 1700000000); Text " : ";
               Flt (S754_finite false 4512258281439232 (-186)); Text " Pa"]
          LF]
       (with_clock_reads 1 (with_eol (Some LF) (bench struct.Big sampling)))).
Proof.
  exact (proj1 (proj2 (scan_callback_decodes_in_host_byte_order
                         (with_eol (Some LF) (bench struct.Big sampling))
                         11 LF eq_refl)
                  eq_refl)).
Defined.

Lemma interval_override_reports_remaining_buffer_witness :
  exists w',
    configure_interval 0 (bench struct.Little sampling) = (Return tt, w')
    /\ trace w'
       = [ReadChar 16;
          Log INFO [Text "Current readout interval is "; Int 1;
                    Text " second(s)"];
          Log INFO [Text "Setting readout interval to "; Int 0;
                    Text " second(s)"];
          WriteChar 16 [x00; x00; x00; x00] true;
          ReadChar 26;
          Log WARNING
            [Text "Remaining recording buffer will last for ";
             Delta (NFloat (PyFloat.mul (PyFloat.of_int 16284)
                                        PyFloat.lit_0_1))]].
Proof.
  refine (proj1 (interval_override_reports_remaining_buffer 0 100
                   (bench struct.Little sampling) x01 x00 x00 x00 [] []
                   _ _ _ _)).
  - lia.
  - lia.
  - reflexivity.
  - reflexivity.
Defined.

Lemma rssi_filter_keeps_strictly_stronger_witness :
  exists address adv,
    In (address, (tag, adv)) (advertising (bench struct.Little sampling))
    /\ adv_rssi adv > -80.
Proof.
  apply (proj2 (proj2 (rssi_filter_keeps_strictly_stronger (-80)
                         (bench struct.Little sampling)))
           5 tag
           (snd (discoverDevice 5 (-80) (bench struct.Little sampling)))).
  reflexivity.
Defined.

Lemma drain_after_zero_reads_nothing_witness :
  exists w',
    drain 0 (bench struct.Little empty_buffer) = (Return [], w')
    /\ gatt_reads (trace w') = [26].
Proof.
  destruct (proj2 (drain_after_zero_reads_nothing 0
                     (bench struct.Little empty_buffer) [] eq_refl))
    as (w' & Hrun & Hreads & _).
  exists w'. split; [exact Hrun | exact Hreads].
Defined.

Lemma unresolved_device_exits_with_status_1_witness :
  exit_status (fst (loop download_args 1 (bench struct.Little filling_buffer)))
  = Some 1.
Proof.
  destruct (proj1 (unresolved_device_exits_with_status_1 download_args 1
                     (bench struct.Little filling_buffer))
              "00:11:22:33:44:55" eq_refl)
    as (w' & _ & Hexit & _).
  - discriminate.
  - reflexivity.
  - exact Hexit.
Defined.

Lemma discovery_selects_device_witness :
  (exists w' evs,
     discoverDevice 5 (-70) (bench struct.Little sampling) = (Return nano, w')
     /\ trace w' = evs /\ existsb is_menu evs = false)
  /\ exists w',
       discoverDevice 5 (-80) (bench struct.Little sampling) = (Return tag, w').
Proof.
  split.
  - destruct (proj1 (discovery_selects_device 5 (-70)
                       (bench struct.Little sampling))
                (address nano, (nano, {| adv_rssi := -60 |})) eq_refl)
      as (w' & evs & Hrun & Ht & Hm & _).
    exists w', evs. split; [exact Hrun|]. split; [exact Ht | exact Hm].
  - destruct (proj2 (discovery_selects_device 5 (-80)
                       (bench struct.Little sampling))
                1%nat tag)
      as (w' & evs & Hrun & _).
    + simpl. lia.
    + reflexivity.
    + reflexivity.
    + exists w'. exact Hrun.
Defined.

Lemma scan_ends_on_signal_then_unsubscribes_witness :
  exists w' served,
    with_client nano 5 (scan_mode scan_args) (bench struct.Little sampling)
    = (Return tt, w')
    /\ exists w1 late,
         Forall callback_output late
         /\ trace w1
            = [Connect nano 5;
               Log INFO [Text "Starting scanning mode..."];
               StartNotify 11;
               AddSignalHandler SIGINT;
               AddSignalHandler SIGTERM]
              ++ served ++ StopNotify 11 :: late
         /\ ~ In 11 (notifying w1)
         /\ arrivals w1 = [Notification 11 [x00; x00; x80; x40]]
         /\ w' = with_trace (trace w1 ++ [Disconnect]) w1
         /\ trace w'
            = [Connect nano 5;
               Log INFO [Text "Starting scanning mode..."];
               StartNotify 11;
               AddSignalHandler SIGINT;
               AddSignalHandler SIGTERM]
              ++ served ++ StopNotify 11 :: late ++ [Disconnect].
Proof.
  destruct (scan_ends_on_signal_then_unsubscribes scan_args nano 5
              (bench struct.Little sampling) eq_refl)
    as (w' & served & _ & H).
  exists w', served. exact H.
Defined.

Lemma download_of_empty_buffer_fails_witness :
  exists w',
    download_mode download_args 0 (bench struct.Little empty_buffer)
    = (Stop (Raised IndexError), w').
Proof.
  destruct (proj2 (proj2 (download_of_empty_buffer_fails download_args 0
                            (bench struct.Little empty_buffer) [] eq_refl)))
    as (e & w' & evs & Hrun & _ & _ & He).
  exists w'. rewrite Hrun.
  rewrite (He xe8 x03 x00 x00 [] eq_refl). reflexivity.
Defined.

(** * Further properties *)

(** ** Wire formats *)

(** X1.  What [struct.pack('<I', n)] produces is decoded by
    [struct.unpack('<I', ...)], on any host, to [n] again; and [pack]
    refuses exactly the integers that are negative or need more than 32
    bits. *)
Theorem pack_unpack_unsigned_round_trip :
  forall (host : struct.byteorder) (n : Z),
  match struct.pack_lt_I n with
  | Some data =>
      0 <= n < 4294967296
      /\ List.length data = 4%nat
      /\ struct.unpack host "<I" data = Some [struct.VInt n]
  | None => n < 0 \/ 4294967296 <= n
  end.
Proof.
  intros host n. unfold struct.pack_lt_I.
  destruct (Z.leb_spec 0 n) as [Hlo | Hlo]; cbn [andb]; [|lia].
  destruct (Z.ltb_spec n 4294967296) as [Hhi | Hhi]; [|lia].
  split; [lia|]. split; [reflexivity|].
  apply unpack_lt_I_le32. lia.
Qed.

(** X2.  An interval override that does not fit 32 unsigned bits is
    refused by [struct.pack] after the current interval has been read
    and logged: the run ends with [struct.error], nothing is written to
    the device, and the buffered count is not read. *)
Theorem interval_out_of_range_is_not_written :
  forall (interval : Z) (w : world) (b0 b1 b2 b3 : byte)
         (rest : list bytes),
  interval < 0 \/ 4294967296 <= interval ->
  gatt w 16 = [b0; b1; b2; b3] :: rest ->
  exists w',
    configure_interval interval w = (Stop (Raised StructError), w')
    /\ trace w'
       = trace w
         ++ [ReadChar 16;
             Log INFO [Text "Current readout interval is ";
                       Int (struct.word struct.Little [b0; b1; b2; b3]);
                       Text " second(s)"];
             Log INFO [Text "Setting readout interval to "; Int interval;
                       Text " second(s)"]]
    /\ gatt w' 26 = gatt w 26.
Proof.
  intros interval w b0 b1 b2 b3 rest Hrange H16.
  assert (Hpack : struct.pack_lt_I interval = None).
  { unfold struct.pack_lt_I.
    destruct (Z.leb_spec 0 interval); [|reflexivity].
    destruct (Z.ltb_spec interval 4294967296); [lia | reflexivity]. }
  unfold configure_interval. unfold bind at 1.
  cbn [handle_of handles dict_get String.eqb Ascii.eqb Bool.eqb of_option ret].
  unfold bind at 1. unfold read_gatt_char at 1, bind at 1, emit at 1.
  cbn [trace gatt with_trace]. rewrite H16.
  unfold bind at 1. unfold struct_unpack at 1, bind at 1, ask at 1.
  cbn [byteorder with_trace with_gatt]. rewrite unpack_lt_I_4.
  cbn [of_option ret]. unfold bind at 1. cbn [item nth_error of_option ret].
  unfold bind at 1. unfold log at 1, emit at 1.
  unfold bind at 1. unfold log at 1, emit at 1.
  unfold bind at 1. unfold bind at 1.
  rewrite Hpack. cbn [of_option]. unfold raise, halt.
  eexists. split; [reflexivity|].
  cbn [trace gatt with_trace with_gatt piece_of_value].
  split; [rewrite <- !app_assoc; reflexivity | reflexivity].
Qed.

(** X3.  [readCounts] is decided by the next payload of the
    characteristic.  With none, the read fails.  A payload of four bytes
    gives their little-endian value, which lies in the unsigned 32-bit
    range, and is logged.  A payload of any other length is consumed and
    refused with [struct.error], and nothing is logged. *)
Theorem readCounts_follows_payload :
  forall (handle : Z) (w : world),
  match gatt w handle with
  | [] =>
      readCounts handle w
      = (Stop (Raised BleakError), with_trace (trace w ++ [ReadChar handle]) w)
  | data :: rest =>
      let w1 :=
        with_gatt (fun h => if h =? handle then rest else gatt w h)
          (with_trace (trace w ++ [ReadChar handle]) w) in
      if four_bytes data then
        0 <= little_endian_value data < 4294967296
        /\ readCounts handle w
           = (Return (little_endian_value data),
              with_trace
                (trace w1
                 ++ [Log INFO [Text "Found "; Int (little_endian_value data);
                               Text " pressure values on device"]]) w1)
      else readCounts handle w = (Stop (Raised StructError), w1)
  end.
Proof.
  intros handle w.
  unfold readCounts, read_gatt_char, struct_unpack, bind, emit, ask, log.
  cbn [with_trace gatt trace byteorder].
  destruct (gatt w handle) as [|data rest]; [reflexivity|].
  cbn [with_gatt gatt trace byteorder with_trace]. unfold four_bytes.
  destruct (Nat.eqb_spec (List.length data) 4) as [Hlen | Hlen].
  - do 4 (destruct data as [|? data]; [discriminate Hlen|]).
    destruct data; [|discriminate Hlen].
    rewrite unpack_lt_I_4, word_little_value. split; [|reflexivity].
    pose proof (little_endian_value_range [b; b0; b1; b2]) as H.
    exact H.
  - rewrite unpack_lt_I_length by exact Hlen. reflexivity.
Qed.

(** ** Finding the device, further *)

(** X8.  The results of the RSSI filter shrink as the threshold grows:
    with [m1 <= m2], filtering at [m2] what was kept at [m1] is the same
    as filtering at [m2] at once, every candidate kept at [m2] is kept
    at [m1], and there are no more of them. *)
Theorem rssi_filter_is_monotone :
  forall (m1 m2 : Z) (devices : list (string * (BLEDevice * AdvertisementData))),
  m1 <= m2 ->
  keep_strong m2 (keep_strong m1 devices) = keep_strong m2 devices
  /\ incl (keep_strong m2 devices) (keep_strong m1 devices)
  /\ (List.length (keep_strong m2 devices)
      <= List.length (keep_strong m1 devices))%nat.
Proof.
  intros m1 m2 devices Hm.
  assert (Hcomp : keep_strong m2 (keep_strong m1 devices)
                  = keep_strong m2 devices).
  { unfold keep_strong. induction devices as [|kv l IH]; [reflexivity|].
    cbn [filter].
    destruct (Z.gtb_spec (adv_rssi (snd (snd kv))) m1) as [H1 | H1];
      destruct (Z.gtb_spec (adv_rssi (snd (snd kv))) m2) as [H2 | H2];
      cbn [filter].
    - destruct (Z.gtb_spec (adv_rssi (snd (snd kv))) m2); [|lia].
      rewrite IH. reflexivity.
    - destruct (Z.gtb_spec (adv_rssi (snd (snd kv))) m2); [lia|].
      exact IH.
    - lia.
    - exact IH. }
  split; [exact Hcomp|]. split.
  - intros kv Hin. unfold keep_strong in *.
    apply filter_In in Hin as (Hin & Hgt). apply filter_In.
    split; [exact Hin|]. apply Z.gtb_gt. apply Z.gtb_gt in Hgt. lia.
  - rewrite <- Hcomp. unfold keep_strong at 1. apply filter_length_le.
Qed.

(** X9.  When several candidates pass the filter and the menu is left
    without a choice, indexing the candidate list with [None] raises
    [TypeError]: the run ends with exit status 1 right after the menu,
    without a connection. *)
Theorem cancelled_menu_ends_the_run :
  forall (args : Namespace) (fuel : nat) (w : world),
  truthy_str (addr args) = false ->
  (2 <= List.length (keep_strong (rssi args) (advertising w)))%nat ->
  menu_answer w = None ->
  let devices := keep_strong (rssi args) (advertising w) in
  exists w',
    loop args fuel w = (Stop (Raised TypeError), w')
    /\ exit_status (fst (loop args fuel w)) = Some 1
    /\ trace w'
       = trace w
         ++ [Log INFO [Text "Scanning for bluetooth devices..."];
             Discover (timeout args)]
         ++ map (fun da => Log INFO (found_message da)) (map snd devices)
         ++ [MenuShown
               (map str_device (map (fun da => fst da) (map snd devices)))
               "Please select your device:"].
Proof.
  intros args fuel w Hfalsy Hmany Hmenu devices. subst devices.
  set (devices := keep_strong (rssi args) (advertising w)) in *.
  assert (Hloop : exists w',
            loop args fuel w = (Stop (Raised TypeError), w')
            /\ trace w'
               = (trace w
                  ++ [Log INFO [Text "Scanning for bluetooth devices..."];
                      Discover (timeout args)]
                  ++ map (fun da => Log INFO (found_message da))
                       (map snd devices))
                 ++ [MenuShown
                       (map str_device
                          (map (fun da => fst da) (map snd devices)))
                       "Please select your device:"]).
  { unfold loop. unfold bind at 1. rewrite Hfalsy.
    rewrite discoverDevice_run. fold devices. rewrite Hmenu.
    clearbody devices.
    destruct devices as [|kv [|kv' rest]];
      [cbn [List.length] in Hmany; lia | cbn [List.length] in Hmany; lia|].
    eexists. split; reflexivity. }
  destruct Hloop as (w' & Hrun & Ht).
  exists w'. rewrite Hrun. split; [reflexivity|]. split; [reflexivity|].
  rewrite Ht, <- !app_assoc. reflexivity.
Qed.

(** ** The entry point *)

(** X10.  The verbosity is used as a key of a four-entry dict: with up
    to three [-v] flags the program is its main routine; with more (or a
    negative count) the lookup raises [KeyError] before anything is
    scanned, connected or logged, and the exit status is 1. *)
Theorem verbosity_beyond_three_is_a_key_error :
  forall (args : Namespace) (fuel : nat) (w : world),
  (0 <= verbose args <= 3 -> main args fuel w = loop args fuel w)
  /\ (verbose args < 0 \/ 3 < verbose args ->
      main args fuel w = (Stop (Raised KeyError), w)
      /\ exit_status (fst (main args fuel w)) = Some 1).
Proof.
  intros args fuel w. unfold main, bind. split.
  - intros Hv.
    assert (Hcases : verbose args = 0 \/ verbose args = 1
                     \/ verbose args = 2 \/ verbose args = 3) by lia.
    destruct Hcases as [E | [E | [E | E]]]; rewrite E; reflexivity.
  - intros Hv.
    assert (Hnone : level_get loglvls (verbose args) = None).
    { unfold loglvls. cbn [level_get].
      destruct (Z.eqb_spec (verbose args) 0); [lia|].
      destruct (Z.eqb_spec (verbose args) 1); [lia|].
      destruct (Z.eqb_spec (verbose args) 2); [lia|].
      destruct (Z.eqb_spec (verbose args) 3); [lia|]. reflexivity. }
    rewrite Hnone. split; reflexivity.
Qed.

(** ** What an action may add to the trace *)

Lemma only_silent {A} (P : event -> bool) (m : M A) : silent m -> only P m.
Proof.
  intros H w. exists []. rewrite app_nil_r. split; [apply H | reflexivity].
Qed.

Lemma only_ret {A} (P : event -> bool) (a : A) : only P (ret a).
Proof. apply only_silent. intros w. reflexivity. Qed.

Lemma only_halt {A} (P : event -> bool) (r : stop) : only P (@halt A r).
Proof. apply only_silent. intros w. reflexivity. Qed.

Lemma only_ask {A} (P : event -> bool) (f : world -> A) : only P (ask f).
Proof. apply only_silent. intros w. reflexivity. Qed.

Lemma only_of_option {A} (P : event -> bool) (e : exn) (o : option A) :
  only P (of_option e o).
Proof. apply only_silent. intros w. destruct o; reflexivity. Qed.

Lemma only_emit (P : event -> bool) (e : event) :
  P e = true -> only P (emit e).
Proof.
  intros H w. exists [e]. cbn [emit snd trace with_trace forallb].
  rewrite H. split; reflexivity.
Qed.

Lemma only_bind {A B} (P : event -> bool) (m : M A) (k : A -> M B) :
  only P m -> (forall a, only P (k a)) -> only P (bind m k).
Proof.
  intros Hm Hk w. unfold bind.
  destruct (Hm w) as (e1 & H1 & P1).
  destruct (m w) as [[a | r] w1]; cbn [snd] in H1.
  - destruct (Hk a w1) as (e2 & H2 & P2).
    exists (e1 ++ e2). rewrite H2, H1, app_assoc, forallb_app, P1, P2.
    split; reflexivity.
  - exists e1. split; assumption.
Qed.

Lemma only_for_each {A} (P : event -> bool) (l : list A) (body : A -> M unit) :
  (forall x, only P (body x)) -> only P (for_each l body).
Proof.
  intros Hb. induction l as [|x l IH]; cbn [for_each].
  - apply only_ret.
  - apply only_bind; [apply Hb | intros _; exact IH].
Qed.

Lemma only_struct_unpack (P : event -> bool) (fmt : string) (data : bytes) :
  only P (struct_unpack fmt data).
Proof.
  unfold struct_unpack. apply only_bind; [apply only_ask|].
  intros host. apply only_of_option.
Qed.

Lemma only_item (P : event -> bool) (i : nat) (t : list struct.value) :
  only P (item i t).
Proof. apply only_of_option. Qed.

Lemma only_as_int (P : event -> bool) (v : struct.value) : only P (as_int v).
Proof. destruct v; [apply only_ret | apply only_halt]. Qed.

Lemma only_as_sample (P : event -> bool) (t : list struct.value) :
  only P (as_sample t).
Proof.
  apply only_silent. intros w. unfold as_sample.
  destruct t as [|[n | x] [|[m | y] [|? ?]]]; reflexivity.
Qed.

Lemma only_handle_of (P : event -> bool) (k : string) : only P (handle_of k).
Proof. apply only_of_option. Qed.

Lemma only_time_time (P : event -> bool) : only P time_time.
Proof. apply only_silent. intros w. reflexivity. Qed.

Lemma only_bind_value {A B} (P : event -> bool) (m : M A) (a : A)
  (k : A -> M B) :
  (forall w, m w = (Return a, w)) -> only P (k a) -> only P (bind m k).
Proof.
  intros Hm Hk w. unfold bind. rewrite Hm. apply Hk.
Qed.

Section Only.

Variable P : event -> bool.

Hypothesis P_log : forall l m, P (Log l m) = true.
Hypothesis P_print : forall m t, P (Print m t) = true.
Hypothesis P_failed : P CallbackFailed = true.
Hypothesis P_read : forall h, P (ReadChar h) = true.
Hypothesis P_write : forall d, P (WriteChar 16 d true) = true.
Hypothesis P_start : forall h, P (StartNotify h) = true.
Hypothesis P_stop : forall h, P (StopNotify h) = true.
Hypothesis P_signal : forall s, P (AddSignalHandler s) = true.
Hypothesis P_save : forall f o d s, P (SaveTxt f o d s) = true.

Lemma only_log (l : level) (m : list piece) : only P (log l m).
Proof. apply only_emit. apply P_log. Qed.

Lemma only_read_gatt_char (h : Z) : only P (read_gatt_char h).
Proof.
  unfold read_gatt_char. apply only_bind; [apply only_emit, P_read|].
  intros _. apply only_silent. intros w. destruct (gatt w h); reflexivity.
Qed.

Lemma only_readCounts (h : Z) : only P (readCounts h).
Proof.
  unfold readCounts.
  apply only_bind; [apply only_read_gatt_char | intros data].
  apply only_bind; [apply only_struct_unpack | intros t].
  apply only_bind; [apply only_item | intros v].
  apply only_bind; [apply only_as_int | intros c].
  apply only_bind; [apply only_log | intros _]. apply only_ret.
Qed.

Lemma only_read_batch (turns : nat) :
  forall (counts : Z) (dataList : list (PyFloat.float * Z)),
  only P (read_batch turns counts dataList).
Proof.
  induction turns as [|turns IH]; intros counts dataList; cbn [read_batch].
  - apply only_ret.
  - apply only_bind; [apply only_handle_of | intros h].
    apply only_bind; [apply only_read_gatt_char | intros data].
    apply only_bind; [apply only_struct_unpack | intros t].
    apply only_bind; [apply only_as_sample | intros sample].
    apply only_bind; [apply only_emit, P_print | intros _]. apply IH.
Qed.

Lemma only_drain_loop (fuel : nat) :
  forall (counts : Z) (dataList : list (PyFloat.float * Z)),
  only P (drain_loop fuel counts dataList).
Proof.
  induction fuel as [|fuel IH]; intros counts dataList; cbn [drain_loop];
    destruct (counts >? 0); try apply only_ret; try apply only_halt.
  apply only_bind; [apply only_read_batch | intros dl].
  apply only_bind; [apply only_handle_of | intros h].
  apply only_bind; [apply only_readCounts | intros c]. apply IH.
Qed.

Lemma only_drain (fuel : nat) : only P (drain fuel).
Proof.
  unfold drain.
  apply only_bind; [apply only_handle_of | intros h].
  apply only_bind; [apply only_readCounts | intros c].
  apply only_bind; [apply only_time_time | intros start].
  apply only_bind; [apply only_drain_loop | intros dl].
  apply only_bind; [apply only_time_time | intros stop].
  apply only_bind; [apply only_log | intros _]. apply only_ret.
Qed.

Lemma only_reconcile (args : Namespace) (dataList : list (PyFloat.float * Z)) :
  only P (reconcile args dataList).
Proof.
  unfold reconcile.
  apply only_bind; [apply only_time_time | intros localTime].
  apply only_bind; [apply only_handle_of | intros h].
  apply only_bind; [apply only_read_gatt_char | intros data].
  apply only_bind; [apply only_struct_unpack | intros t].
  apply only_bind; [apply only_item | intros v].
  apply only_bind; [apply only_as_int | intros ms].
  apply only_bind; [apply only_log | intros _].
  apply only_bind; [apply only_log | intros _].
  apply only_bind; [apply only_of_option | intros d1].
  apply only_bind; [apply only_of_option | intros d2].
  apply only_bind; [apply only_ask | intros can_open].
  destruct can_open; [apply only_emit, P_save | apply only_halt].
Qed.

Lemma only_download_mode (args : Namespace) (fuel : nat) :
  only P (download_mode args fuel).
Proof.
  unfold download_mode.
  apply only_bind; [apply only_log | intros _].
  apply only_bind; [apply only_drain | intros dl]. apply only_reconcile.
Qed.

Lemma only_configure_interval (interval : Z) :
  only P (configure_interval interval).
Proof.
  unfold configure_interval.
  apply only_bind; [apply only_handle_of | intros h].
  apply only_bind; [apply only_read_gatt_char | intros data].
  apply only_bind; [apply only_struct_unpack | intros t].
  apply only_bind; [apply only_item | intros current].
  apply only_bind; [apply only_log | intros _].
  apply only_bind; [apply only_log | intros _].
  apply (only_bind_value P _ 16); [intros w; reflexivity|].
  apply only_bind; [apply only_of_option | intros packed].
  apply only_bind; [apply only_emit, P_write | intros _].
  apply only_bind; [apply only_handle_of | intros h'].
  apply only_bind; [apply only_read_gatt_char | intros counts].
  apply only_bind; [apply only_struct_unpack | intros t'].
  apply only_bind; [apply only_item | intros v].
  apply only_bind; [apply only_as_int | intros c].
  destruct (timedelta_ok (remaining_buffer c interval));
    [apply only_log | apply only_halt].
Qed.

Lemma only_scanPressureCallback (sender : Z) (data : bytes) :
  only P (scanPressureCallback sender data).
Proof.
  unfold scanPressureCallback.
  apply only_bind; [apply only_struct_unpack | intros t].
  apply only_bind; [apply only_item | intros pressure].
  apply only_bind; [apply only_time_time | intros now].
  apply only_bind; [apply only_ask | intros e].
  apply only_bind; [apply only_of_option | intros terminator].
  apply only_emit, P_print.
Qed.

Lemma only_deliver (callback : M unit) :
  only P callback -> only P (deliver callback).
Proof.
  intros H w. unfold deliver. destruct (H w) as (evs & Ht & HP).
  destruct (callback w) as [[[] | r] w1]; cbn [snd] in *.
  - exists evs. split; assumption.
  - exists (evs ++ [CallbackFailed]). cbn [trace with_trace].
    rewrite Ht, app_assoc, forallb_app, HP. cbn [forallb].
    rewrite P_failed. split; reflexivity.
Qed.

Lemma only_serve_one (a : arrival) : only P (serve_one a).
Proof.
  destruct a as [h data | s | seconds]; cbn [serve_one].
  - apply only_bind; [apply only_ask | intros subscribed].
    apply only_bind; [|intros _; apply only_ret].
    destruct (existsb (Z.eqb h) subscribed);
      [apply only_deliver, only_scanPressureCallback | apply only_ret].
  - apply only_bind; [apply only_ask | intros installed]. apply only_ret.
  - apply only_ret.
Qed.

Lemma only_serve (n : nat) :
  forall pending : list arrival, only P (serve n pending).
Proof.
  induction n as [|n IH]; intros pending; [apply only_ret|].
  destruct pending as [|a rest]; [apply only_ret|]. cbn [serve].
  apply only_bind; [apply only_silent; intros w; reflexivity | intros _].
  apply only_bind; [apply only_serve_one | intros _]. apply IH.
Qed.

Lemma only_await_stop (pending : list arrival) : only P (await_stop pending).
Proof.
  induction pending as [|a rest IH]; cbn [await_stop].
  - apply only_halt.
  - apply only_bind; [apply only_silent; intros w; reflexivity | intros _].
    apply only_bind; [apply only_serve_one | intros is_set].
    destruct is_set; [|exact IH].
    apply only_bind; [apply only_ask | intros lag]. apply only_serve.
Qed.

Lemma only_scan_mode (args : Namespace) : only P (scan_mode args).
Proof.
  unfold scan_mode.
  apply only_bind; [apply only_log | intros _].
  apply only_bind; [apply only_silent; intros w; reflexivity | intros _].
  apply only_bind; [apply only_handle_of | intros h].
  apply only_bind.
  { unfold start_notify. apply only_bind; [apply only_emit, P_start|].
    intros _. apply only_silent. intros w. reflexivity. }
  intros _. apply only_bind.
  { apply only_for_each. intros s. unfold add_signal_handler.
    apply only_bind; [apply only_emit, P_signal|].
    intros _. apply only_silent. intros w. reflexivity. }
  intros _. apply only_bind.
  { intros w. unfold stopEvent_wait. apply only_await_stop. }
  intros _. apply only_bind; [apply only_handle_of | intros h'].
  unfold stop_notify. apply only_bind; [apply only_emit, P_stop|].
  intros _. apply only_bind; [apply only_ask | intros lag].
  apply only_bind; [intros w; unfold serve_pending; apply only_serve|].
  intros _. apply only_silent. intros w. reflexivity.
Qed.

(** The body of the [async with] block of [loop]. *)
Lemma only_session (args : Namespace) (fuel : nat) (device : BLEDevice) :
  (forall i, interval args = Some i -> only P (configure_interval i)) ->
  only P
    (log INFO [Text "Connected to device "; Dev device] ;;
     svcs <- ask services ;;
     for_each svcs
       (fun service =>
          log DEBUG [Text "Service "; Text (fst service)] ;;
          for_each (snd service)
            (fun char => log DEBUG [Text "Characteristics "; Text char])) ;;
     match interval args with
     | Some i => configure_interval i
     | None => ret tt
     end ;;
     if String.eqb (mode args) "scan" then scan_mode args
     else if String.eqb (mode args) "download" then download_mode args fuel
     else ret tt).
Proof.
  intros Hcfg.
  apply only_bind; [apply only_log | intros _].
  apply only_bind; [apply only_ask | intros svcs].
  apply only_bind.
  { apply only_for_each. intros service.
    apply only_bind; [apply only_log | intros _].
    apply only_for_each. intros char. apply only_log. }
  intros _. apply only_bind.
  { destruct (interval args) as [i|];
      [apply Hcfg; reflexivity | apply only_ret]. }
  intros _. destruct (String.eqb (mode args) "scan");
    [apply only_scan_mode|].
  destruct (String.eqb (mode args) "download");
    [apply only_download_mode | apply only_ret].
Qed.

Hypothesis P_discover : forall t, P (Discover t) = true.
Hypothesis P_find : forall a t, P (FindByAddress a t) = true.
Hypothesis P_menu : forall l t, P (MenuShown l t) = true.
Hypothesis P_connect : forall d t, P (Connect d t) = true.
Hypothesis P_disconnect : P Disconnect = true.

Lemma only_getDevice (address : string) (timeout : Z) :
  only P (getDevice address timeout).
Proof.
  unfold getDevice.
  apply only_bind; [apply only_emit, P_find | intros _].
  apply only_bind; [apply only_ask | intros lookup].
  destruct (lookup address); [apply only_ret|].
  apply only_bind; [apply only_log | intros _]. apply only_halt.
Qed.

Lemma only_discoverDevice (timeout minimum_rssi : Z) :
  only P (discoverDevice timeout minimum_rssi).
Proof.
  unfold discoverDevice.
  apply only_bind; [apply only_log | intros _].
  apply only_bind; [apply only_emit, P_discover | intros _].
  apply only_bind; [apply only_ask | intros found].
  cbv zeta.
  apply only_bind; [apply only_for_each; intros da; apply only_log|].
  intros _. apply only_bind.
  { destruct (keep_strong minimum_rssi found); [|apply only_ret].
    apply only_bind; [apply only_log | intros _]. apply only_halt. }
  intros _.
  destruct (List.length (keep_strong minimum_rssi found) =? 1)%nat.
  - destruct (map snd (keep_strong minimum_rssi found));
      [apply only_halt | apply only_ret].
  - apply only_bind; [apply only_emit, P_menu | intros _].
    apply only_bind; [apply only_ask | intros idx].
    destruct idx; [apply only_of_option | apply only_halt].
Qed.

Lemma only_with_client {A} (device : BLEDevice) (timeout : Z) (body : M A) :
  only P body -> only P (with_client device timeout body).
Proof.
  intros Hb. unfold with_client.
  apply only_bind; [apply only_emit, P_connect | intros _].
  intros w. destruct (Hb w) as (evs & Ht & HP).
  destruct (body w) as [[a | [e | |]] w1]; cbn [snd] in *.
  - exists (evs ++ [Disconnect]). cbn [trace with_trace].
    rewrite Ht, app_assoc, forallb_app, HP. cbn [forallb].
    rewrite P_disconnect. split; reflexivity.
  - exists (evs ++ [Disconnect]). cbn [trace with_trace].
    rewrite Ht, app_assoc, forallb_app, HP. cbn [forallb].
    rewrite P_disconnect. split; reflexivity.
  - exists evs. split; assumption.
  - exists evs. split; assumption.
Qed.

Lemma only_loop (args : Namespace) (fuel : nat) :
  (forall i, interval args = Some i -> only P (configure_interval i)) ->
  only P (loop args fuel).
Proof.
  intros Hcfg. unfold loop.
  apply only_bind.
  { destruct (truthy_str (addr args));
      [apply only_getDevice | apply only_discoverDevice]. }
  intros device.
  apply only_bind; [apply only_log | intros _].
  apply only_bind; [|intros _; apply only_log].
  apply only_with_client. apply only_session. exact Hcfg.
Qed.

End Only.

(** ** What the program does to the device and to the output *)

(** X5.  Whatever the device, the operator and the arguments, a write to
    the device goes to the interval characteristic and asks for the
    device's response; without an interval override nothing is written
    at all. *)
Theorem device_is_written_only_for_the_interval :
  forall (args : Namespace) (fuel : nat) (w : world),
  exists evs,
    trace (snd (loop args fuel w)) = trace w ++ evs
    /\ forallb write_is_acknowledged_interval evs = true
    /\ (interval args = None -> forallb no_write evs = true).
Proof.
  intros args fuel w.
  assert (H1 : only write_is_acknowledged_interval (loop args fuel)).
  { apply only_loop; try (intros; reflexivity).
    intros i _. apply only_configure_interval; intros; reflexivity. }
  destruct (H1 w) as (evs & Ht & HP).
  exists evs. split; [exact Ht|]. split; [exact HP|].
  intros Hnone.
  assert (H2 : only no_write (loop args fuel)).
  { apply only_loop; try (intros; reflexivity).
    intros i Hi. rewrite Hnone in Hi. discriminate Hi. }
  destruct (H2 w) as (evs' & Ht' & HP').
  rewrite Ht in Ht'. apply app_inv_head in Ht'. subst evs'. exact HP'.
Qed.

Lemma reconcile_saves_last (args : Namespace)
  (dataList : list (PyFloat.float * Z)) (w : world) :
  exists evs,
    trace (snd (reconcile args dataList w)) = trace w ++ evs
    /\ match fst (reconcile args dataList w) with
       | Return _ =>
           exists pre d,
             evs = pre ++ [SaveTxt (filename args) (overwrite args) d "%.2f"]
             /\ forallb no_save pre = true
       | Stop _ => forallb no_save evs = true
       end.
Proof.
  destruct (reconcile args dataList w) as [o w'] eqn:H. cbn [fst snd].
  unfold reconcile in H. unfold bind at 1 in H. unfold time_time at 1 in H.
  unfold bind at 1 in H.
  cbn [handle_of handles dict_get String.eqb Ascii.eqb Bool.eqb of_option ret]
    in H.
  unfold bind at 1 in H.
  unfold read_gatt_char at 1, bind at 1, emit at 1 in H.
  cbn [trace gatt clock clock_reads byteorder with_trace with_clock_reads
       with_gatt] in H.
  destruct (gatt w 23) as [|payload rest23].
  - injection H as <- <-. eexists.
    cbn [trace with_trace with_clock_reads]. split; reflexivity.
  - unfold bind at 1 in H.
    unfold struct_unpack at 1, bind at 1, ask at 1 in H.
    cbn [byteorder with_trace with_clock_reads with_gatt] in H.
    destruct (Nat.eq_dec (List.length payload) 4) as [Hlen | Hlen].
    + do 4 (destruct payload as [|? payload]; [discriminate Hlen|]).
      destruct payload; [|discriminate Hlen].
      rewrite unpack_lt_I_4 in H.
      cbn [of_option ret] in H. unfold bind at 1 in H.
      cbn [item nth_error of_option ret] in H.
      unfold bind at 1 in H. cbn [as_int ret] in H.
      unfold bind at 1 in H. unfold log at 1, emit at 1 in H.
      unfold bind at 1 in H. unfold log at 1, emit at 1 in H.
      destruct dataList as [|s dataList].
      * injection H as <- <-. eexists.
        cbn [trace with_trace with_clock_reads with_gatt].
        split; [rewrite <- !app_assoc; reflexivity | reflexivity].
      * cbn [np.array np.col1_idiv np.col1_iadd np.col1_update] in H.
        unfold bind at 1 in H. cbn [of_option ret] in H.
        unfold bind at 1 in H.
        cbn [of_option ret np.col1_idiv np.col1_iadd np.col1_update] in H.
        unfold bind at 1 in H. unfold ask at 1 in H.
        cbn [openable with_trace with_clock_reads with_gatt] in H.
        destruct (openable w (filename args)).
        -- unfold emit in H. injection H as <- <-.
           eexists. cbn [trace with_trace with_clock_reads with_gatt].
           split; [rewrite <- !app_assoc; reflexivity|].
           eexists [_; _; _]. eexists. split; reflexivity.
        -- injection H as <- <-.
           eexists. cbn [trace with_trace with_clock_reads with_gatt].
           split; [rewrite <- !app_assoc; reflexivity | reflexivity].
    + rewrite unpack_lt_I_length in H by exact Hlen.
      injection H as <- <-. eexists.
      cbn [trace with_trace with_clock_reads with_gatt].
      split; reflexivity.
Qed.

(** X4.  Download mode writes the output at most once, as its very last
    action, and only when it returns: a run that ends any other way
    (a failed read, a malformed payload, an empty buffer) has written
    nothing, whatever it had drained. *)
Theorem output_is_written_last_or_never :
  forall (args : Namespace) (fuel : nat) (w : world),
  exists evs,
    trace (snd (download_mode args fuel w)) = trace w ++ evs
    /\ match fst (download_mode args fuel w) with
       | Return _ =>
           exists pre d,
             evs = pre ++ [SaveTxt (filename args) (overwrite args) d "%.2f"]
             /\ forallb no_save pre = true
       | Stop _ => forallb no_save evs = true
       end.
Proof.
  intros args fuel w.
  destruct (download_mode args fuel w) as [o w'] eqn:H. cbn [fst snd].
  unfold download_mode in H.
  unfold bind at 1 in H. unfold log at 1, emit at 1 in H.
  set (w0 := with_trace _ w) in H. unfold bind at 1 in H.
  assert (Hd : only no_save (drain fuel))
    by (apply only_drain; intros; reflexivity).
  destruct (Hd w0) as (e1 & Ht1 & HP1).
  destruct (drain fuel w0) as [[dataList | r] w1]; cbn [snd] in Ht1.
  - destruct (reconcile_saves_last args dataList w1) as (e2 & Ht2 & Hres).
    rewrite H in Ht2, Hres. cbn [fst snd] in Ht2, Hres.
    exists ([Log INFO [Text "Starting download mode..."]] ++ e1 ++ e2).
    split.
    { rewrite Ht2, Ht1. unfold w0. cbn [trace with_trace].
      rewrite <- !app_assoc. reflexivity. }
    destruct o.
    + destruct Hres as (pre & d & He2 & Hpre).
      exists ([Log INFO [Text "Starting download mode..."]] ++ e1 ++ pre), d.
      split; [rewrite He2, <- !app_assoc; reflexivity|].
      rewrite !forallb_app, HP1, Hpre. reflexivity.
    + rewrite !forallb_app, HP1, Hres. reflexivity.
  - injection H as <- <-.
    exists ([Log INFO [Text "Starting download mode..."]] ++ e1).
    split.
    { rewrite Ht1. unfold w0. cbn [trace with_trace].
      rewrite <- !app_assoc. reflexivity. }
    rewrite forallb_app, HP1. reflexivity.
Qed.

(** ** The session *)

Lemma getDevice_ends (address : string) (timeout : Z) (w : world) :
  (exists d, fst (getDevice address timeout w) = Return d)
  \/ (exists e, fst (getDevice address timeout w) = Stop (Raised e)).
Proof.
  unfold getDevice, bind, emit, ask. cbn [reachable with_trace].
  destruct (reachable w address); [left | right]; eexists; reflexivity.
Qed.

Lemma discoverDevice_ends (timeout minimum_rssi : Z) (w : world) :
  (exists d, fst (discoverDevice timeout minimum_rssi w) = Return d)
  \/ (exists e, fst (discoverDevice timeout minimum_rssi w) = Stop (Raised e)).
Proof.
  rewrite discoverDevice_run.
  destruct (keep_strong minimum_rssi (advertising w)) as [|kv [|kv' rest]].
  - right. eexists. reflexivity.
  - left. eexists. reflexivity.
  - destruct (menu_answer w) as [i|]; [|right; eexists; reflexivity].
    destruct (nth_error _ i); [left | right]; eexists; reflexivity.
Qed.

(** X6.  A run of [loop] either ends before a session is opened, with
    an exception, having done nothing to the device; or it opens exactly
    one session, does all its GATT operations inside it, and closes it
    whenever the run ends, by returning (then the disconnect is followed
    by the final log line only) or by an exception raised inside (then
    the disconnect is the last event).  Only a run that is still waiting
    or out of fuel has its session open. *)
Theorem session_is_closed_when_the_run_ends :
  forall (args : Namespace) (fuel : nat) (w : world),
  exists pre rest,
    trace (snd (loop args fuel w)) = trace w ++ pre ++ rest
    /\ forallb outside pre = true
    /\ ((rest = [] /\ exists e, fst (loop args fuel w) = Stop (Raised e))
        \/ exists d body post,
             rest = Connect d (timeout args) :: body ++ post
             /\ forallb inside body = true
             /\ match fst (loop args fuel w) with
                | Return _ =>
                    post = [Disconnect;
                            Log INFO [Text "Disconnected from device "; Dev d]]
                | Stop (Raised _) => post = [Disconnect]
                | Stop _ => post = []
                end).
Proof.
  intros args fuel w.
  destruct (loop args fuel w) as [o w'] eqn:H. cbn [fst snd].
  unfold loop in H. unfold bind at 1 in H.
  set (resolve := if truthy_str (addr args)
                  then getDevice match addr args with
                                 | Some a => a
                                 | None => ""
                                 end (timeout args)
                  else discoverDevice (timeout args) (rssi args)) in H.
  assert (Honly : only outside resolve).
  { unfold resolve. destruct (truthy_str (addr args));
      [apply only_getDevice | apply only_discoverDevice];
      intros; reflexivity. }
  assert (Hends : (exists d, fst (resolve w) = Return d)
                  \/ (exists e, fst (resolve w) = Stop (Raised e))).
  { unfold resolve. destruct (truthy_str (addr args));
      [apply getDevice_ends | apply discoverDevice_ends]. }
  destruct (Honly w) as (pre & Hpre & HP).
  destruct (resolve w) as [or w1]. cbn [fst snd] in Hpre, Hends.
  destruct Hends as [(d & ->) | (e & ->)].
  - unfold bind at 1 in H. unfold log at 1, emit at 1 in H.
    unfold bind at 1 in H. unfold with_client at 1 in H.
    unfold bind at 1 in H. unfold emit at 1 in H.
    cbn [trace with_trace] in H.
    set (w3 := with_trace _ (with_trace _ w1)) in H.
    assert (Hin : only inside (
      log INFO [Text "Connected to device "; Dev d] ;;
      svcs <- ask services ;;
      for_each svcs
        (fun service =>
           log DEBUG [Text "Service "; Text (fst service)] ;;
           for_each (snd service)
             (fun char => log DEBUG [Text "Characteristics "; Text char])) ;;
      match interval args with
      | Some i => configure_interval i
      | None => ret tt
      end ;;
      if String.eqb (mode args) "scan" then scan_mode args
      else if String.eqb (mode args) "download" then download_mode args fuel
      else ret tt)).
    { apply only_session; try (intros; reflexivity).
      intros i _. apply only_configure_interval; intros; reflexivity. }
    destruct (Hin w3) as (body & Hbody & HB).
    match type of H with
    | context [?m w3] => destruct (m w3) as [ob w4]
    end.
    cbn [snd] in Hbody.
    exists (pre ++ [Log INFO [Text "Using device "; Dev d]]).
    assert (HP' : forallb outside
                    (pre ++ [Log INFO [Text "Using device "; Dev d]]) = true)
      by (rewrite forallb_app, HP; reflexivity).
    assert (Ht4 : trace w4
                  = trace w
                    ++ (pre ++ [Log INFO [Text "Using device "; Dev d]])
                    ++ Connect d (timeout args) :: body).
    { rewrite Hbody. unfold w3. cbn [trace with_trace]. rewrite Hpre.
      repeat rewrite <- app_assoc. reflexivity. }
    destruct ob as [[] | [e | |]].
    + unfold log, emit in H. injection H as <- <-.
      eexists. cbn [trace with_trace]. rewrite Ht4.
      split; [|split; [exact HP'|]].
      2:{ right. exists d, body. eexists. split; [reflexivity|].
          split; [exact HB | reflexivity]. }
      repeat rewrite <- app_assoc. cbn [app]. repeat rewrite <- app_assoc. reflexivity.
    + injection H as <- <-.
      eexists. cbn [trace with_trace]. rewrite Ht4.
      split; [|split; [exact HP'|]].
      2:{ right. exists d, body. eexists. split; [reflexivity|].
          split; [exact HB | reflexivity]. }
      repeat rewrite <- app_assoc. cbn [app]. repeat rewrite <- app_assoc. reflexivity.
    + injection H as <- <-.
      eexists. rewrite Ht4.
      split; [|split; [exact HP'|]].
      2:{ right. exists d, body, []. split; [reflexivity|].
          split; [exact HB | reflexivity]. }
      rewrite app_nil_r. reflexivity.
    + injection H as <- <-.
      eexists. rewrite Ht4.
      split; [|split; [exact HP'|]].
      2:{ right. exists d, body, []. split; [reflexivity|].
          split; [exact HB | reflexivity]. }
      rewrite app_nil_r. reflexivity.
  - injection H as <- <-.
    exists pre, []. rewrite app_nil_r.
    split; [exact Hpre|]. split; [exact HP|].
    left. split; [reflexivity|]. exists e. reflexivity.
Qed.

(** ** What scan mode prints *)

Lemma unpack_f_4 (host : struct.byteorder) (a b c d : byte) :
  struct.unpack host "f" [a; b; c; d]
  = Some [struct.VFloat (native_float host [a; b; c; d])].
Proof. reflexivity. Qed.

Lemma unpack_f_length (host : struct.byteorder) (data : bytes) :
  List.length data <> 4%nat -> struct.unpack host "f" data = None.
Proof.
  intros Hlen.
  do 4 (destruct data as [|? data]; [reflexivity|]).
  destruct data; [contradiction Hlen; reflexivity | reflexivity].
Qed.

Lemma deliver_callback_run (sender : Z) (data : bytes) (w : world)
  (terminator : string) :
  eol w = Some terminator ->
  deliver (scanPressureCallback sender data) w
  = if four_bytes data
    then (Return tt,
          with_trace
            (trace w
             ++ [Print [Stamp (clock w (clock_reads w)); Text " : ";
                        Flt (native_float (byteorder w) data); Text " Pa"]
                   terminator])
            (with_clock_reads (S (clock_reads w)) w))
    else (Return tt, with_trace (trace w ++ [CallbackFailed]) w).
Proof.
  intros Heol. unfold deliver, scanPressureCallback, four_bytes.
  unfold bind at 1. unfold struct_unpack at 1, bind at 1, ask at 1.
  destruct (Nat.eqb_spec (List.length data) 4) as [Hlen | Hlen].
  - do 4 (destruct data as [|? data]; [discriminate Hlen|]).
    destruct data; [|discriminate Hlen].
    rewrite unpack_f_4. cbn [of_option ret].
    unfold bind at 1. cbn [item nth_error of_option ret].
    unfold bind at 1. unfold datetime_now, time_time.
    unfold bind at 1. unfold ask at 1. cbn [eol with_clock_reads].
    rewrite Heol. reflexivity.
  - rewrite unpack_f_length by exact Hlen. reflexivity.
Qed.

Lemma printed_app (t1 t2 : list event) :
  printed (t1 ++ t2) = printed t1 ++ printed t2.
Proof. apply flat_map_app. Qed.

Lemma payloads_app (handle : Z) (q1 q2 : list arrival) :
  payloads handle (q1 ++ q2) = payloads handle q1 ++ payloads handle q2.
Proof.
  induction q1 as [|a q1 IH]; [reflexivity|].
  destruct a as [h data | s | seconds]; cbn [app payloads]; try exact IH.
  destruct (h =? handle); rewrite IH; reflexivity.
Qed.

Lemma firstn_add (A : Type) (n m : nat) (l : list A) :
  firstn (n + m) l = firstn n l ++ firstn m (skipn n l).
Proof.
  revert l. induction n as [|n IH]; intros l; [reflexivity|].
  destruct l as [|x l]; cbn [Nat.add firstn skipn app].
  - destruct m; reflexivity.
  - rewrite IH. reflexivity.
Qed.

Lemma after_stop_none (q : list arrival) :
  existsb stop_signal q = false -> after_stop q = [].
Proof.
  induction q as [|a q IH]; [reflexivity|]. cbn [existsb after_stop].
  destruct (stop_signal a); [discriminate | exact IH].
Qed.

Lemma serve_one_output (a : arrival) (w : world) (terminator : string) :
  notifying w = [11] ->
  eol w = Some terminator ->
  exists b w' evs,
    serve_one a w = (Return b, w')
    /\ (signal_handlers w = [SIGTERM; SIGINT] -> b = stop_signal a)
    /\ trace w' = trace w ++ evs
    /\ printed evs
       = map (fun data => (native_float (byteorder w) data, terminator))
           (filter four_bytes (payloads 11 [a]))
    /\ List.length (filter is_failed evs)
       = List.length (filter (fun data => negb (four_bytes data))
                        (payloads 11 [a]))
    /\ (signal_handlers w' = signal_handlers w
        /\ notifying w' = notifying w
        /\ eol w' = eol w
        /\ byteorder w' = byteorder w)
    /\ (arrivals w' = arrivals w
        /\ wake_lag w' = wake_lag w
        /\ stop_lag w' = stop_lag w).
Proof.
  intros Hn He.
  destruct a as [h data | s | seconds]; cbn [serve_one payloads].
  - unfold bind at 1. unfold ask at 1. unfold bind at 1.
    rewrite Hn. cbn [existsb]. rewrite orb_false_r.
    destruct (h =? 11).
    + rewrite (deliver_callback_run h data w terminator He).
      cbn [filter]. destruct (four_bytes data); cbn [negb].
      * do 3 eexists. split; [reflexivity|].
        split; [intros _; reflexivity|].
        cbn [trace with_trace with_clock_reads signal_handlers notifying eol
             byteorder arrivals wake_lag stop_lag].
        split; [reflexivity|]. repeat split; assumption.
      * do 3 eexists. split; [reflexivity|].
        split; [intros _; reflexivity|].
        cbn [trace with_trace signal_handlers notifying eol byteorder
             arrivals wake_lag stop_lag].
        split; [reflexivity|]. repeat split; assumption.
    + exists false, w, []. rewrite app_nil_r. repeat split; assumption.
  - unfold bind at 1. unfold ask at 1. unfold ret.
    exists (existsb (signal_eqb s) (signal_handlers w)), w, [].
    rewrite app_nil_r. repeat split.
    intros ->. destruct s; reflexivity.
  - exists false, w, []. rewrite app_nil_r. repeat split.
Qed.

Lemma serve_output (n : nat) :
  forall (q : list arrival) (w : world) (terminator : string),
  arrivals w = q ->
  notifying w = [11] ->
  eol w = Some terminator ->
  exists w' evs,
    serve n q w = (Return tt, w')
    /\ trace w' = trace w ++ evs
    /\ printed evs
       = map (fun data => (native_float (byteorder w) data, terminator))
           (filter four_bytes (payloads 11 (firstn n q)))
    /\ List.length (filter is_failed evs)
       = List.length (filter (fun data => negb (four_bytes data))
                        (payloads 11 (firstn n q)))
    /\ (signal_handlers w' = signal_handlers w
        /\ notifying w' = notifying w
        /\ eol w' = eol w
        /\ byteorder w' = byteorder w)
    /\ (arrivals w' = skipn n q
        /\ wake_lag w' = wake_lag w
        /\ stop_lag w' = stop_lag w).
Proof.
  induction n as [|n IH]; intros q w terminator Hq Hn He.
  - exists w, []. rewrite app_nil_r. cbn [skipn firstn].
    destruct q; repeat split; assumption.
  - destruct q as [|a q].
    + exists w, []. rewrite app_nil_r. repeat split; assumption.
    + rewrite serve_cons.
      destruct (serve_one_output a (with_arrivals q w) terminator Hn He)
        as (b & w1 & e1 & Hrun & _ & Ht1 & Hp1 & Hf1
            & (Hs1 & Hn1 & He1 & Hb1) & (Ha1 & Hwl1 & Hsl1)).
      rewrite Hrun.
      cbn [trace signal_handlers notifying eol byteorder arrivals wake_lag
           stop_lag with_arrivals] in Ht1, Hp1, Hs1, Hn1, He1, Hb1, Ha1, Hwl1,
                                      Hsl1.
      destruct (IH q w1 terminator Ha1)
        as (w' & e2 & Hrun' & Ht2 & Hp2 & Hf2
            & (Hs2 & Hn2 & He2 & Hb2) & (Ha2 & Hwl2 & Hsl2)).
      { rewrite Hn1. exact Hn. }
      { rewrite He1. exact He. }
      exists w', (e1 ++ e2). split; [exact Hrun'|].
      split; [rewrite Ht2, Ht1, <- app_assoc; reflexivity|].
      change (firstn (S n) (a :: q)) with ([a] ++ firstn n q).
      rewrite payloads_app, !filter_app, map_app, !length_app, printed_app.
      rewrite Hp1, Hp2, Hf1, Hf2, Hb1.
      split; [reflexivity|]. split; [reflexivity|].
      split; [|split; [exact Ha2 | split; congruence]].
      repeat split; congruence.
Qed.

Lemma await_stop_output (q : list arrival) :
  forall (w : world) (terminator : string),
  signal_handlers w = [SIGTERM; SIGINT] ->
  notifying w = [11] ->
  eol w = Some terminator ->
  let served_arrivals := before_stop q ++ firstn (wake_lag w) (after_stop q) in
  exists w' served,
    trace w' = trace w ++ served
    /\ printed served
       = map (fun data => (native_float (byteorder w) data, terminator))
           (filter four_bytes (payloads 11 served_arrivals))
    /\ List.length (filter is_failed served)
       = List.length (filter (fun data => negb (four_bytes data))
                        (payloads 11 served_arrivals))
    /\ (notifying w' = notifying w
        /\ eol w' = eol w
        /\ byteorder w' = byteorder w
        /\ stop_lag w' = stop_lag w)
    /\ if existsb stop_signal q
       then await_stop q w = (Return tt, w')
            /\ arrivals w' = skipn (wake_lag w) (after_stop q)
       else await_stop q w = (Stop Blocked, w').
Proof.
  induction q as [|a q IH]; intros w terminator Hh Hn He served_arrivals.
  - exists w, []. rewrite app_nil_r. unfold served_arrivals.
    cbn [before_stop after_stop firstn app].
    destruct (wake_lag w); repeat split.
  - rewrite await_stop_cons. unfold served_arrivals.
    cbn [existsb after_stop before_stop].
    destruct (serve_one_output a (with_arrivals q w) terminator Hn He)
      as (b & w1 & e1 & Hrun & Hb & Ht1 & Hp1 & Hf1
          & (Hs1 & Hn1 & He1 & Hb1) & (Ha1 & Hwl1 & Hsl1)).
    rewrite Hrun. rewrite (Hb Hh).
    cbn [trace signal_handlers notifying eol byteorder arrivals wake_lag
         stop_lag with_arrivals] in Ht1, Hp1, Hs1, Hn1, He1, Hb1, Ha1, Hwl1,
                                    Hsl1.
    destruct (stop_signal a) eqn:Hstop; cbn [orb].
    + destruct (serve_output (wake_lag w1) q w1 terminator Ha1)
        as (w' & e2 & Hrun' & Ht2 & Hp2 & Hf2
            & (Hs2 & Hn2 & He2 & Hb2) & (Ha2 & Hwl2 & Hsl2)).
      { rewrite Hn1. exact Hn. }
      { rewrite He1. exact He. }
      exists w', (e1 ++ e2).
      split; [rewrite Ht2, Ht1, <- app_assoc; reflexivity|].
      assert (Hnone : payloads 11 [a] = []).
      { destruct a as [h data | s | seconds];
          [discriminate Hstop | reflexivity | reflexivity]. }
      rewrite Hnone in Hp1, Hf1.
      rewrite Hwl1 in Hrun', Hp2, Hf2, Ha2. rewrite Hb1 in Hp2.
      rewrite Hwl1.
      cbn [app]. rewrite !filter_app, !length_app, printed_app.
      rewrite Hp1, Hp2, Hf1, Hf2.
      split; [reflexivity|]. split; [reflexivity|].
      split; [repeat split; congruence|].
      split; [exact Hrun' | exact Ha2].
    + destruct (IH w1 terminator) as (w' & e2 & Ht2 & Hp2 & Hf2
                                      & (Hn2 & He2 & Hb2 & Hsl2) & Hres).
      { rewrite Hs1. exact Hh. }
      { rewrite Hn1. exact Hn. }
      { rewrite He1. exact He. }
      exists w', (e1 ++ e2).
      split; [rewrite Ht2, Ht1, <- app_assoc; reflexivity|].
      change (a :: before_stop q) with ([a] ++ before_stop q).
      rewrite <- app_assoc.
      rewrite Hwl1 in Hp2, Hf2, Hres. rewrite Hb1 in Hp2.
      rewrite (payloads_app 11 [a]), !filter_app, map_app, !length_app,
        printed_app.
      rewrite Hp1, Hp2, Hf1, Hf2.
      split; [reflexivity|]. split; [reflexivity|].
      split; [repeat split; congruence|].
      exact Hres.
Qed.

Lemma stop_notify_output (w : world) (terminator : string) :
  notifying w = [11] ->
  eol w = Some terminator ->
  exists w' late,
    stop_notify 11 w = (Return tt, w')
    /\ trace w' = trace w ++ StopNotify 11 :: late
    /\ printed late
       = map (fun data => (native_float (byteorder w) data, terminator))
           (filter four_bytes
              (payloads 11 (firstn (stop_lag w) (arrivals w))))
    /\ List.length (filter is_failed late)
       = List.length (filter (fun data => negb (four_bytes data))
                        (payloads 11 (firstn (stop_lag w) (arrivals w)))).
Proof.
  intros Hn He.
  unfold stop_notify. unfold bind at 1. unfold emit at 1.
  unfold bind at 1. unfold ask at 1. cbn [stop_lag with_trace].
  unfold bind at 1. unfold serve_pending at 1. cbn [arrivals with_trace].
  destruct (serve_output (stop_lag w) (arrivals w)
              (with_trace (trace w ++ [StopNotify 11]) w) terminator
              eq_refl Hn He)
    as (w1 & late & Hrun & Ht & Hp & Hf & _).
  rewrite Hrun. eexists. exists late. split; [reflexivity|].
  cbn [trace byteorder with_trace with_notifying] in *.
  split; [rewrite Ht, <- app_assoc; reflexivity|].
  split; [exact Hp | exact Hf].
Qed.

(** X7.  During a scan session, each four-byte payload notified on the
    pressure characteristic while the callback is subscribed is printed
    exactly once, in order of arrival, as the host reads a C float in
    it, ended by a newline when [--newline] is given and by a carriage
    return otherwise.  The callback is subscribed until the first
    interrupt or termination signal, and after it for as long as the
    task takes to run again and the device to answer the stop-notify;
    what arrives later is not printed.  A payload of another length
    prints nothing: the callback fails, once per such payload, and the
    scan goes on. *)
Theorem scan_prints_each_pressure_once :
  forall (args : Namespace) (device : BLEDevice) (timeout : Z) (w : world),
  signal_handlers w = [] ->
  notifying w = [] ->
  let pressures := payloads 11 (heard w) in
  let terminator := if newline args then LF else CR in
  exists evs,
    trace (snd (with_client device timeout (scan_mode args) w))
    = trace w ++ evs
    /\ printed evs
       = map (fun data => (native_float (byteorder w) data, terminator))
           (filter four_bytes pressures)
    /\ List.length (filter is_failed evs)
       = List.length (filter (fun data => negb (four_bytes data)) pressures).
Proof.
  intros args device timeout w Hh Hn pressures terminator.
  unfold pressures, heard. clear pressures.
  rewrite scan_session_run. rewrite Hh, Hn.
  match goal with
  | |- context [await_stop ?q ?w0] =>
      destruct (await_stop_output q w0 terminator)
        as (w1 & served & Ht & Hp & Hf & (Hn1 & He1 & Hb1 & Hsl1) & Hres);
        [reflexivity | reflexivity | reflexivity |]
  end.
  cbn [trace byteorder notifying eol wake_lag stop_lag with_trace with_eol
       with_notifying with_signal_handlers] in Ht, Hp, Hf, Hn1, He1, Hb1, Hsl1,
                                                Hres.
  destruct (existsb stop_signal (arrivals w)) eqn:Hstop.
  - destruct Hres as (Hrun & Ha). rewrite Hrun.
    destruct (stop_notify_output w1 terminator Hn1 He1)
      as (w2 & late & Hrun2 & Ht2 & Hp2 & Hf2).
    rewrite Hrun2. cbn [snd trace with_trace].
    exists ([Connect device timeout;
             Log INFO [Text "Starting scanning mode..."];
             StartNotify 11; AddSignalHandler SIGINT;
             AddSignalHandler SIGTERM]
            ++ served ++ [StopNotify 11] ++ late ++ [Disconnect]).
    split.
    { rewrite Ht2, Ht. repeat rewrite <- app_assoc. reflexivity. }
    rewrite firstn_add, !payloads_app.
    rewrite payloads_app in Hp, Hf.
    rewrite filter_app, map_app in Hp. rewrite filter_app, length_app in Hf.
    rewrite !printed_app, !filter_app, !map_app, !length_app.
    rewrite Hp, Hf, Hp2, Hf2, Hb1, Hsl1, Ha.
    cbn [printed flat_map printed_line filter is_failed List.length app
         Nat.add].
    rewrite ?app_nil_r, ?Nat.add_0_r.
    split; [repeat rewrite <- app_assoc; reflexivity | lia].
  - rewrite Hres. cbn [snd].
    exists ([Connect device timeout;
             Log INFO [Text "Starting scanning mode..."];
             StartNotify 11; AddSignalHandler SIGINT;
             AddSignalHandler SIGTERM]
            ++ served).
    split.
    { rewrite Ht. repeat rewrite <- app_assoc. reflexivity. }
    rewrite (after_stop_none _ Hstop) in *.
    rewrite !firstn_nil in *.
    rewrite !printed_app, !filter_app, !length_app.
    rewrite Hp, Hf.
    cbn [printed flat_map printed_line filter is_failed List.length app
         Nat.add].
    split; reflexivity.
Qed.

(** ** The drain when the device misbehaves *)

Lemma read_batch_dry (ps : list bytes) :
  forall (turns : nat) (counts : Z) (dataList : list (PyFloat.float * Z))
         (w : world),
  gatt w 20 = ps ->
  Forall (fun p => List.length p = 8%nat) ps ->
  (List.length ps < turns)%nat ->
  exists w',
    read_batch turns counts dataList w = (Stop (Raised BleakError), w')
    /\ gatt_reads (trace w')
       = gatt_reads (trace w) ++ repeat 20 (S (List.length ps)).
Proof.
  induction ps as [|p ps IH]; intros turns counts dataList w Hg Hlen Hlt;
    (destruct turns as [|turns]; [cbn [List.length] in Hlt; lia|]).
  - cbn [read_batch]. unfold bind at 1.
    cbn [handle_of handles dict_get String.eqb Ascii.eqb Bool.eqb of_option
         ret].
    unfold bind at 1. unfold read_gatt_char at 1, bind at 1, emit at 1.
    cbn [with_trace gatt trace]. rewrite Hg.
    eexists. split; [reflexivity|].
    cbn [trace with_trace List.length repeat].
    rewrite gatt_reads_app. reflexivity.
  - inversion Hlen as [|? ? Hp Hps]; subst.
    cbn [read_batch]. unfold bind at 1.
    cbn [handle_of handles dict_get String.eqb Ascii.eqb Bool.eqb of_option
         ret].
    unfold bind at 1. unfold read_gatt_char at 1, bind at 1, emit at 1.
    cbn [with_trace gatt trace byteorder]. rewrite Hg.
    unfold bind at 1. unfold struct_unpack at 1, bind at 1, ask at 1.
    cbn [with_gatt byteorder].
    rewrite (unpack_lt_fI_8 _ p Hp). cbn [of_option ret as_sample].
    unfold bind at 1. unfold bind at 1, emit at 1. cbn [ret].
    match goal with
    | |- exists w', read_batch _ _ ?dl ?w1 = _ /\ _ =>
        destruct (IH turns counts dl w1) as (w' & Hrun & Hreads)
    end.
    + cbn [gatt with_trace with_gatt]. reflexivity.
    + exact Hps.
    + cbn [List.length] in Hlt. lia.
    + exists w'. split; [exact Hrun|].
      rewrite Hreads. cbn [gatt trace with_trace with_gatt List.length].
      rewrite !gatt_reads_app. cbn [gatt_reads repeat].
      rewrite app_nil_r, <- app_assoc. reflexivity.
Qed.

(** X15.  When the device reports more buffered samples than it then
    delivers, the first history read left unanswered fails the run: the
    drain ends with the transport error after one read per delivered
    record and the failed one, the samples already read are dropped with
    it, and download mode writes nothing. *)
Theorem drain_fails_when_the_device_runs_dry :
  forall (args : Namespace) (fuel : nat) (c : Z) (w : world)
         (hist rest_c : list bytes),
  count_ok c ->
  gatt w 26 = le32 c :: rest_c ->
  gatt w 20 = hist ->
  Forall (fun p => List.length p = 8%nat) hist ->
  Z.of_nat (List.length hist) < c ->
  exists w',
    drain (S fuel) w = (Stop (Raised BleakError), w')
    /\ gatt_reads (trace w')
       = gatt_reads (trace w) ++ 26 :: repeat 20 (S (List.length hist))
    /\ fst (download_mode args (S fuel) w) = Stop (Raised BleakError).
Proof.
  intros args fuel c w hist rest_c Hc H26 H20 H8 Hshort.
  assert (Hc' := Hc). unfold count_ok in Hc'.
  assert (Hrange : 0 <= c < 4294967296) by lia.
  assert (Hdrain : forall w0 : world,
            gatt w0 26 = le32 c :: rest_c -> gatt w0 20 = hist ->
            exists w',
              drain (S fuel) w0 = (Stop (Raised BleakError), w')
              /\ gatt_reads (trace w')
                 = gatt_reads (trace w0)
                   ++ 26 :: repeat 20 (S (List.length hist))).
  { intros w0 Hg26 Hg20.
    pose proof (readCounts_run 26 c rest_c w0 Hrange Hg26) as Hrun1.
    match type of Hrun1 with
    | _ = (_, ?w1) =>
        destruct (read_batch_dry hist (Z.to_nat c) c []
                    (with_clock_reads (S (clock_reads w1)) w1))
          as (w2 & Hrun2 & Hreads);
          [ cbn [gatt with_trace with_gatt with_clock_reads]; exact Hg20
          | exact H8 | lia | ]
    end.
    exists w2. split.
    - unfold drain. unfold bind at 1.
      cbn [handle_of handles dict_get String.eqb Ascii.eqb Bool.eqb
           of_option ret].
      unfold bind at 1. rewrite Hrun1.
      unfold bind at 1. unfold time_time at 1.
      unfold bind at 1. cbn [drain_loop].
      replace (c >? 0) with true by (symmetry; apply Z.gtb_lt; lia).
      unfold bind at 1. rewrite Hrun2. reflexivity.
    - rewrite Hreads. cbn [trace with_trace with_gatt with_clock_reads].
      rewrite !gatt_reads_app. cbn [gatt_reads].
      rewrite !app_nil_r, <- app_assoc. reflexivity. }
  destruct (Hdrain w H26 H20) as (w' & Hrun & Hreads).
  exists w'. split; [exact Hrun|]. split; [exact Hreads|].
  unfold download_mode. unfold bind at 1. unfold log at 1, emit at 1.
  unfold bind at 1.
  match goal with
  | |- context [drain (S fuel) ?w0] =>
      destruct (Hdrain w0 H26 H20) as (w'' & Hrun' & _)
  end.
  rewrite Hrun'. reflexivity.
Qed.


Lemma drain_loop_keeps_going (cs : list Z) :
  forall (fuel : nat) (c : Z) (dataList : list (PyFloat.float * Z))
         (w : world) (hist rest_h rest_c : list bytes),
  count_ok c ->
  Forall count_ok cs ->
  List.length cs = fuel ->
  gatt w 26 = map le32 cs ++ rest_c ->
  gatt w 20 = hist ++ rest_h ->
  List.length hist = Z.to_nat (sumZ (removelast (c :: cs))) ->
  Forall (fun p => List.length p = 8%nat) hist ->
  exists w',
    drain_loop fuel c dataList w = (Stop OutOfFuel, w')
    /\ gatt_reads (trace w')
       = gatt_reads (trace w) ++ batches 20 26 (removelast (c :: cs)).
Proof.
  induction cs as [|c' cs IH];
    intros fuel c dataList w hist rest_h rest_c Hc Hcs Hfuel H26 H20 Hlen H8;
    assert (Hc' := Hc); unfold count_ok in Hc'.
  - cbn [List.length] in Hfuel. subst fuel.
    exists w. cbn [drain_loop].
    replace (c >? 0) with true by (symmetry; apply Z.gtb_lt; lia).
    cbn [removelast batches flat_map]. rewrite app_nil_r.
    split; reflexivity.
  - inversion Hcs as [|? ? Hc1 Hcs']; subst.
    cbn [List.length]. cbn [map app] in H26.
    change (removelast (c :: c' :: cs)) with (c :: removelast (c' :: cs))
      in Hlen |- *.
    cbn [sumZ fold_right] in Hlen. fold (sumZ (removelast (c' :: cs))) in Hlen.
    assert (Hsum : 0 <= sumZ (removelast (c' :: cs))).
    { apply sumZ_nonneg. clear - Hc1 Hcs'.
      revert c' Hc1. induction Hcs' as [|x l Hx Hl IHl]; intros c' Hc1.
      - constructor.
      - change (removelast (c' :: x :: l)) with (c' :: removelast (x :: l)).
        constructor; [exact Hc1 | apply IHl; exact Hx]. }
    set (n := Z.to_nat c).
    assert (Hfirst : List.length (firstn n hist) = n).
    { apply firstn_length_le. rewrite Hlen. subst n. lia. }
    assert (Hsplit : hist = firstn n hist ++ skipn n hist)
      by (symmetry; apply firstn_skipn).
    destruct (read_batch_run (firstn n hist) c dataList w
                (skipn n hist ++ rest_h)) as (w1 & Hrun1 & H20' & Hf1 & Hr1).
    { rewrite app_assoc, <- Hsplit. exact H20. }
    { rewrite Forall_forall in *. intros p Hp. apply H8.
      rewrite Hsplit. apply in_or_app. left. exact Hp. }
    rewrite Hfirst in Hrun1, Hr1.
    assert (Hrange : 0 <= c' < 4294967296) by (unfold count_ok in Hc1; lia).
    assert (Hg1 : gatt w1 26 = le32 c' :: map le32 cs ++ rest_c)
      by (rewrite Hf1 by lia; exact H26).
    pose proof (readCounts_run 26 _ _ w1 Hrange Hg1) as Hrun2.
    match type of Hrun2 with
    | _ = (_, ?w2) =>
        destruct (IH (List.length cs) c'
                    (dataList ++ map sample_of (firstn n hist)) w2
                    (skipn n hist) rest_h rest_c)
          as (w' & Hrun3 & Hr3)
    end.
    + exact Hc1.
    + exact Hcs'.
    + reflexivity.
    + cbn [gatt with_trace with_gatt]. reflexivity.
    + cbn [gatt with_trace with_gatt]. exact H20'.
    + rewrite length_skipn, Hlen. subst n. lia.
    + rewrite Forall_forall in *. intros p Hp. apply H8.
      rewrite Hsplit. apply in_or_app. right. exact Hp.
    + exists w'. cbn [drain_loop].
      replace (c >? 0) with true by (symmetry; apply Z.gtb_lt; lia).
      fold n. unfold bind at 1. rewrite Hrun1.
      unfold bind at 1.
      cbn [handle_of handles dict_get String.eqb Ascii.eqb Bool.eqb
           of_option ret].
      unfold bind at 1. rewrite Hrun2. rewrite Hrun3.
      split; [reflexivity|].
      rewrite Hr3. cbn [trace with_trace with_gatt].
      rewrite !gatt_reads_app, Hr1.
      cbn [gatt_reads batches flat_map].
      fold (batches 20 26 (removelast (c' :: cs))).
      fold n. rewrite app_nil_r. repeat rewrite <- app_assoc. reflexivity.
Qed.

(** X14.  The drain has no limit on its passes: as long as every count
    the device reports is positive, each pass is followed by another.
    After any number [n] of complete passes over positive counts
    [c1, ..., cn], with [c(n+1)] positive too, the loop has read
    [c1 + ... + cn] records and has not returned. *)
Theorem drain_goes_on_while_counts_are_positive :
  forall (cs : list Z) (fuel : nat) (w : world)
         (hist rest_h rest_c : list bytes),
  Forall count_ok cs ->
  List.length cs = S fuel ->
  gatt w 26 = map le32 cs ++ rest_c ->
  gatt w 20 = hist ++ rest_h ->
  List.length hist = Z.to_nat (sumZ (removelast cs)) ->
  Forall (fun p => List.length p = 8%nat) hist ->
  exists w',
    drain fuel w = (Stop OutOfFuel, w')
    /\ gatt_reads (trace w')
       = gatt_reads (trace w) ++ 26 :: batches 20 26 (removelast cs).
Proof.
  intros cs fuel w hist rest_h rest_c Hcs Hfuel H26 H20 Hlen H8.
  destruct cs as [|c cs]; [discriminate Hfuel|].
  inversion Hcs as [|? ? Hc Hcs']; subst.
  assert (Hrange : 0 <= c < 4294967296) by (unfold count_ok in Hc; lia).
  cbn [map app] in H26.
  pose proof (readCounts_run 26 _ _ w Hrange H26) as Hrun1.
  match type of Hrun1 with
  | _ = (_, ?w1) =>
      destruct (drain_loop_keeps_going cs fuel c []
                  (with_clock_reads (S (clock_reads w1)) w1)
                  hist rest_h rest_c)
        as (w2 & Hrun2 & Hreads);
        [ exact Hc | exact Hcs'
        | cbn [List.length] in Hfuel; lia
        | cbn [gatt with_trace with_gatt with_clock_reads]; reflexivity
        | cbn [gatt with_trace with_gatt with_clock_reads]; exact H20
        | exact Hlen | exact H8 | ]
  end.
  exists w2. split.
  - unfold drain. unfold bind at 1.
    cbn [handle_of handles dict_get String.eqb Ascii.eqb Bool.eqb
         of_option ret].
    unfold bind at 1. rewrite Hrun1.
    unfold bind at 1. unfold time_time at 1.
    unfold bind at 1. rewrite Hrun2. reflexivity.
  - rewrite Hreads. cbn [trace with_trace with_gatt with_clock_reads].
    rewrite !gatt_reads_app. cbn [gatt_reads].
    rewrite !app_nil_r, <- app_assoc. reflexivity.
Qed.

(** * [plotPressure.py] *)

(** ** The default name of the figure *)

Lemma string_append_assoc (a b c : string) :
  String.append (String.append a b) c = String.append a (String.append b c).
Proof.
  induction a as [|x a IH]; [reflexivity|].
  cbn [String.append]. rewrite IH. reflexivity.
Qed.

Lemma replace_keeps_dotless (s t : string) :
  plotPressure.dotless s = true ->
  plotPressure.replace_from ".txt" "" 0 (String.append s t)
  = String.append s (plotPressure.replace_from ".txt" "" 0 t).
Proof.
  induction s as [|c s IH]; intros Hs; [reflexivity|].
  cbn [plotPressure.dotless] in Hs. apply andb_prop in Hs as (Hc & Hs).
  cbn [String.append plotPressure.replace_from String.prefix].
  destruct (ascii_dec "." c) as [E | _].
  - subst c. discriminate Hc.
  - rewrite IH by exact Hs. reflexivity.
Qed.

Lemma replace_drops_extension (t : string) :
  plotPressure.replace_from ".txt" "" 0 (String.append ".txt" t)
  = plotPressure.replace_from ".txt" "" 0 t.
Proof. destruct t; reflexivity. Qed.

Lemma string_append_nil (u : string) : String.append u "" = u.
Proof.
  induction u as [|c u IH]; [reflexivity|].
  cbn [String.append]. rewrite IH. reflexivity.
Qed.

Lemma replace_dotless (t : string) :
  plotPressure.dotless t = true ->
  plotPressure.replace_from ".txt" "" 0 t = t.
Proof.
  intros Ht. rewrite <- (string_append_nil t) at 1.
  rewrite replace_keeps_dotless by exact Ht.
  apply string_append_nil.
Qed.

Lemma replace_join (names : list string) :
  Forall (fun n => plotPressure.dotless n = true) names ->
  plotPressure.replace ".txt" ""
    (plotPressure.join "-" (map (fun n => String.append n ".txt") names))
  = plotPressure.join "-" names.
Proof.
  unfold plotPressure.replace, plotPressure.join.
  induction 1 as [|n names Hn Hnames IH]; [reflexivity|].
  destruct names as [|n' names].
  - cbn [map String.concat].
    rewrite replace_keeps_dotless by exact Hn.
    change (plotPressure.replace_from ".txt" "" 0 ".txt") with "".
    apply string_append_nil.
  - change (String.concat "-" (map (fun n => String.append n ".txt")
                                 (n :: n' :: names)))
      with (String.append (String.append n ".txt")
              (String.append "-"
                 (String.concat "-"
                    (map (fun n => String.append n ".txt") (n' :: names))))).
    change (String.concat "-" (n :: n' :: names))
      with (String.append n
              (String.append "-" (String.concat "-" (n' :: names)))).
    rewrite string_append_assoc.
    rewrite replace_keeps_dotless by exact Hn.
    rewrite replace_drops_extension.
    rewrite (replace_keeps_dotless "-") by reflexivity.
    rewrite IH. reflexivity.
Qed.

(** X11.  Without [--outfile] (or with an empty one) the figure is
    named after the input files: for files [n1.txt], ..., [nk.txt] whose
    stems hold no dot, the name is [n1-...-nk.png].  The [.txt] is
    dropped wherever it stands, not only at the end: [s.txt] followed by
    [t] gives [s] followed by [t] and [.png]. *)
Theorem default_figure_name :
  forall (args : plotPressure.Namespace),
  plotPressure.truthy (plotPressure.outfile args) = false ->
  (forall names,
     plotPressure.filename args = map (fun n => String.append n ".txt") names ->
     Forall (fun n => plotPressure.dotless n = true) names ->
     plotPressure.output_name args
     = String.append (plotPressure.join "-" names) ".png")
  /\ (forall s t,
        plotPressure.filename args
        = [String.append s (String.append ".txt" t)] ->
        plotPressure.dotless s = true ->
        plotPressure.dotless t = true ->
        plotPressure.output_name args
        = String.append (String.append s t) ".png").
Proof.
  intros args Hout. unfold plotPressure.output_name. rewrite Hout. split.
  - intros names Hfiles Hdots. rewrite Hfiles, replace_join by exact Hdots.
    reflexivity.
  - intros s t Hfiles Hs Ht. rewrite Hfiles.
    unfold plotPressure.replace, plotPressure.join. cbn [String.concat].
    rewrite replace_keeps_dotless by exact Hs.
    rewrite replace_drops_extension.
    rewrite replace_dotless by exact Ht.
    rewrite string_append_assoc. reflexivity.
Qed.

(** ** Plotting the tables *)

Lemma same_width_plottable (rows : list (list PyFloat.float)) :
  Forall (fun r => List.length r = 2%nat) rows ->
  plotPressure.same_width 2 rows = true.
Proof.
  unfold plotPressure.same_width.
  induction 1 as [|r rows Hr _ IH]; [reflexivity|].
  cbn [forallb]. rewrite Hr, IH. reflexivity.
Qed.

Lemma datetimes_in_range (m : plotPressure.machine)
  (ts : list PyFloat.float) :
  Forall (plotPressure.in_range m) ts ->
  plotPressure.datetimes m (map plotPressure.Scalar ts)
  = inr (map plotPressure.Datetime ts).
Proof.
  induction 1 as [|t ts Ht _ IH]; [reflexivity|].
  cbn [map plotPressure.datetimes].
  unfold plotPressure.in_range in Ht. rewrite Ht, IH. reflexivity.
Qed.

Lemma plot_file_table (args : plotPressure.Namespace)
  (m : plotPressure.machine) (fname : string)
  (rows : list (list PyFloat.float)) :
  plotPressure.files m fname = plotPressure.Table rows ->
  plotPressure.plottable rows ->
  plotPressure.plot_file args m fname
  = match plotPressure.datetimes m
            (map plotPressure.Scalar (plotPressure.second rows)) with
    | inl e => (plotPressure.announced fname rows, inl e)
    | inr times =>
        (plotPressure.announced fname rows
         ++ [plotPressure.Plot times
               (plotPressure.Vector
                  (if plotPressure.pascal args then plotPressure.first rows
                   else map (fun x => PyFloat.div x plotPressure.lit_100)
                          (plotPressure.first rows)))
               "o-" (plotPressure.replace ".txt" "" fname)],
         inr (if plotPressure.pascal args then "Pressure [Pa]"
              else "Pressure [mbar]"))
    end.
Proof.
  intros Hf (Hlen & Hw). unfold plotPressure.plot_file. rewrite Hf.
  destruct rows as [|r1 [|r2 rest]];
    [cbn [List.length] in Hlen; lia | cbn [List.length] in Hlen; lia|].
  inversion Hw as [|? ? Hr1 Hw1]; subst.
  destruct r1 as [|a [|b [|? ?]]]; try discriminate Hr1.
  unfold plotPressure.loadtxt.
  cbn [List.length]. rewrite (same_width_plottable _ Hw1).
  cbn [negb orb Nat.eqb].
  cbn [plotPressure.T hd List.length plotPressure.columns
       plotPressure.unpack2 plotPressure.items].
  unfold plotPressure.announced, plotPressure.second, plotPressure.first.
  rewrite !length_map. cbn [map hd tl].
  match goal with
  | |- context [plotPressure.datetimes m ?ts] =>
      destruct (plotPressure.datetimes m ts)
  end; [reflexivity|].
  destruct (plotPressure.pascal args); reflexivity.
Qed.

Lemma plot_file_plottable (args : plotPressure.Namespace)
  (m : plotPressure.machine) (fname : string)
  (rows : list (list PyFloat.float)) :
  plotPressure.files m fname = plotPressure.Table rows ->
  plotPressure.plottable rows ->
  Forall (plotPressure.in_range m) (plotPressure.second rows) ->
  plotPressure.plot_file args m fname
  = (plotPressure.plotted args fname rows,
     inr (if plotPressure.pascal args then "Pressure [Pa]"
          else "Pressure [mbar]")).
Proof.
  intros Hf Hrows Htimes.
  rewrite (plot_file_table args m fname rows Hf Hrows).
  rewrite (datetimes_in_range m _ Htimes). reflexivity.
Qed.

Lemma plot_files_plottable (args : plotPressure.Namespace)
  (m : plotPressure.machine) (fnames : list string) :
  forall plabel,
  (forall f, In f fnames ->
     exists rows,
       plotPressure.files m f = plotPressure.Table rows
       /\ plotPressure.plottable rows
       /\ Forall (plotPressure.in_range m) (plotPressure.second rows)) ->
  plotPressure.plot_files args m fnames plabel
  = (flat_map (fun f => plotPressure.plotted args f (plotPressure.table m f))
       fnames,
     inr (match fnames with
          | [] => plabel
          | _ => Some (if plotPressure.pascal args then "Pressure [Pa]"
                       else "Pressure [mbar]")
          end)).
Proof.
  induction fnames as [|f fnames IH]; intros plabel Hall; [reflexivity|].
  destruct (Hall f (or_introl eq_refl)) as (rows & Hf & Hrows & Htimes).
  cbn [plotPressure.plot_files flat_map].
  rewrite (plot_file_plottable args m f rows Hf Hrows Htimes).
  rewrite IH by (intros g Hg; apply Hall; right; exact Hg).
  assert (Ht : plotPressure.table m f = rows)
    by (unfold plotPressure.table; rewrite Hf; reflexivity).
  rewrite Ht. destruct fnames; reflexivity.
Qed.

Lemma plot_files_stops (args : plotPressure.Namespace)
  (m : plotPressure.machine) (before : list string) :
  forall plabel f after calls e,
  (forall g, In g before ->
     exists rows,
       plotPressure.files m g = plotPressure.Table rows
       /\ plotPressure.plottable rows
       /\ Forall (plotPressure.in_range m) (plotPressure.second rows)) ->
  plotPressure.plot_file args m f = (calls, inl e) ->
  plotPressure.plot_files args m (before ++ f :: after) plabel
  = (flat_map (fun g => plotPressure.plotted args g (plotPressure.table m g))
       before ++ calls,
     inl e).
Proof.
  induction before as [|g before IH]; intros plabel f after calls e Hall Hf.
  - cbn [app plotPressure.plot_files flat_map]. rewrite Hf. reflexivity.
  - destruct (Hall g (or_introl eq_refl)) as (rows & Hg & Hrows & Htimes).
    cbn [app plotPressure.plot_files flat_map].
    rewrite (plot_file_plottable args m g rows Hg Hrows Htimes).
    rewrite (IH _ f after calls e) by
      (try exact Hf; intros h Hh; apply Hall; right; exact Hh).
    assert (Ht : plotPressure.table m g = rows)
      by (unfold plotPressure.table; rewrite Hg; reflexivity).
    rewrite Ht, <- app_assoc. reflexivity.
Qed.

Lemma verbosity_known (v : Z) :
  0 <= v <= 3 -> exists l, level_get loglvls v = Some l.
Proof.
  intros Hv.
  assert (Hcases : v = 0 \/ v = 1 \/ v = 2 \/ v = 3) by lia.
  destruct Hcases as [-> | [-> | [-> | ->]]]; eexists; reflexivity.
Qed.

Lemma plotted_never_saves (args : plotPressure.Namespace)
  (m : plotPressure.machine) (fnames : list string) :
  existsb plotPressure.is_savefig
    (flat_map (fun f => plotPressure.plotted args f (plotPressure.table m f))
       fnames) = false.
Proof.
  induction fnames as [|f fnames IH]; [reflexivity|].
  cbn [flat_map]. rewrite existsb_app, IH. reflexivity.
Qed.

(** X13.  When every input file holds a table of two columns and at
    least two rows, with times that [datetime.fromtimestamp] accepts
    on the machine, the script plots each file once, in the order
    given: the second column, turned into datetimes, as times, the
    first as pressures, divided by [100.] unless [--pascal] is given,
    under the file name without [.txt].  The axis is labelled in
    millibar or pascal accordingly.  The figure is then saved once,
    last, at 200 dpi, unless [plt.savefig] refuses the file name: then
    the run ends with that exception, after the same calls, and nothing
    is saved. *)
Theorem every_table_is_plotted_once :
  forall (args : plotPressure.Namespace) (m : plotPressure.machine),
  0 <= plotPressure.verbose args <= 3 ->
  plotPressure.filename args <> [] ->
  (forall f, In f (plotPressure.filename args) ->
     exists rows,
       plotPressure.files m f = plotPressure.Table rows
       /\ plotPressure.plottable rows
       /\ Forall (plotPressure.in_range m) (plotPressure.second rows)) ->
  let drawn :=
    plotPressure.Figure 10 4
    :: flat_map
         (fun f => plotPressure.plotted args f (plotPressure.table m f))
         (plotPressure.filename args)
    ++ [plotPressure.Legend;
        plotPressure.Ylabel (if plotPressure.pascal args
                             then "Pressure [Pa]" else "Pressure [mbar]");
        plotPressure.Xlabel "Time";
        plotPressure.TightLayout;
        plotPressure.LogRecord INFO
          [Text "Writing to file "; Text plotPressure.DQUOTE;
           Text (plotPressure.output_name args); Text plotPressure.DQUOTE]] in
  existsb plotPressure.is_savefig drawn = false
  /\ match plotPressure.unsavable m (plotPressure.output_name args) with
     | None =>
         plotPressure.main args m
         = (drawn
            ++ [plotPressure.SaveFig (plotPressure.output_name args) 200],
            None)
     | Some e => plotPressure.main args m = (drawn, Some e)
     end.
Proof.
  intros args m Hv Hne Hall drawn. split.
  - unfold drawn. cbn [existsb plotPressure.is_savefig orb].
    rewrite existsb_app, plotted_never_saves. reflexivity.
  - unfold plotPressure.main.
    destruct (verbosity_known _ Hv) as (l & ->).
    rewrite plot_files_plottable by exact Hall.
    unfold drawn.
    destruct (plotPressure.filename args); [contradiction Hne; reflexivity|].
    destruct (plotPressure.unsavable m (plotPressure.output_name args));
      reflexivity.
Qed.

(** X12.  A file the script cannot turn into times and pressures ends
    the run before anything is saved, whatever was plotted before it: a
    file with a single row of two numbers is read as a one-dimensional
    array, its two items are numbers, and [len] of the second raises
    [TypeError]; a file without rows, or one that does not hold rows of
    numbers, raises [ValueError]; a file that cannot be read raises
    [OSError]; a table with a time that [datetime.fromtimestamp]
    refuses raises the exception of that call, after the two log
    records of the file and before anything of it is plotted. *)
Theorem unplottable_file_ends_the_run_unsaved :
  forall (args : plotPressure.Namespace) (m : plotPressure.machine)
         (before after : list string) (f : string),
  0 <= plotPressure.verbose args <= 3 ->
  plotPressure.filename args = before ++ f :: after ->
  (forall g, In g before ->
     exists rows,
       plotPressure.files m g = plotPressure.Table rows
       /\ plotPressure.plottable rows
       /\ Forall (plotPressure.in_range m) (plotPressure.second rows)) ->
  let drawn :=
    plotPressure.Figure 10 4
    :: flat_map
         (fun g => plotPressure.plotted args g (plotPressure.table m g))
         before in
  (forall rows,
     existsb plotPressure.is_savefig
       (drawn ++ plotPressure.announced f rows) = false)
  /\ (forall p t,
        plotPressure.files m f = plotPressure.Table [[p; t]] ->
        plotPressure.main args m = (drawn, Some plotPressure.TypeError))
  /\ (plotPressure.files m f = plotPressure.Table [] ->
      plotPressure.main args m = (drawn, Some plotPressure.ValueError))
  /\ (plotPressure.files m f = plotPressure.Garbled ->
      plotPressure.main args m = (drawn, Some plotPressure.ValueError))
  /\ (plotPressure.files m f = plotPressure.Missing ->
      plotPressure.main args m = (drawn, Some plotPressure.OSError))
  /\ (forall rows e,
        plotPressure.files m f = plotPressure.Table rows ->
        plotPressure.plottable rows ->
        plotPressure.datetimes m
          (map plotPressure.Scalar (plotPressure.second rows)) = inl e ->
        plotPressure.main args m
        = (drawn ++ plotPressure.announced f rows, Some e)).
Proof.
  intros args m before after f Hv Hfiles Hall drawn.
  split.
  { intros rows. unfold drawn. cbn [app existsb plotPressure.is_savefig orb].
    rewrite existsb_app, (plotted_never_saves args m before). reflexivity. }
  assert (Hstop : forall calls e,
            plotPressure.plot_file args m f = (calls, inl e) ->
            plotPressure.main args m = (drawn ++ calls, Some e)).
  { intros calls e He. unfold plotPressure.main.
    destruct (verbosity_known _ Hv) as (l & ->).
    rewrite Hfiles.
    rewrite (plot_files_stops args m before None f after calls e Hall He).
    reflexivity. }
  split; [|split; [|split; [|split]]].
  - intros p t Hf. rewrite <- (app_nil_r drawn). apply Hstop.
    unfold plotPressure.plot_file. rewrite Hf. reflexivity.
  - intros Hf. rewrite <- (app_nil_r drawn). apply Hstop.
    unfold plotPressure.plot_file. rewrite Hf. reflexivity.
  - intros Hf. rewrite <- (app_nil_r drawn). apply Hstop.
    unfold plotPressure.plot_file. rewrite Hf. reflexivity.
  - intros Hf. rewrite <- (app_nil_r drawn). apply Hstop.
    unfold plotPressure.plot_file. rewrite Hf. reflexivity.
  - intros rows e Hf Hrows He. apply Hstop.
    rewrite (plot_file_table args m f rows Hf Hrows), He. reflexivity.
Qed.

(** * The further properties at the sample worlds *)

Lemma interval_out_of_range_is_not_written_witness :
  exists w',
    configure_interval (-1) (bench struct.Little sampling)
    = (Stop (Raised StructError), w')
    /\ existsb is_write (trace w') = false.
Proof.
  destruct (interval_out_of_range_is_not_written (-1)
              (bench struct.Little sampling) x01 x00 x00 x00 [])
    as (w' & Hrun & Ht & _).
  - left. lia.
  - reflexivity.
  - exists w'. split; [exact Hrun|]. rewrite Ht. reflexivity.
Defined.

Lemma device_is_written_only_for_the_interval_witness :
  exists evs,
    trace (snd (loop scan_args 1 (bench struct.Little sampling))) = evs
    /\ forallb no_write evs = true.
Proof.
  destruct (device_is_written_only_for_the_interval scan_args 1
              (bench struct.Little sampling))
    as (evs & Ht & _ & Hnone).
  exists evs. split; [exact Ht | exact (Hnone eq_refl)].
Defined.

Lemma scan_prints_each_pressure_once_witness :
  exists evs,
    trace (snd (with_client nano 5 (scan_mode scan_args)
                  (bench struct.Little sampling))) = evs
    /\ printed evs
       = [(PyFloat.lit_1_0, CR); (PyFloat.of_int 2, CR); (PyFloat.of_int 3, CR)]
    /\ List.length (filter is_failed evs) = 1%nat.
Proof.
  exact (scan_prints_each_pressure_once scan_args nano 5
           (bench struct.Little sampling) eq_refl eq_refl).
Defined.

Lemma rssi_filter_is_monotone_witness :
  keep_strong (-70) (keep_strong (-80) (advertising (bench struct.Little sampling)))
  = keep_strong (-70) (advertising (bench struct.Little sampling)).
Proof.
  refine (proj1 (rssi_filter_is_monotone (-80) (-70)
                   (advertising (bench struct.Little sampling)) _)).
  lia.
Defined.

Lemma cancelled_menu_ends_the_run_witness :
  exit_status (fst (loop scan_args 1 (undecided (bench struct.Little sampling))))
  = Some 1.
Proof.
  destruct (cancelled_menu_ends_the_run scan_args 1
              (undecided (bench struct.Little sampling)))
    as (w' & _ & Hexit & _).
  - reflexivity.
  - simpl. lia.
  - reflexivity.
  - exact Hexit.
Defined.

Lemma verbosity_beyond_three_is_a_key_error_witness :
  main chatty_args 1 (bench struct.Little sampling)
  = (Stop (Raised KeyError), bench struct.Little sampling).
Proof.
  refine (proj1 (proj2 (verbosity_beyond_three_is_a_key_error chatty_args 1
                          (bench struct.Little sampling)) _)).
  right. simpl. lia.
Defined.

Lemma default_figure_name_witness :
  plotPressure.output_name (plot_args ["pressure.txt"; "run2.txt"])
  = "pressure-run2.png".
Proof.
  refine (proj1 (default_figure_name (plot_args ["pressure.txt"; "run2.txt"])
                   eq_refl)
            ["pressure"; "run2"] eq_refl _).
  repeat constructor.
Defined.

Lemma unplottable_file_ends_the_run_unsaved_witness :
  plotPressure.main (plot_args ["pressure.txt"; "ms.txt"; "run2.txt"]) desk
  = (plotPressure.Figure 10 4
     :: plotPressure.plotted (plot_args ["pressure.txt"; "ms.txt"; "run2.txt"])
          "pressure.txt" two_rows
     ++ plotPressure.announced "ms.txt" two_rows_ms,
     Some plotPressure.ValueError).
Proof.
  assert (Hv : 0 <= plotPressure.verbose
                      (plot_args ["pressure.txt"; "ms.txt"; "run2.txt"])
               <= 3) by (simpl; lia).
  assert (Hall : forall g, In g ["pressure.txt"] ->
            exists rows,
              plotPressure.files desk g = plotPressure.Table rows
              /\ plotPressure.plottable rows
              /\ Forall (plotPressure.in_range desk)
                   (plotPressure.second rows)).
  { intros g [<- | []]. exists two_rows. split; [reflexivity|].
    split; [split; [simpl; lia | repeat constructor]|].
    repeat constructor. }
  assert (Hrows : plotPressure.plottable two_rows_ms)
    by (split; [simpl; lia | repeat constructor]).
  rewrite (proj2 (proj2 (proj2 (proj2 (proj2
             (unplottable_file_ends_the_run_unsaved
                (plot_args ["pressure.txt"; "ms.txt"; "run2.txt"])
                desk ["pressure.txt"] ["run2.txt"] "ms.txt"
                Hv eq_refl Hall)))))
             two_rows_ms plotPressure.ValueError eq_refl Hrows eq_refl).
  reflexivity.
Defined.

Lemma every_table_is_plotted_once_witness :
  snd (plotPressure.main (plot_args ["pressure.txt"; "run2.txt"]) desk)
  = None.
Proof.
  assert (Hv : 0 <= plotPressure.verbose
                      (plot_args ["pressure.txt"; "run2.txt"]) <= 3)
    by (simpl; lia).
  assert (Hne : plotPressure.filename (plot_args ["pressure.txt"; "run2.txt"])
                <> []) by discriminate.
  assert (Hall : forall g,
            In g (plotPressure.filename
                    (plot_args ["pressure.txt"; "run2.txt"])) ->
            exists rows,
              plotPressure.files desk g = plotPressure.Table rows
              /\ plotPressure.plottable rows
              /\ Forall (plotPressure.in_range desk)
                   (plotPressure.second rows)).
  { intros g [<- | [<- | []]]; exists two_rows;
      (split; [reflexivity|];
       split; [split; [simpl; lia | repeat constructor]|];
       repeat constructor). }
  pose proof (proj2 (every_table_is_plotted_once
                       (plot_args ["pressure.txt"; "run2.txt"]) desk
                       Hv Hne Hall)) as Hmain.
  change (plotPressure.unsavable desk
            (plotPressure.output_name (plot_args ["pressure.txt"; "run2.txt"])))
    with (@None plotPressure.error) in Hmain.
  cbv iota in Hmain. rewrite Hmain. reflexivity.
Defined.

Lemma drain_goes_on_while_counts_are_positive_witness :
  exists w',
    drain 1 (bench struct.Little filling_buffer) = (Stop OutOfFuel, w')
    /\ gatt_reads (trace w') = [26; 20; 20; 26].
Proof.
  refine (drain_goes_on_while_counts_are_positive [2; 1] 1
            (bench struct.Little filling_buffer)
            [record_250; record_500] [record_750] [le32 0] _ _ _ _ _ _).
  - repeat constructor.
  - reflexivity.
  - reflexivity.
  - reflexivity.
  - reflexivity.
  - repeat constructor.
Defined.

Lemma drain_fails_when_the_device_runs_dry_witness :
  exists w',
    drain 1 (bench struct.Little short_buffer) = (Stop (Raised BleakError), w')
    /\ gatt_reads (trace w') = [26; 20; 20; 20; 20]
    /\ fst (download_mode download_args 1 (bench struct.Little short_buffer))
       = Stop (Raised BleakError).
Proof.
  refine (drain_fails_when_the_device_runs_dry download_args 0 5
            (bench struct.Little short_buffer)
            [record_250; record_500; record_750] [] _ _ _ _ _).
  - unfold count_ok. lia.
  - reflexivity.
  - reflexivity.
  - repeat constructor.
  - simpl. lia.
Defined.
